(** * PUF challenge generator: stability mask, extraction, key derivation

    A shallow embedding of [tools/puf-challenge-generator/pufchallenge.py]
    together with the Python built-ins it calls ([int], [bin], [hex],
    [str.zfill], [str.strip], slicing, [bytearray]) and the primitive behind
    [hashlib.pbkdf2_hmac('sha256', ...)] (SHA-256, HMAC, PBKDF2).

    The lines of a measurement file are modelled as lists of 8-bit
    characters, read as the code points U+0000..U+00FF; [int] and
    [hex_to_binary] are also given on arbitrary strings, as lists of code
    points (module [Unicode]), and shown to agree with the 8-bit reading.
    Python integers are [Z]; [bytes] and [bytearray] are lists of
    [Byte.byte]; a raised exception is [Raise]. *)

From Stdlib Require Import ZArith Ascii String Lia.
From Stdlib.Strings Require Import Byte.
From stdpp Require Import list.

Local Open Scope Z_scope.

(** ** Exceptions *)

Inductive exn : Set :=
| ValueError
| IndexError
| ZeroDivisionError.

Inductive result (A : Type) : Type :=
| Ok (a : A)
| Raise (e : exn).

Arguments Ok {A} a.
Arguments Raise {A} e.

Definition bind {A B : Type} (m : result A) (k : A -> result B) : result B :=
  match m with
  | Ok a => k a
  | Raise e => Raise e
  end.

Notation "'let*' x ':=' m 'in' k" := (bind m (fun x => k))
  (at level 10, x name, m at level 100, k at level 200).

Definition is_ok {A : Type} (m : result A) : bool :=
  match m with Ok _ => true | Raise _ => false end.

(** [[f(x) for x in l]]: the first exception raised aborts the whole list. *)
Fixpoint map_result {A B : Type} (f : A -> result B) (l : list A) : result (list B) :=
  match l with
  | [] => Ok []
  | x :: r =>
      let* y := f x in
      let* ys := map_result f r in
      Ok (y :: ys)
  end.

(** ** Python built-ins *)

Module Py.

Abbreviation str := (list ascii).

Definition lit (s : string) : str := list_ascii_of_string s.

Definition ord (c : ascii) : Z := Z.of_N (N_of_ascii c).

Definition chr_eqb (a b : ascii) : bool := Ascii.eqb a b.

(** [_PyLong_DigitValue]: 0-9, then a-z and A-Z as 10..35, else 37. *)
Definition digit_value (c : ascii) : Z :=
  let n := ord c in
  if (48 <=? n) && (n <=? 57) then n - 48
  else if (97 <=? n) && (n <=? 122) then n - 87
  else if (65 <=? n) && (n <=? 90) then n - 55
  else 37.

(** White space skipped by [int]: the C [isspace] set, and U+0085, U+00A0
    which the conversion to ASCII turns into a blank. *)
Definition int_isspace (c : ascii) : bool :=
  let n := ord c in
  ((9 <=? n) && (n <=? 13)) || (n =? 32) || (n =? 133) || (n =? 160).

(** [str.isspace] on one character, as used by [str.strip]. *)
Definition isspace (c : ascii) : bool :=
  let n := ord c in
  ((9 <=? n) && (n <=? 13)) || ((28 <=? n) && (n <=? 32))
  || (n =? 133) || (n =? 160).

Fixpoint lstrip (s : str) : str :=
  match s with
  | [] => []
  | c :: r => if isspace c then lstrip r else s
  end.

Definition strip (s : str) : str := rev (lstrip (rev (lstrip s))).

Fixpoint skip_int_space (s : str) : str :=
  match s with
  | [] => []
  | c :: r => if int_isspace c then skip_int_space r else s
  end.

(** The digit loop of [PyLong_FromString]: digits below [base], single
    underscores between digits.  Returns the value, the number of digits
    read and the unread rest; [None] on a doubled or trailing underscore. *)
Fixpoint scan_digits (base : Z) (s : str) (acc : Z) (prev_us : bool) (n : nat)
  : option (Z * nat * str) :=
  match s with
  | [] => if prev_us then None else Some (acc, n, [])
  | c :: r =>
      if chr_eqb c "_"
      then (if prev_us then None else scan_digits base r acc true n)
      else if digit_value c <? base
           then scan_digits base r (acc * base + digit_value c) false (S n)
           else if prev_us then None else Some (acc, n, s)
  end.

Definition is_prefix_letter (base : Z) (c : ascii) : bool :=
  ((base =? 16) && (chr_eqb c "x" || chr_eqb c "X"))
  || ((base =? 8) && (chr_eqb c "o" || chr_eqb c "O"))
  || ((base =? 2) && (chr_eqb c "b" || chr_eqb c "B")).

Definition take_sign (s : str) : Z * str :=
  match s with
  | c :: r =>
      if chr_eqb c "+" then (1, r)
      else if chr_eqb c "-" then (-1, r)
      else (1, s)
  | [] => (1, s)
  end.

Definition skip_base_prefix (base : Z) (s : str) : str :=
  match s with
  | z :: c :: r =>
      if chr_eqb z "0" && is_prefix_letter base c
      then match r with
           | u :: r' => if chr_eqb u "_" then r' else r
           | [] => r
           end
      else s
  | _ => s
  end.

Definition starts_with_underscore (s : str) : bool :=
  match s with
  | c :: _ => chr_eqb c "_"
  | [] => false
  end.

(** [int(s, base)] for a string [s] and an explicit base 2, 8 or 16. *)
Definition int (s : str) (base : Z) : result Z :=
  let '(sign, s2) := take_sign (skip_int_space s) in
  let s3 := skip_base_prefix base s2 in
  if starts_with_underscore s3 then Raise ValueError
  else match scan_digits base s3 0 false 0 with
       | None => Raise ValueError
       | Some (v, n, rest) =>
           if Nat.eqb n 0 then Raise ValueError
           else if forallb int_isspace rest then Ok (sign * v)
           else Raise ValueError
       end.

Definition digit_char (d : Z) : ascii :=
  nth (Z.to_nat d) (lit "0123456789abcdef") "0"%char.

(** Digits of a non-negative integer, most significant first. *)
Fixpoint digits_rec (base : Z) (fuel : nat) (n : Z) : str :=
  match fuel with
  | O => []
  | S f =>
      if n <? base then [digit_char n]
      else digits_rec base f (n / base) ++ [digit_char (n mod base)]
  end.

Definition digits (base : Z) (n : Z) : str :=
  digits_rec base (S (Z.to_nat (Z.log2 n))) n.

Definition format_int (prefix : str) (base : Z) (n : Z) : str :=
  if n <? 0 then lit "-" ++ prefix ++ digits base (- n)
  else prefix ++ digits base n.

Definition bin (n : Z) : str := format_int (lit "0b") 2 n.
Definition hex (n : Z) : str := format_int (lit "0x") 16 n.

(** [s.zfill(width)] *)
Definition zfill (s : str) (width : Z) : str :=
  let len := Z.of_nat (length s) in
  if width <=? len then s
  else
    let fill := replicate (Z.to_nat (width - len)) "0"%char in
    match s with
    | c :: r =>
        if chr_eqb c "+" || chr_eqb c "-" then c :: fill ++ r
        else fill ++ s
    | [] => fill
    end.

(** [s[:n]] *)
Definition slice_to {A : Type} (s : list A) (n : Z) : list A :=
  if n <? 0 then take (Z.to_nat (Z.of_nat (length s) + n)) s
  else take (Z.to_nat n) s.

(** [s[i]] for a non-negative index. *)
Definition index {A : Type} (s : list A) (i : nat) : result A :=
  match s !! i with
  | Some x => Ok x
  | None => Raise IndexError
  end.

(** [s.count(c)] for a one-character [c]. *)
Definition count (c : ascii) (s : str) : Z :=
  Z.of_nat (length (List.filter (fun x => chr_eqb x c) s)).

End Py.

(** ** [pufchallenge.py] *)

Definition hex_to_binary (hex_str : Py.str) : result Py.str :=
  let* v := Py.int hex_str 16 in
  Ok (Py.zfill (drop 2 (Py.bin v)) (Z.of_nat (length hex_str) * 4)).

(** [for x in xs: body], threading the loop state and stopping at the first
    exception. *)
Fixpoint for_each {A S : Type} (xs : list A) (body : A -> S -> result S) (s : S)
  : result S :=
  match xs with
  | [] => Ok s
  | x :: r => let* s' := body x s in for_each r body s'
  end.

(** [min(...)] over a generator of integers; empty input raises. *)
Definition py_min (l : list nat) : result nat :=
  match l with
  | [] => Raise ValueError
  | x :: r => Ok (foldl Nat.min x r)
  end.

(** [l[i] = v]: assignment to a list item. *)
Definition store {A : Type} (l : list A) (i : nat) (v : A) : result (list A) :=
  if decide (i < length l)%nat then Ok (<[i := v]> l) else Raise IndexError.

Definition stable_char (x : Z) : ascii :=
  if x =? 0 then "1"%char else "0"%char.

(** Body of the inner loop (lines 61-62): one bit position of rows [i] and
    [i+1]. *)
Definition compare_bit (binary_codes : list Py.str) (i bit_pos : nat)
    (bit_changes : list Z) : result (list Z) :=
  let* cur := Py.index binary_codes i in
  let* a := Py.index cur bit_pos in
  let* nxt := Py.index binary_codes (i + 1) in
  let* b := Py.index nxt bit_pos in
  if negb (Py.chr_eqb a b) then store bit_changes bit_pos 1
  else Ok bit_changes.

(** Body of the outer loop (lines 60-62): every bit position of row [i]. *)
Definition compare_rows (binary_codes : list Py.str) (i : nat)
    (bit_changes : list Z) : result (list Z) :=
  let* row := Py.index binary_codes i in
  for_each (seq 0 (length row)) (compare_bit binary_codes i) bit_changes.

Definition find_stable_bits (hex_codes : list Py.str) : result Py.str :=
  if (length hex_codes <? 2)%nat then Raise ValueError
  else
    let* binary_codes := map_result hex_to_binary hex_codes in
    let* min_length := py_min (map (fun code => length code) binary_codes) in
    let binary_codes := map (fun code => take min_length code) binary_codes in
    let* first := Py.index binary_codes 0 in
    let bit_changes := replicate (length first) 0 in
    let* bit_changes :=
      for_each (seq 0 (length binary_codes - 1)) (compare_rows binary_codes)
               bit_changes in
    Ok (map stable_char bit_changes).

(** [range(0, stop, step)] *)
Definition range_step (stop step : nat) : list nat :=
  map (fun k => (k * step)%nat) (seq 0 ((stop + step - 1) / step)).

(** One item handed to [bytearray(...)]: it must lie in [range(256)]. *)
Definition to_byte (v : Z) : result byte :=
  if (0 <=? v) && (v <? 256)
  then match Byte.of_N (Z.to_N v) with
       | Some b => Ok b
       | None => Raise ValueError
       end
  else Raise ValueError.

(** One step of the generator of lines 74-78: position [i] of the challenge. *)
Definition select_bit (binary_challenge ram_buffer_binary : Py.str) (i : nat)
    (extracted_bits : Py.str) : result Py.str :=
  let* c := Py.index binary_challenge i in
  if Py.chr_eqb c "1"
  then let* r := Py.index ram_buffer_binary i in Ok (extracted_bits ++ [r])
  else Ok extracted_bits.

(** One item of the generator of lines 81-84: the group starting at [i]. *)
Definition pack_byte (extracted_bits : Py.str) (i : nat) : result byte :=
  let* v := Py.int (take 8 (drop i extracted_bits)) 2 in
  to_byte v.

Definition extract_bits_from_sram_to_bytearray
    (binary_challenge ram_buffer_binary : Py.str) : result (list byte) :=
  let* extracted_bits :=
    for_each (seq 0 (length binary_challenge))
             (select_bit binary_challenge ram_buffer_binary) [] in
  map_result (pack_byte extracted_bits) (range_step (length extracted_bits) 8).

(** ** The primitive behind [hashlib.pbkdf2_hmac('sha256', ...)] *)

Definition bytes : Type := list byte.

Definition byte_val (b : byte) : Z := Z.of_N (Byte.to_N b).

Definition byte_of_Z (v : Z) : byte :=
  match Byte.of_N (Z.to_N (v mod 256)) with
  | Some b => b
  | None => x00
  end.

(** SHA-256 (FIPS 180-4), on 32-bit words kept as [Z] with the wrap-around
    written out. *)
Module SHA256.

Definition wrap (x : Z) : Z := x mod 2 ^ 32.
Definition add (x y : Z) : Z := wrap (x + y).
Definition rotr (n x : Z) : Z :=
  Z.lor (Z.shiftr x n) (wrap (Z.shiftl x (32 - n))).
Definition shr (n x : Z) : Z := Z.shiftr x n.
Definition not32 (x : Z) : Z := Z.lxor x 0xffffffff.

Definition Ch (x y z : Z) : Z := Z.lxor (Z.land x y) (Z.land (not32 x) z).
Definition Maj (x y z : Z) : Z :=
  Z.lxor (Z.lxor (Z.land x y) (Z.land x z)) (Z.land y z).
Definition Sigma0 (x : Z) : Z := Z.lxor (Z.lxor (rotr 2 x) (rotr 13 x)) (rotr 22 x).
Definition Sigma1 (x : Z) : Z := Z.lxor (Z.lxor (rotr 6 x) (rotr 11 x)) (rotr 25 x).
Definition sigma0 (x : Z) : Z := Z.lxor (Z.lxor (rotr 7 x) (rotr 18 x)) (shr 3 x).
Definition sigma1 (x : Z) : Z := Z.lxor (Z.lxor (rotr 17 x) (rotr 19 x)) (shr 10 x).

(** The constants are given by their definition: the first 32 bits of the
    fractional parts of the cube roots (for [K]) and of the square roots
    (for [H0]) of the first primes. *)
Definition is_prime (n : Z) : bool :=
  forallb (fun d => negb (n mod d =? 0))
          (map Z.of_nat (seq 2 (Z.to_nat n - 2))).

Definition primes : list Z :=
  Eval vm_compute in List.filter is_prime (map Z.of_nat (seq 2 310)).

(** Largest [r] below [2 ^ bits] above [acc] with [r ^ 3 <= n]. *)
Fixpoint cube_root (bits : nat) (n acc : Z) : Z :=
  match bits with
  | O => acc
  | S b =>
      let c := acc + 2 ^ Z.of_nat b in
      if c * c * c <=? n then cube_root b n c else cube_root b n acc
  end.

Definition frac_cube_root (p : Z) : Z := wrap (cube_root 40 (p * 2 ^ 96) 0).
Definition frac_sqrt (p : Z) : Z := wrap (Z.sqrt (p * 2 ^ 64)).

Definition K : list Z := Eval vm_compute in map frac_cube_root primes.

Record state : Type := State {
  ha : Z; hb : Z; hc : Z; hd : Z; he : Z; hf : Z; hg : Z; hh : Z
}.

Definition H0 : state :=
  Eval vm_compute in
    State (frac_sqrt 2) (frac_sqrt 3) (frac_sqrt 5) (frac_sqrt 7)
          (frac_sqrt 11) (frac_sqrt 13) (frac_sqrt 17) (frac_sqrt 19).

(** Padding: a 1 bit, zeros up to 56 mod 64 bytes, the bit length on 64 bits. *)
Definition be_bytes (n : nat) (v : Z) : bytes :=
  map (fun k => byte_of_Z (Z.shiftr v (8 * Z.of_nat (n - 1 - k)))) (seq 0 n).

Definition pad (msg : bytes) : bytes :=
  let len := Z.of_nat (length msg) in
  let zeros := Z.to_nat ((55 - len) mod 64) in
  msg ++ [x80] ++ replicate zeros x00 ++ be_bytes 8 (8 * len).

Fixpoint be_value (bs : bytes) (acc : Z) : Z :=
  match bs with
  | [] => acc
  | b :: r => be_value r (acc * 256 + byte_val b)
  end.

Fixpoint words (n : nat) (bs : bytes) : list Z :=
  match n with
  | O => []
  | S m => be_value (take 4 bs) 0 :: words m (drop 4 bs)
  end.

(** Message schedule: [count] further words appended to [ws]. *)
Fixpoint schedule (count : nat) (ws : list Z) : list Z :=
  match count with
  | O => ws
  | S m =>
      let t := length ws in
      let at_ k := nth (t - k) ws 0 in
      schedule m
        (ws ++ [add (add (add (sigma1 (at_ 2%nat)) (at_ 7%nat))
                         (sigma0 (at_ 15%nat))) (at_ 16%nat)])
  end.

Definition round (s : state) (kw : Z * Z) : state :=
  let '(k, w) := kw in
  let t1 := add (add (add (add (hh s) (Sigma1 (he s))) (Ch (he s) (hf s) (hg s))) k) w in
  let t2 := add (Sigma0 (ha s)) (Maj (ha s) (hb s) (hc s)) in
  State (add t1 t2) (ha s) (hb s) (hc s) (add (hd s) t1) (he s) (hf s) (hg s).

Definition compress (h : state) (block : bytes) : state :=
  let ws := schedule 48 (words 16 block) in
  let s := foldl round h (zip K ws) in
  State (add (ha h) (ha s)) (add (hb h) (hb s)) (add (hc h) (hc s))
        (add (hd h) (hd s)) (add (he h) (he s)) (add (hf h) (hf s))
        (add (hg h) (hg s)) (add (hh h) (hh s)).

Fixpoint blocks (n : nat) (h : state) (bs : bytes) : state :=
  match n with
  | O => h
  | S m => blocks m (compress h (take 64 bs)) (drop 64 bs)
  end.

Definition output (s : state) : bytes :=
  be_bytes 4 (ha s) ++ be_bytes 4 (hb s) ++ be_bytes 4 (hc s) ++ be_bytes 4 (hd s)
  ++ be_bytes 4 (he s) ++ be_bytes 4 (hf s) ++ be_bytes 4 (hg s) ++ be_bytes 4 (hh s).

Definition digest (msg : bytes) : bytes :=
  let p := pad msg in
  output (blocks (length p / 64) H0 p).

Definition digest_size : nat := 32.
Definition block_size : nat := 64.

End SHA256.

Definition xor_bytes (a b : bytes) : bytes :=
  zip_with (fun x y => byte_of_Z (Z.lxor (byte_val x) (byte_val y))) a b.

(** HMAC (RFC 2104) over SHA-256. *)
Definition hmac_sha256 (key msg : bytes) : bytes :=
  let k := if (SHA256.block_size <? length key)%nat then SHA256.digest key else key in
  let k := k ++ replicate (SHA256.block_size - length k) x00 in
  let ipad := xor_bytes k (replicate SHA256.block_size x36) in
  let opad := xor_bytes k (replicate SHA256.block_size x5c) in
  SHA256.digest (opad ++ SHA256.digest (ipad ++ msg)).

(** PBKDF2 (RFC 8018, section 5.2): block [i] is the xor of [c] chained
    PRF values. *)
Definition pbkdf2_step (password : bytes) (ut : bytes * bytes) : bytes * bytes :=
  let u := hmac_sha256 password (fst ut) in
  (u, xor_bytes (snd ut) u).

Definition pbkdf2_block (password salt : bytes) (c : nat) (i : nat) : bytes :=
  let u1 := hmac_sha256 password (salt ++ SHA256.be_bytes 4 (Z.of_nat i)) in
  snd (Nat.iter (c - 1) (pbkdf2_step password) (u1, u1)).

(** [hashlib.pbkdf2_hmac('sha256', password, salt, iterations, dklen)] *)
Definition pbkdf2_hmac_sha256 (password salt : bytes) (iterations dklen : Z)
  : result bytes :=
  if iterations <? 1 then Raise ValueError
  else if dklen <? 1 then Raise ValueError
  else
    let l := Z.to_nat ((dklen + 31) / 32) in
    Ok (take (Z.to_nat dklen)
          (concat (map (pbkdf2_block password salt (Z.to_nat iterations))
                       (seq 1 l)))).

(** [bytes.hex()] *)
Definition bytes_hex (bs : bytes) : Py.str :=
  concat (map (fun b => [Py.digit_char (byte_val b / 16);
                         Py.digit_char (byte_val b mod 16)]) bs).

(** A byte string literal. *)
Definition bytes_lit (s : string) : bytes := list_byte_of_string s.

(** ** The orchestrator *)

Definition PBKDF2_ITERATIONS : Z := 10000.
Definition PBKDF2_SALT : bytes := bytes_lit "ESP32-SRAM-PUF-Auth-v1".

(** The measurement file, as its sequence of lines. *)
Definition file : Type := list Py.str.

(** [file.readline().strip()]; [readline] gives the empty string at the end
    of the file. *)
Definition get_first_measurement (f : file) : Py.str :=
  match f with
  | [] => Py.strip []
  | line :: _ => Py.strip line
  end.

Definition nonempty (s : Py.str) : bool :=
  match s with [] => false | _ :: _ => true end.

(** [[line.strip() for line in file if line.strip()]] *)
Definition read_hex_codes (f : file) : list Py.str :=
  List.filter nonempty (map Py.strip f).

(** Line 149: the API token derived from the extracted bytes. *)
Definition pbkdf2_hash (extracted_bytearray : bytes) : result bytes :=
  pbkdf2_hmac_sha256 extracted_bytearray PBKDF2_SALT PBKDF2_ITERATIONS 32.

(** The single PBKDF2 block that makes up a 32-byte key. *)
Definition derived (material : bytes) : bytes :=
  pbkdf2_block material PBKDF2_SALT (Z.to_nat PBKDF2_ITERATIONS) 1.

(** Line 159: the challenge written back in hexadecimal. *)
Definition challenge_hex (binary_challenge : Py.str) : result Py.str :=
  let* v := Py.int binary_challenge 2 in
  Ok (Py.zfill (drop 2 (Py.hex v)) (Z.of_nat (length binary_challenge) / 4)).

(** What a completed run prints: whether the warning was shown, the
    challenge and the extracted bytes of the verbose output, and the
    challenge (hex) / API token pair. *)
Record report : Type := Report {
  warned : bool;
  binary_challenge : Py.str;
  extracted_bytearray : bytes;
  puf_challenge : Py.str;
  api_token : bytes
}.

Inductive exit : Type :=
| Exit1
| Exit0 (r : report).

Definition main (f : file) (challenge_size : Z) : result exit :=
  let hex_codes := read_hex_codes f in
  if (length hex_codes <? 2)%nat then Ok Exit1
  else
    let* stable_bits := find_stable_bits hex_codes in
    let stable_count := Py.count "1" stable_bits in
    let total_bits := Z.of_nat (length stable_bits) in
    let* _ := (if total_bits =? 0 then Raise ZeroDivisionError else Ok tt) in
    let warning := stable_count <? challenge_size in
    let binary_challenge := Py.slice_to stable_bits challenge_size in
    let* ram_buffer_binary := hex_to_binary (get_first_measurement f) in
    let* extracted_bytearray :=
      extract_bits_from_sram_to_bytearray binary_challenge ram_buffer_binary in
    let* token := pbkdf2_hash extracted_bytearray in
    let* hex := challenge_hex binary_challenge in
    Ok (Exit0 (Report warning binary_challenge extracted_bytearray hex token)).

(** Line 145, printed with [-v]: [''.join(format(byte, '08b') for byte in
    extracted_bytearray)]. *)
Definition format_08b (byte : byte) : Py.str :=
  Py.zfill (Py.digits 2 (byte_val byte)) 8.

Definition extracted_bits_debug (extracted_bytearray : bytes) : Py.str :=
  concat (map format_08b extracted_bytearray).

(** Lines 166 and 175: [pbkdf2_hash.hex()]. *)
Definition api_token_hex (r : report) : Py.str := bytes_hex (api_token r).

(** ** [tools/analysis/hamming_analysis.py] *)

(** [sum(...)] over a generator of booleans. *)
Definition py_sum_bool (l : list bool) : Z :=
  foldl (fun acc (x : bool) => acc + (if x then 1 else 0)) 0 l.

Module Hamming.

Definition hex_to_binary (hex_str : Py.str) : result Py.str :=
  let* v := Py.int hex_str 16 in
  let binary_str := drop 2 (Py.bin v) in
  Ok (Py.zfill binary_str (4 * Z.of_nat (length hex_str))).

Definition hamming_distance (s1 s2 : Py.str) : result Z :=
  if negb (length s1 =? length s2)%nat then Raise ValueError
  else Ok (py_sum_bool
             (map (fun el => negb (Py.chr_eqb (fst el) (snd el))) (zip s1 s2))).

Definition hamming_weight (s : Py.str) : Z := Py.count "1" s.

Definition read_hex_and_convert (f : file) : result (list Py.str) :=
  let hex_strings := List.filter nonempty (map Py.strip f) in
  map_result hex_to_binary hex_strings.

End Hamming.

(** ** [tools/analysis/compare_devices.py] *)

Module Compare.

Definition hamming_distance (s1 s2 : Py.str) : result Z :=
  if negb (length s1 =? length s2)%nat then Raise ValueError
  else Ok (py_sum_bool
             (map (fun el => negb (Py.chr_eqb (fst el) (snd el))) (zip s1 s2))).

(** [None] for a file without a non-blank line; otherwise the first
    measurement only is converted. *)
Definition read_hex_and_convert (f : file) : result (option Py.str) :=
  let hex_strings := List.filter nonempty (map Py.strip f) in
  match hex_strings with
  | [] => Ok None
  | hex_str :: _ =>
      let* v := Py.int hex_str 16 in
      let binary_str := drop 2 (Py.bin v) in
      Ok (Some (Py.zfill binary_str (4 * Z.of_nat (length hex_str))))
  end.

End Compare.

(** ** Strings beyond Latin-1: [int] on a [str] *)

Module Unicode.

(** A string as its sequence of code points. *)
Abbreviation str := (list N).

(** The code points of a string of 8-bit characters. *)
Definition codes (s : Py.str) : str := map N_of_ascii s.

(** Code points from U+007F on that [Py_UNICODE_ISSPACE] accepts
    (Unicode 14, the version of the interpreter's tables). *)
Definition space_table : list N :=
  [0x85; 0xa0; 0x1680; 0x2000; 0x2001; 0x2002; 0x2003; 0x2004; 0x2005;
   0x2006; 0x2007; 0x2008; 0x2009; 0x200a; 0x2028; 0x2029; 0x202f; 0x205f;
   0x3000]%N.

Definition isspace (ch : N) : bool := existsb (N.eqb ch) space_table.

(** The digit zero of every script with decimal digits beyond ASCII; the
    ten digits of a script are consecutive code points. *)
Definition digit_zeros : list N :=
  [0x660; 0x6f0; 0x7c0; 0x966; 0x9e6; 0xa66; 0xae6; 0xb66; 0xbe6; 0xc66;
   0xce6; 0xd66; 0xde6; 0xe50; 0xed0; 0xf20; 0x1040; 0x1090; 0x17e0;
   0x1810; 0x1946; 0x19d0; 0x1a80; 0x1a90; 0x1b50; 0x1bb0; 0x1c40; 0x1c50;
   0xa620; 0xa8d0; 0xa900; 0xa9d0; 0xa9f0; 0xaa50; 0xabf0; 0xff10; 0x104a0;
   0x10d30; 0x11066; 0x110f0; 0x11136; 0x111d0; 0x112f0; 0x11450; 0x114d0;
   0x11650; 0x116c0; 0x11730; 0x118e0; 0x11950; 0x11c50; 0x11d50; 0x11da0;
   0x16a60; 0x16ac0; 0x16b50; 0x1d7ce; 0x1d7d8; 0x1d7e2; 0x1d7ec; 0x1d7f6;
   0x1e140; 0x1e2f0; 0x1e950; 0x1fbf0]%N.

(** [Py_UNICODE_TODECIMAL] from U+007F on. *)
Definition to_decimal (ch : N) : option N :=
  match List.find (fun z => (z <=? ch)%N && (ch <? z + 10)%N) digit_zeros with
  | Some z => Some (ch - z)%N
  | None => None
  end.

Definition is_ascii (u : str) : bool := forallb (fun ch => (ch <? 128)%N) u.

(** [_PyUnicode_TransformDecimalAndSpaceToASCII] on a string that is not
    all ASCII: white space becomes a blank, a decimal digit its ASCII
    digit, and the first other character from U+007F on a question mark
    that ends the result. *)
Fixpoint transform (u : str) : Py.str :=
  match u with
  | [] => []
  | ch :: r =>
      if (ch <? 127)%N then ascii_of_N ch :: transform r
      else if isspace ch then " "%char :: transform r
      else match to_decimal ch with
           | Some d => ascii_of_N (48 + d) :: transform r
           | None => ["?"%char]
           end
  end.

(** An all-ASCII string is handed on as it is. *)
Definition to_ascii (u : str) : Py.str :=
  if is_ascii u then map ascii_of_N u else transform u.

(** [int(s, base)] for any string: [PyLong_FromUnicodeObject]. *)
Definition int (u : str) (base : Z) : result Z := Py.int (to_ascii u) base.

(** [hex_to_binary] of [pufchallenge.py] on any string; [len] counts code
    points. *)
Definition hex_to_binary (hex_str : str) : result Py.str :=
  let* v := int hex_str 16 in
  Ok (Py.zfill (drop 2 (Py.bin v)) (Z.of_nat (length hex_str) * 4)).

End Unicode.

(** ** Reference notions used in the statements *)

(** A digit of base [b]. *)
Definition digit_below (b : Z) (c : ascii) : Prop := Py.digit_value c < b.

Definition is_hex_digit (c : ascii) : bool := Py.digit_value c <? 16.

Definition is_bit (c : ascii) : bool := Py.digit_value c <? 2.

(** The [w] digits of [v] in base [b], most significant first. *)
Fixpoint fixed_width (b : Z) (w : nat) (v : Z) : Py.str :=
  match w with
  | O => []
  | S w' => fixed_width b w' (v / b) ++ [Py.digit_char (v mod b)]
  end.

(** The four bits of one hex character. *)
Definition nibble (c : ascii) : Py.str := fixed_width 2 4 (Py.digit_value c).

(** Value of a digit string, most significant digit first. *)
Definition value (b : Z) (s : Py.str) : Z :=
  foldl (fun acc c => acc * b + Py.digit_value c) 0 s.

(** One packed group: its bits read as a number, most significant first. *)
Definition pack (group : Py.str) : byte := byte_of_Z (value 2 group).

(** [c.lower()] on one character of the ASCII range. *)
Definition lower (c : ascii) : ascii :=
  let n := Py.ord c in
  if (65 <=? n) && (n <=? 90) then ascii_of_N (Z.to_N (n + 32)) else c.

(** Number of 1 bits of a challenge. *)
Definition popcount (challenge : Py.str) : nat :=
  length (List.filter (fun c => Py.chr_eqb c "1") challenge).

(** Positions of the 1 bits of a mask, in index order. *)
Definition stable_positions (mask : Py.str) : list nat :=
  List.filter (fun i => match mask !! i with
                        | Some c => Py.chr_eqb c "1"
                        | None => false
                        end) (seq 0 (length mask)).

(** Bits of the reference at the positions where the challenge is 1. *)
Definition selected (challenge reference : Py.str) : Py.str :=
  map snd (List.filter (fun cr => Py.chr_eqb (fst cr) "1") (zip challenge reference)).

(** Consecutive groups of [n] items, the last one possibly shorter. *)
Definition chunks (n : nat) (s : Py.str) : list Py.str :=
  map (fun i => take n (drop i s)) (range_step (length s) n).

(** Number of positions, up to the length of the shorter string, at which
    two strings differ. *)
Definition differing (a b : Py.str) : Z :=
  py_sum_bool (map (fun el => negb (Py.chr_eqb (fst el) (snd el))) (zip a b)).

(** Whether position [p] agrees in every pair of neighbouring rows. *)
Definition differs (rows : list Py.str) (p i : nat) : bool :=
  match rows !! i, rows !! (i + 1)%nat with
  | Some a, Some b =>
      match a !! p, b !! p with
      | Some x, Some y => negb (Py.chr_eqb x y)
      | _, _ => false
      end
  | _, _ => false
  end.

Definition flipped (rows : list Py.str) (p : nat) : bool :=
  existsb (differs rows p) (seq 0 (length rows - 1)).

(** What [int(s, 16)] makes of one character. *)
Inductive token : Set :=
| TSpace
| TPlus
| TMinus
| TUnderscore
| TX
| TDigit (d : Z)
| TOther.

(** White space is U+0009..U+000D, the blank and the Unicode white space
    from U+0085 on; a digit is an ASCII hex digit of either case or a
    decimal digit of any script. *)
Definition classify (ch : N) : token :=
  if existsb (N.eqb ch) ([9; 10; 11; 12; 13; 32]%N ++ Unicode.space_table)
  then TSpace
  else if (ch =? 43)%N then TPlus
  else if (ch =? 45)%N then TMinus
  else if (ch =? 95)%N then TUnderscore
  else if (ch =? 120)%N || (ch =? 88)%N then TX
  else if (48 <=? ch)%N && (ch <=? 57)%N then TDigit (Z.of_N ch - 48)
  else if (97 <=? ch)%N && (ch <=? 102)%N then TDigit (Z.of_N ch - 87)
  else if (65 <=? ch)%N && (ch <=? 70)%N then TDigit (Z.of_N ch - 55)
  else match Unicode.to_decimal ch with
       | Some d => TDigit (Z.of_N d)
       | None => TOther
       end.

Definition token_of (c : ascii) : token := classify (N_of_ascii c).

Definition is_other (t : token) : bool :=
  match t with TOther => true | _ => false end.

(** What may follow a digit: nothing, a digit, or one underscore and a
    digit, and so on. *)
Inductive digit_tail : list token -> Prop :=
| dt_nil : digit_tail []
| dt_digit (d : Z) (ts : list token) :
    digit_tail ts -> digit_tail (TDigit d :: ts)
| dt_us (d : Z) (ts : list token) :
    digit_tail ts -> digit_tail (TUnderscore :: TDigit d :: ts).

(** Digits in groups separated by single underscores. *)
Definition digit_group (ts : list token) : Prop :=
  exists (d : Z) (ts' : list token), ts = TDigit d :: ts' /\ digit_tail ts'.

(** The base-16 value of the digits among [ts]. *)
Definition token_step (acc : Z) (t : token) : Z :=
  match t with TDigit d => acc * 16 + d | _ => acc end.

Definition token_value (ts : list token) : Z := foldl token_step 0 ts.

Definition is_sign (ts : list token) (sign : Z) : Prop :=
  (ts = [] /\ sign = 1) \/ (ts = [TPlus] /\ sign = 1)
  \/ (ts = [TMinus] /\ sign = -1).

Definition is_prefix (ts : list token) : Prop :=
  ts = [] \/ ts = [TDigit 0; TX] \/ ts = [TDigit 0; TX; TUnderscore].

(** An integer literal of base 16 with value [v]: optional white space, an
    optional sign, an optional prefix "0x" or "0X" with at most one
    underscore after it, digits in groups separated by single underscores,
    optional white space. *)
Definition literal (ts : list token) (v : Z) : Prop :=
  exists (ws1 sign : list token) (sg : Z) (prefix body ws2 : list token),
    ts = ws1 ++ sign ++ prefix ++ body ++ ws2
    /\ Forall (fun t => t = TSpace) ws1
    /\ is_sign sign sg
    /\ is_prefix prefix
    /\ digit_group body
    /\ Forall (fun t => t = TSpace) ws2
    /\ v = sg * token_value body.

(** Where the digit loop of [int] stops: at the end of the string or
    before a character that is neither a digit nor an underscore. *)
Definition stops (rest : Py.str) : Prop :=
  match rest with
  | [] => True
  | c :: _ => Py.chr_eqb c "_" = false /\ (Py.digit_value c <? 16) = false
  end.

(** PBKDF2 as RFC 8018, section 5.2 words it, for a pseudorandom function
    [prf]: [U_1 = PRF (P, S || INT (i))], [U_j = PRF (P, U_{j-1})] and
    [T_i = U_1 xor U_2 xor ... xor U_c].  [prf_chain prf P seed j] is [prf]
    applied [j] times, under the key [P], starting from [seed]. *)
Fixpoint prf_chain (prf : bytes -> bytes -> bytes) (P seed : bytes) (j : nat)
  : bytes :=
  match j with
  | O => seed
  | S j' => prf P (prf_chain prf P seed j')
  end.

Definition xor_all (us : list bytes) : bytes :=
  match us with
  | [] => []
  | u :: r => foldl xor_bytes u r
  end.

Definition rfc8018_T (prf : bytes -> bytes -> bytes) (P S : bytes) (c i : nat)
  : bytes :=
  xor_all (map (prf_chain prf P (S ++ SHA256.be_bytes 4 (Z.of_nat i)))
               (seq 1 c)).

(** * Properties *)

(** ** Characters *)

Ltac all_chars c :=
  destruct c as [[] [] [] [] [] [] [] []]; vm_compute; try reflexivity;
  try discriminate; auto.

Lemma alnum_not_space (c : ascii) :
  (Py.digit_value c <? 37) = true -> Py.int_isspace c = false.
Proof. all_chars c. Qed.

Lemma alnum_not_plus (c : ascii) :
  (Py.digit_value c <? 37) = true -> Py.chr_eqb c "+" = false.
Proof. all_chars c. Qed.

Lemma alnum_not_minus (c : ascii) :
  (Py.digit_value c <? 37) = true -> Py.chr_eqb c "-" = false.
Proof. all_chars c. Qed.

Lemma alnum_not_underscore (c : ascii) :
  (Py.digit_value c <? 37) = true -> Py.chr_eqb c "_" = false.
Proof. all_chars c. Qed.

Lemma digit_value_nonneg (c : ascii) : (0 <=? Py.digit_value c) = true.
Proof. all_chars c. Qed.

Lemma prefix_letter_not_digit (b : Z) (c : ascii) :
  Py.is_prefix_letter b c = true -> b <= Py.digit_value c.
Proof.
  unfold Py.is_prefix_letter, Py.chr_eqb. intros H.
  repeat match type of H with
         | (_ || _)%bool = true => apply orb_true_iff in H; destruct H as [H | H]
         | (_ && _)%bool = true => apply andb_true_iff in H; destruct H as [Hb H]
         end;
    apply Z.eqb_eq in Hb; apply Ascii.eqb_eq in H; subst; vm_compute; discriminate.
Qed.

Section Digits.

Variable b : Z.
Hypothesis b_lo : 2 <= b.
Hypothesis b_hi : b <= 36.

Lemma digit_below_alnum (c : ascii) :
  digit_below b c -> (Py.digit_value c <? 37) = true.
Proof. unfold digit_below. intros H. apply Z.ltb_lt. lia. Qed.

Lemma digit_value_range (c : ascii) :
  digit_below b c -> 0 <= Py.digit_value c < b.
Proof.
  intros H. split; [| exact H].
  apply Z.leb_le, digit_value_nonneg.
Qed.

Lemma scan_digits_all (s : Py.str) :
  forall acc n,
    Forall (digit_below b) s ->
    Py.scan_digits b s acc false n
    = Some (foldl (fun a c => a * b + Py.digit_value c) acc s,
            (n + length s)%nat, []).
Proof.
  induction s as [| c r IH]; intros acc n Hs; simpl.
  - rewrite Nat.add_0_r. reflexivity.
  - inversion Hs as [| ? ? Hc Hr]; subst.
    rewrite (alnum_not_underscore c (digit_below_alnum c Hc)).
    assert (Hlt : (Py.digit_value c <? b) = true) by (apply Z.ltb_lt; exact Hc).
    rewrite Hlt, (IH _ _ Hr). f_equal. f_equal. f_equal. lia.
Qed.

Lemma int_digits (s : Py.str) :
  s <> [] -> Forall (digit_below b) s -> Py.int s b = Ok (value b s).
Proof.
  intros Hne Hs. destruct s as [| c r]; [congruence |].
  inversion Hs as [| ? ? Hc Hr]; subst.
  pose proof (digit_below_alnum c Hc) as Ha.
  unfold Py.int. simpl Py.skip_int_space.
  rewrite (alnum_not_space c Ha).
  unfold Py.take_sign.
  rewrite (alnum_not_plus c Ha), (alnum_not_minus c Ha).
  assert (Hpre : Py.skip_base_prefix b (c :: r) = c :: r).
  { unfold Py.skip_base_prefix. destruct r as [| c2 r2]; [reflexivity |].
    inversion Hr as [| ? ? Hc2 _]; subst.
    destruct (Py.is_prefix_letter b c2) eqn:Hp.
    - apply prefix_letter_not_digit in Hp. unfold digit_below in Hc2. lia.
    - rewrite andb_false_r. reflexivity. }
  rewrite Hpre. unfold Py.starts_with_underscore.
  rewrite (alnum_not_underscore c Ha).
  rewrite (scan_digits_all (c :: r) 0 0%nat Hs).
  simpl. f_equal. unfold value. simpl.
  destruct (foldl _ _ r); reflexivity.
Qed.

End Digits.

(** ** Fixed-width digit strings against [bin], [hex] and [zfill] *)

Lemma digit_char_not_sign (d : Z) :
  Py.chr_eqb (Py.digit_char d) "+" || Py.chr_eqb (Py.digit_char d) "-" = false.
Proof.
  unfold Py.digit_char. generalize (Z.to_nat d) as n. intros n.
  do 16 (destruct n as [| n]; [reflexivity |]).
  destruct n; reflexivity.
Qed.

Section FixedWidth.

Variable b : Z.
Hypothesis b_lo : 2 <= b.

Lemma fixed_width_length (w : nat) (v : Z) : length (fixed_width b w v) = w.
Proof.
  revert v. induction w as [| w IH]; intros v; simpl; [reflexivity |].
  rewrite length_app, IH. simpl. lia.
Qed.

Lemma fixed_width_zero (w : nat) :
  fixed_width b w 0 = replicate w "0"%char.
Proof.
  induction w as [| w IH]; [reflexivity |].
  simpl fixed_width. rewrite Z.div_0_l, Z.mod_0_l by lia. rewrite IH.
  change [Py.digit_char 0] with (replicate 1 "0"%char).
  rewrite <- replicate_add. f_equal. lia.
Qed.

Lemma fixed_width_app (w2 : nat) :
  forall (w1 : nat) (a r : Z),
    0 <= r < b ^ Z.of_nat w2 ->
    fixed_width b (w1 + w2) (a * b ^ Z.of_nat w2 + r)
    = fixed_width b w1 a ++ fixed_width b w2 r.
Proof.
  induction w2 as [| w2 IH]; intros w1 a r Hr.
  - simpl in Hr. assert (r = 0) by lia. subst r.
    rewrite Nat.add_0_r, Z.add_0_r. simpl. rewrite Z.mul_1_r, app_nil_r.
    reflexivity.
  - rewrite Nat.add_succ_r. simpl fixed_width.
    rewrite Nat2Z.inj_succ, Z.pow_succ_r in * by lia.
    assert (Hq : (a * (b * b ^ Z.of_nat w2) + r) / b
                 = a * b ^ Z.of_nat w2 + r / b).
    { replace (a * (b * b ^ Z.of_nat w2) + r)
        with (r + (a * b ^ Z.of_nat w2) * b) by lia.
      rewrite Z.div_add by lia. lia. }
    assert (Hm : (a * (b * b ^ Z.of_nat w2) + r) mod b = r mod b).
    { replace (a * (b * b ^ Z.of_nat w2) + r)
        with (r + (a * b ^ Z.of_nat w2) * b) by lia.
      apply Z.mod_add. lia. }
    rewrite Hq, Hm, IH, app_assoc; [reflexivity |].
    split; [apply Z.div_pos; lia |].
    apply Z.div_lt_upper_bound; lia.
Qed.

Lemma digits_rec_no_sign (fuel : nat) :
  forall v : Z,
    Forall (fun c => Py.chr_eqb c "+" || Py.chr_eqb c "-" = false)
           (Py.digits_rec b fuel v).
Proof.
  induction fuel as [| f IH]; intros v; simpl; [constructor |].
  destruct (v <? b).
  - repeat constructor. apply digit_char_not_sign.
  - apply Forall_app. split; [apply IH |].
    repeat constructor. apply digit_char_not_sign.
Qed.

Lemma digits_rec_nonempty (fuel : nat) (v : Z) :
  (1 <= fuel)%nat -> Py.digits_rec b fuel v <> [].
Proof.
  destruct fuel as [| f]; [lia |]. intros _. simpl.
  destruct (v <? b); [discriminate |].
  destruct (Py.digits_rec b f (v / b)); discriminate.
Qed.

(** With enough fuel, [digits_rec] is the fixed-width string without its
    leading zeros. *)
Lemma fixed_width_digits_rec (w : nat) :
  forall (fuel : nat) (v : Z),
    (1 <= w)%nat -> (1 <= fuel)%nat ->
    0 <= v -> v < b ^ Z.of_nat w -> v < b ^ Z.of_nat fuel ->
    exists k : nat,
      fixed_width b w v = replicate k "0"%char ++ Py.digits_rec b fuel v.
Proof.
  induction w as [| w IH]; intros fuel v Hw Hf Hv Hvw Hvf; [lia |].
  destruct fuel as [| f]; [lia |].
  simpl fixed_width. simpl Py.digits_rec.
  destruct (v <? b) eqn:Hlt.
  - apply Z.ltb_lt in Hlt.
    rewrite Z.div_small, Z.mod_small by lia.
    exists w. rewrite fixed_width_zero. reflexivity.
  - apply Z.ltb_ge in Hlt.
    rewrite Nat2Z.inj_succ, Z.pow_succ_r in Hvw, Hvf by lia.
    assert (Hw' : (1 <= w)%nat).
    { destruct w; [simpl in Hvw; lia | lia]. }
    assert (Hf' : (1 <= f)%nat).
    { destruct f; [simpl in Hvf; lia | lia]. }
    destruct (IH f (v / b) Hw' Hf') as [k Hk].
    + apply Z.div_pos; lia.
    + apply Z.div_lt_upper_bound; lia.
    + apply Z.div_lt_upper_bound; lia.
    + exists k. rewrite Hk, app_assoc. reflexivity.
Qed.

Lemma digits_fuel (v : Z) :
  0 <= v -> v < b ^ Z.of_nat (S (Z.to_nat (Z.log2 v))).
Proof.
  intros Hv.
  destruct (Z.eq_dec v 0) as [-> | Hnz].
  - simpl. lia.
  - rewrite Nat2Z.inj_succ, Z2Nat.id by apply Z.log2_nonneg.
    apply Z.lt_le_trans with (2 ^ Z.succ (Z.log2 v)).
    + apply Z.log2_spec. lia.
    + apply Z.pow_le_mono_l. lia.
Qed.

Lemma zfill_digits (w : nat) (v : Z) :
  (1 <= w)%nat -> 0 <= v -> v < b ^ Z.of_nat w ->
  Py.zfill (Py.digits b v) (Z.of_nat w) = fixed_width b w v.
Proof.
  intros Hw Hv Hvw. unfold Py.digits.
  set (fuel := S (Z.to_nat (Z.log2 v))).
  destruct (fixed_width_digits_rec w fuel v Hw) as [k Hk];
    [unfold fuel; lia | lia | lia | apply digits_fuel; lia |].
  pose proof (fixed_width_length w v) as Hlen.
  rewrite Hk, length_app, length_replicate in Hlen.
  rewrite Hk. unfold Py.zfill.
  destruct (Z.of_nat w <=? Z.of_nat (length (Py.digits_rec b fuel v))) eqn:Hle.
  - apply Z.leb_le in Hle. assert (k = 0%nat) by lia. subst k. reflexivity.
  - apply Z.leb_gt in Hle.
    replace (Z.to_nat (Z.of_nat w - Z.of_nat (length (Py.digits_rec b fuel v))))
      with k by lia.
    pose proof (digits_rec_nonempty fuel v) as Hne.
    destruct (Py.digits_rec b fuel v) as [| c r] eqn:Hd.
    + exfalso. apply Hne; [unfold fuel; lia | reflexivity].
    + assert (Hc : Py.chr_eqb c "+" || Py.chr_eqb c "-" = false).
      { pose proof (digits_rec_no_sign fuel v) as Hall.
        rewrite Hd in Hall. inversion Hall; assumption. }
      rewrite Hc. reflexivity.
Qed.

End FixedWidth.

(** ** Digit strings and their values *)

Lemma digit_char_value (d : Z) :
  0 <= d < 16 -> Py.digit_value (Py.digit_char d) = d.
Proof.
  intros Hd.
  assert (H : d = 0 \/ d = 1 \/ d = 2 \/ d = 3 \/ d = 4 \/ d = 5 \/ d = 6
              \/ d = 7 \/ d = 8 \/ d = 9 \/ d = 10 \/ d = 11 \/ d = 12
              \/ d = 13 \/ d = 14 \/ d = 15) by lia.
  repeat (destruct H as [-> | H]; [reflexivity |]). subst d. reflexivity.
Qed.

Lemma hex_digit_lower (c : ascii) :
  is_hex_digit c = true -> Py.digit_char (Py.digit_value c) = lower c.
Proof. unfold is_hex_digit. all_chars c. Qed.

Lemma bit_digit_char (c : ascii) :
  is_bit c = true -> Py.digit_char (Py.digit_value c) = c.
Proof. unfold is_bit. all_chars c. Qed.

Lemma value_snoc (b : Z) (s : Py.str) (c : ascii) :
  value b (s ++ [c]) = value b s * b + Py.digit_value c.
Proof. unfold value. rewrite foldl_app. reflexivity. Qed.

Section Values.

Variable b : Z.
Hypothesis b_lo : 2 <= b.
Hypothesis b_hi : b <= 16.

Lemma value_bounds (s : Py.str) :
  Forall (digit_below b) s -> 0 <= value b s < b ^ Z.of_nat (length s).
Proof.
  induction s as [| c s IH] using rev_ind; intros Hs.
  - unfold value. simpl. lia.
  - apply Forall_app in Hs as [Hs Hc]. inversion Hc as [| ? ? Hc' _]; subst.
    specialize (IH Hs).
    assert (Hd : 0 <= Py.digit_value c < b) by (apply digit_value_range; assumption).
    rewrite value_snoc, length_app. simpl length.
    replace (Z.of_nat (length s + 1)) with (Z.succ (Z.of_nat (length s))) by lia.
    rewrite Z.pow_succ_r by lia. nia.
Qed.

Lemma fixed_width_value (s : Py.str) :
  Forall (digit_below b) s ->
  fixed_width b (length s) (value b s)
  = map (fun c => Py.digit_char (Py.digit_value c)) s.
Proof.
  induction s as [| c s IH] using rev_ind; intros Hs; [reflexivity |].
  apply Forall_app in Hs as [Hs Hc]. inversion Hc as [| ? ? Hc' _]; subst.
  assert (Hd : 0 <= Py.digit_value c < b) by (apply digit_value_range; assumption).
  rewrite value_snoc, length_app, map_app. simpl length. rewrite Nat.add_1_r.
  simpl fixed_width.
  replace ((value b s * b + Py.digit_value c) / b) with (value b s).
  2:{ rewrite Z.add_comm, Z.div_add by lia. rewrite Z.div_small by lia. lia. }
  replace ((value b s * b + Py.digit_value c) mod b) with (Py.digit_value c).
  2:{ rewrite Z.add_comm, Z.mod_add by lia. rewrite Z.mod_small by lia. lia. }
  rewrite (IH Hs). reflexivity.
Qed.

Lemma fixed_width_digit_below (w : nat) :
  forall v : Z, Forall (digit_below b) (fixed_width b w v).
Proof.
  induction w as [| w IH]; intros v; simpl; [constructor |].
  apply Forall_app. split; [apply IH |]. repeat constructor.
  unfold digit_below. rewrite digit_char_value.
  - apply Z.mod_pos_bound. lia.
  - pose proof (Z.mod_pos_bound v b). lia.
Qed.

Lemma value_fixed_width (w : nat) :
  forall v : Z, 0 <= v < b ^ Z.of_nat w -> value b (fixed_width b w v) = v.
Proof.
  induction w as [| w IH]; intros v Hv.
  - simpl in Hv. unfold value. simpl. lia.
  - simpl fixed_width. rewrite value_snoc.
    rewrite Nat2Z.inj_succ, Z.pow_succ_r in Hv by lia.
    rewrite IH.
    + rewrite digit_char_value.
      * pose proof (Z.div_mod v b). lia.
      * pose proof (Z.mod_pos_bound v b). lia.
    + split; [apply Z.div_pos; lia |]. apply Z.div_lt_upper_bound; lia.
Qed.

End Values.

(** The bits of a hex string are the nibbles of its characters. *)
Lemma fixed_width_nibbles (s : Py.str) :
  Forall (digit_below 16) s ->
  fixed_width 2 (4 * length s) (value 16 s) = concat (map nibble s).
Proof.
  induction s as [| c s IH] using rev_ind; intros Hs; [reflexivity |].
  apply Forall_app in Hs as [Hs Hc]. inversion Hc as [| ? ? Hc' _]; subst.
  assert (Hd : 0 <= Py.digit_value c < 16) by (apply digit_value_range; assumption).
  rewrite value_snoc, length_app, map_app, concat_app. simpl length.
  replace (4 * (length s + 1))%nat with (4 * length s + 4)%nat by lia.
  change 16 with (2 ^ Z.of_nat 4) at 2.
  rewrite (fixed_width_app 2) by (simpl; lia).
  rewrite (IH Hs). f_equal.
Qed.

Lemma nibbles_length (s : Py.str) :
  length (concat (map nibble s)) = (4 * length s)%nat.
Proof.
  induction s as [| c s IH]; [reflexivity |].
  change (concat (map nibble (c :: s))) with (nibble c ++ concat (map nibble s)).
  rewrite length_app, IH.
  unfold nibble. rewrite fixed_width_length. simpl. lia.
Qed.

Lemma format_int_nonneg (prefix : Py.str) (b v : Z) :
  0 <= v -> Py.format_int prefix b v = prefix ++ Py.digits b v.
Proof.
  intros Hv. unfold Py.format_int.
  destruct (v <? 0) eqn:H; [apply Z.ltb_lt in H; lia | reflexivity].
Qed.

Lemma hex_to_binary_hex (s : Py.str) :
  s <> [] -> Forall (digit_below 16) s ->
  hex_to_binary s = Ok (concat (map nibble s)).
Proof.
  intros Hne Hs. unfold hex_to_binary.
  rewrite (int_digits 16) by (assumption || lia). simpl bind.
  pose proof (value_bounds 16 ltac:(lia) ltac:(lia) s Hs) as Hv.
  unfold Py.bin. rewrite format_int_nonneg by lia.
  change (drop 2 (Py.lit "0b" ++ Py.digits 2 (value 16 s)))
    with (Py.digits 2 (value 16 s)).
  replace (Z.of_nat (length s) * 4) with (Z.of_nat (4 * length s)) by lia.
  assert (Hw : (1 <= 4 * length s)%nat)
    by (destruct s; [congruence | simpl; lia]).
  assert (Hp : 2 ^ Z.of_nat (4 * length s) = 16 ^ Z.of_nat (length s)).
  { rewrite Nat2Z.inj_mul, Z.pow_mul_r by lia. reflexivity. }
  rewrite (zfill_digits 2) by lia.
  rewrite fixed_width_nibbles by assumption. reflexivity.
Qed.

Lemma chr_eqb_true (a c : ascii) : Py.chr_eqb a c = true -> a = c.
Proof. apply Ascii.eqb_eq. Qed.

(** ** The challenge written back in hexadecimal *)

Lemma digit_below_2_16 (c : ascii) : digit_below 2 c -> digit_below 16 c.
Proof. unfold digit_below. lia. Qed.

Lemma challenge_hex_ok (bits : Py.str) :
  bits <> [] -> Forall (digit_below 2) bits ->
  challenge_hex bits
  = Ok (Py.zfill (drop 2 (Py.hex (value 2 bits))) (Z.of_nat (length bits) / 4)).
Proof.
  intros Hne Hb. unfold challenge_hex.
  rewrite (int_digits 2) by (assumption || lia). reflexivity.
Qed.

Lemma challenge_hex_nibbles (s : Py.str) :
  s <> [] -> Forall (digit_below 16) s ->
  challenge_hex (concat (map nibble s)) = Ok (map lower s).
Proof.
  intros Hne Hs.
  pose proof (value_bounds 16 ltac:(lia) ltac:(lia) s Hs) as Hv.
  assert (Hp : 2 ^ Z.of_nat (4 * length s) = 16 ^ Z.of_nat (length s)).
  { rewrite Nat2Z.inj_mul, Z.pow_mul_r by lia. reflexivity. }
  assert (Hlen : (1 <= length s)%nat) by (destruct s; [congruence | simpl; lia]).
  rewrite challenge_hex_ok.
  - rewrite nibbles_length.
    rewrite <- fixed_width_nibbles by assumption.
    rewrite (value_fixed_width 2) by lia.
    unfold Py.hex. rewrite format_int_nonneg by lia.
    change (drop 2 (Py.lit "0x" ++ Py.digits 16 (value 16 s)))
      with (Py.digits 16 (value 16 s)).
    replace (Z.of_nat (4 * length s) / 4) with (Z.of_nat (length s))
      by (rewrite Nat2Z.inj_mul, Z.mul_comm, Z.div_mul; lia).
    rewrite (zfill_digits 16) by lia.
    rewrite (fixed_width_value 16) by (assumption || lia).
    f_equal. apply map_ext_in. intros c Hc.
    apply hex_digit_lower. unfold is_hex_digit. apply Z.ltb_lt.
    rewrite Forall_forall in Hs. apply Hs. apply list_elem_of_In. exact Hc.
  - intros Hnil. apply (f_equal length) in Hnil.
    rewrite nibbles_length in Hnil. simpl in Hnil. lia.
  - rewrite <- fixed_width_nibbles by assumption.
    apply (fixed_width_digit_below 2); lia.
Qed.

(** ** Lists, lookups and the exception monad *)

Lemma lookup_map {A B : Type} (f : A -> B) (l : list A) (i : nat) :
  map f l !! i = f <$> (l !! i).
Proof.
  revert i. induction l as [| x l IH]; intros [| i]; simpl; auto.
Qed.

Lemma index_ok {A : Type} (l : list A) (i : nat) (x : A) :
  l !! i = Some x -> Py.index l i = Ok x.
Proof. unfold Py.index. intros ->. reflexivity. Qed.

Lemma index_raise {A : Type} (l : list A) (i : nat) :
  (length l <= i)%nat -> Py.index l i = Raise IndexError.
Proof.
  intros H. unfold Py.index. rewrite (lookup_ge_None_2 l i H). reflexivity.
Qed.

Lemma map_result_length {A B : Type} (f : A -> result B) (l : list A) :
  forall out, map_result f l = Ok out -> length out = length l.
Proof.
  induction l as [| x l IH]; intros out H; simpl in H.
  - injection H as <-. reflexivity.
  - destruct (f x) as [y | e]; [| discriminate]. simpl in H.
    destruct (map_result f l) as [ys | e]; [| discriminate]. simpl in H.
    injection H as <-. simpl. f_equal. apply IH. reflexivity.
Qed.

Lemma map_result_lookup {A B : Type} (f : A -> result B) (l : list A) :
  forall out i x,
    map_result f l = Ok out -> l !! i = Some x ->
    exists y, f x = Ok y /\ out !! i = Some y.
Proof.
  induction l as [| a l IH]; intros out i x H Hi; [discriminate |].
  simpl in H.
  destruct (f a) as [y | e] eqn:Hfa; [| discriminate]. simpl in H.
  destruct (map_result f l) as [ys | e]; [| discriminate]. simpl in H.
  injection H as <-.
  destruct i as [| i]; simpl in Hi |- *.
  - injection Hi as <-. eauto.
  - eapply IH; eauto.
Qed.

Lemma map_result_ok {A B : Type} (f : A -> result B) (g : A -> B) (l : list A) :
  (forall x, In x l -> f x = Ok (g x)) -> map_result f l = Ok (map g l).
Proof.
  induction l as [| a l IH]; intros H; [reflexivity |].
  simpl. rewrite (H a) by (left; reflexivity). simpl.
  rewrite IH by (intros x Hx; apply H; right; exact Hx). reflexivity.
Qed.

Lemma foldl_min_le (r : list nat) :
  forall x, (foldl Nat.min x r <= x)%nat
            /\ Forall (fun y => (foldl Nat.min x r <= y)%nat) r.
Proof.
  induction r as [| y r IH]; intros x; simpl.
  - split; [lia | constructor].
  - destruct (IH (Nat.min x y)) as [H1 H2]. split; [lia |].
    constructor; [lia | exact H2].
Qed.

Lemma foldl_min_in (r : list nat) :
  forall x, In (foldl Nat.min x r) (x :: r).
Proof.
  induction r as [| y r IH]; intros x; simpl; [auto |].
  destruct (IH (Nat.min x y)) as [H | H].
  - simpl. rewrite <- H.
    destruct (Nat.min_spec x y) as [[_ ->] | [_ ->]]; auto.
  - simpl. auto.
Qed.

Lemma py_min_spec (l : list nat) :
  l <> [] ->
  exists m, py_min l = Ok m /\ In m l /\ Forall (fun y => (m <= y)%nat) l.
Proof.
  destruct l as [| x r]; [congruence |]. intros _.
  exists (foldl Nat.min x r). split; [reflexivity |].
  split; [apply foldl_min_in |].
  destruct (foldl_min_le r x). constructor; assumption.
Qed.

(** ** The stability loops *)

Section StabilityLoops.

Variable rows : list Py.str.
Variable m : nat.
Hypothesis rows_len : Forall (fun r => length r = m) rows.

Lemma row_length (i : nat) (r : Py.str) : rows !! i = Some r -> length r = m.
Proof.
  intros H. rewrite Forall_forall in rows_len. apply rows_len.
  eapply list_elem_of_lookup_2. exact H.
Qed.

Lemma compare_bit_spec (i k : nat) (bc : list Z) :
  (i + 1 < length rows)%nat -> (k < m)%nat -> length bc = m ->
  compare_bit rows i k bc = Ok (if differs rows k i then <[k := 1]> bc else bc).
Proof.
  intros Hi Hk Hbc. unfold compare_bit.
  destruct (lookup_lt_is_Some_2 rows i ltac:(lia)) as [a Ha].
  destruct (lookup_lt_is_Some_2 rows (i + 1) ltac:(lia)) as [b Hb].
  pose proof (row_length _ _ Ha) as Hla. pose proof (row_length _ _ Hb) as Hlb.
  destruct (lookup_lt_is_Some_2 a k ltac:(lia)) as [x Hx].
  destruct (lookup_lt_is_Some_2 b k ltac:(lia)) as [y Hy].
  assert (Hd : differs rows k i = negb (Py.chr_eqb x y)).
  { unfold differs. rewrite Ha, Hb. cbn beta iota. rewrite Hx, Hy. reflexivity. }
  rewrite Hd.
  rewrite (index_ok _ _ _ Ha), (index_ok _ _ _ Hb). simpl.
  rewrite (index_ok _ _ _ Hx), (index_ok _ _ _ Hy). simpl.
  destruct (negb (Py.chr_eqb x y)); [| reflexivity].
  unfold store. destruct (decide (k < length bc)%nat); [reflexivity | lia].
Qed.

Lemma inner_loop (i : nat) (n : nat) :
  (i + 1 < length rows)%nat ->
  forall (k : nat) (bc : list Z),
    (k + n = m)%nat -> length bc = m ->
    exists bc',
      for_each (seq k n) (compare_bit rows i) bc = Ok bc'
      /\ length bc' = m
      /\ forall p, bc' !! p
                   = if (k <=? p)%nat && differs rows p i then Some 1
                     else bc !! p.
Proof.
  intros Hi. induction n as [| n IH]; intros k bc Hk Hbc.
  - exists bc. split; [reflexivity |]. split; [assumption |].
    intros p. destruct (k <=? p)%nat eqn:Hkp; [| reflexivity].
    apply Nat.leb_le in Hkp. simpl.
    unfold differs.
    destruct (rows !! i) as [a |] eqn:Ha; [| reflexivity].
    destruct (rows !! (i + 1)%nat) as [b |]; [| reflexivity].
    pose proof (row_length _ _ Ha) as Hla.
    rewrite (lookup_ge_None_2 a p) by lia. reflexivity.
  - simpl. rewrite compare_bit_spec by lia. simpl.
    set (bc1 := if differs rows k i then <[k := 1]> bc else bc).
    assert (Hbc1 : length bc1 = m).
    { unfold bc1. destruct (differs rows k i); [rewrite length_insert |]; assumption. }
    destruct (IH (S k) bc1 ltac:(lia) Hbc1) as (bc' & Hrun & Hlen & Hspec).
    exists bc'. split; [exact Hrun |]. split; [exact Hlen |].
    intros p. rewrite Hspec.
    destruct (Nat.eq_dec p k) as [-> | Hne].
    + replace (S k <=? k)%nat with false by (symmetry; apply Nat.leb_gt; lia).
      rewrite Nat.leb_refl. simpl. unfold bc1.
      destruct (differs rows k i); [| reflexivity].
      apply list_lookup_insert_eq. lia.
    + replace (S k <=? p)%nat with (k <=? p)%nat.
      2:{ destruct (k <=? p)%nat eqn:H1; symmetry.
          - apply Nat.leb_le in H1. apply Nat.leb_le. lia.
          - apply Nat.leb_gt in H1. apply Nat.leb_gt. lia. }
      destruct ((k <=? p)%nat && differs rows p i); [reflexivity |].
      unfold bc1. destruct (differs rows k i); [| reflexivity].
      apply list_lookup_insert_ne. lia.
Qed.

Lemma outer_loop (n : nat) :
  forall (k : nat) (bc : list Z),
    (k + n + 1 <= length rows)%nat -> length bc = m ->
    exists bc',
      for_each (seq k n) (compare_rows rows) bc = Ok bc'
      /\ length bc' = m
      /\ forall p, bc' !! p
                   = if existsb (differs rows p) (seq k n) then Some 1
                     else bc !! p.
Proof.
  induction n as [| n IH]; intros k bc Hk Hbc.
  - exists bc. auto.
  - simpl. unfold compare_rows at 1.
    destruct (lookup_lt_is_Some_2 rows k ltac:(lia)) as [a Ha].
    rewrite (index_ok _ _ _ Ha). simpl.
    rewrite (row_length _ _ Ha).
    destruct (inner_loop k m ltac:(lia) 0%nat bc ltac:(lia) Hbc)
      as (bc1 & Hrun1 & Hlen1 & Hspec1).
    rewrite Hrun1. simpl.
    destruct (IH (S k) bc1 ltac:(lia) Hlen1) as (bc' & Hrun & Hlen & Hspec).
    exists bc'. split; [exact Hrun |]. split; [exact Hlen |].
    intros p. rewrite Hspec, Hspec1. simpl.
    destruct (differs rows p k); simpl; [| reflexivity].
    destruct (existsb (differs rows p) (seq (S k) n)); reflexivity.
Qed.

End StabilityLoops.

(** ** [find_stable_bits] *)

Lemma find_stable_bits_spec (hex_codes : list Py.str) (bins : list Py.str) :
  (2 <= length hex_codes)%nat ->
  map_result hex_to_binary hex_codes = Ok bins ->
  exists (m : nat) (mask : Py.str),
    py_min (map (fun code => length code) bins) = Ok m
    /\ find_stable_bits hex_codes = Ok mask
    /\ length mask = m
    /\ forall p, (p < m)%nat ->
         mask !! p
         = Some (if flipped (map (fun code => take m code) bins) p
                 then "0"%char else "1"%char).
Proof.
  intros Hlen Hbins.
  pose proof (map_result_length _ _ _ Hbins) as Hblen.
  destruct (py_min_spec (map (fun code => length code) bins))
    as (m & Hmin & _ & Hle).
  { intros Hnil. apply (f_equal length) in Hnil.
    rewrite length_map in Hnil. simpl in Hnil. lia. }
  exists m.
  unfold find_stable_bits.
  replace (length hex_codes <? 2)%nat with false
    by (symmetry; apply Nat.ltb_ge; lia).
  rewrite Hbins. simpl bind. rewrite Hmin. simpl bind.
  set (rows := map (fun code => take m code) bins).
  assert (Hrows : Forall (fun r => length r = m) rows).
  { unfold rows. rewrite Forall_forall. intros r Hr.
    apply list_elem_of_In, in_map_iff in Hr as (c & <- & Hc).
    rewrite Forall_forall in Hle.
    assert (m <= length c)%nat.
    { apply Hle. apply list_elem_of_In, in_map_iff. exists c. auto. }
    rewrite length_take. lia. }
  assert (Hrlen : length rows = length hex_codes).
  { unfold rows. rewrite length_map. exact Hblen. }
  destruct (lookup_lt_is_Some_2 rows 0 ltac:(lia)) as [first Hfirst].
  rewrite (index_ok _ _ _ Hfirst). simpl bind.
  rewrite (row_length rows m Hrows _ _ Hfirst).
  destruct (outer_loop rows m Hrows (length rows - 1) 0 (replicate m 0)
              ltac:(lia) (length_replicate _ _))
    as (bc & Hrun & Hbc & Hspec).
  rewrite Hrun. simpl bind.
  eexists. split; [reflexivity |]. split; [reflexivity |].
  split; [rewrite length_map; exact Hbc |].
  intros p Hp. rewrite lookup_map, Hspec.
  fold (flipped rows p).
  destruct (flipped rows p); [reflexivity |].
  rewrite lookup_replicate_2 by exact Hp. reflexivity.
Qed.

Lemma find_stable_bits_too_few (hex_codes : list Py.str) :
  (length hex_codes < 2)%nat -> find_stable_bits hex_codes = Raise ValueError.
Proof.
  intros H. unfold find_stable_bits.
  replace (length hex_codes <? 2)%nat with true
    by (symmetry; apply Nat.ltb_lt; lia).
  reflexivity.
Qed.

Lemma map_take_same (m : nat) (bins : list Py.str) :
  Forall (fun b => length b = m) bins ->
  map (fun code => take m code) bins = bins.
Proof.
  induction 1 as [| b bins Hb _ IH]; [reflexivity |].
  simpl. rewrite IH, take_ge by lia. reflexivity.
Qed.

Lemma py_min_same (m : nat) (l : list nat) :
  l <> [] -> Forall (fun y => y = m) l -> py_min l = Ok m.
Proof.
  intros Hne Hall.
  destruct (py_min_spec l Hne) as (k & Hk & Hin & _).
  rewrite Forall_forall in Hall.
  rewrite (Hall k) in Hk by (apply list_elem_of_In; exact Hin). exact Hk.
Qed.

(** [flipped] in words: some pair of neighbouring rows differs at [p]. *)
Lemma flipped_true (rows : list Py.str) (p : nat) :
  flipped rows p = true
  <-> exists i a b x y,
        rows !! i = Some a /\ rows !! (i + 1)%nat = Some b
        /\ a !! p = Some x /\ b !! p = Some y /\ x <> y.
Proof.
  unfold flipped. rewrite existsb_exists. split.
  - intros (i & _ & Hd). unfold differs in Hd.
    destruct (rows !! i) as [a |] eqn:Ha; [| discriminate].
    destruct (rows !! (i + 1)%nat) as [b |] eqn:Hb; [| discriminate].
    destruct (a !! p) as [x |] eqn:Hx; [| discriminate].
    destruct (b !! p) as [y |] eqn:Hy; [| discriminate].
    exists i, a, b, x, y. repeat split; try assumption.
    intros ->. unfold Py.chr_eqb in Hd. rewrite Ascii.eqb_refl in Hd.
    discriminate.
  - intros (i & a & b & x & y & Ha & Hb & Hx & Hy & Hne).
    exists i. split.
    + apply in_seq. apply lookup_lt_Some in Hb. lia.
    + unfold differs. rewrite Ha, Hb. cbn beta iota. rewrite Hx, Hy.
      unfold Py.chr_eqb. destruct (Ascii.eqb x y) eqn:He; [| reflexivity].
      apply Ascii.eqb_eq in He. contradiction.
Qed.

(** ** The extractor *)

Lemma selected_nil_r (c : Py.str) : selected c [] = [].
Proof. destruct c; reflexivity. Qed.

Lemma selected_cons (x y : ascii) (c r : Py.str) :
  selected (x :: c) (y :: r)
  = if Py.chr_eqb x "1" then y :: selected c r else selected c r.
Proof. unfold selected. simpl. destruct (Py.chr_eqb x "1"); reflexivity. Qed.

Lemma selected_length (c : Py.str) :
  forall r, (length c <= length r)%nat -> length (selected c r) = popcount c.
Proof.
  induction c as [| x c IH]; intros r Hlen; [reflexivity |].
  destruct r as [| y r]; [simpl in Hlen; lia |].
  rewrite selected_cons. unfold popcount. simpl List.filter.
  destruct (Py.chr_eqb x "1"); simpl; rewrite IH by (simpl in Hlen; lia);
    reflexivity.
Qed.

Lemma selected_no_ones (c : Py.str) :
  forall r, popcount c = 0%nat -> selected c r = [].
Proof.
  induction c as [| x c IH]; intros r Hp; [reflexivity |].
  destruct r as [| y r]; [apply selected_nil_r |].
  rewrite selected_cons. unfold popcount in Hp. simpl in Hp.
  destruct (Py.chr_eqb x "1"); [discriminate |]. apply IH. exact Hp.
Qed.

Lemma selected_bits (c : Py.str) :
  forall r, Forall (digit_below 2) r -> Forall (digit_below 2) (selected c r).
Proof.
  induction c as [| x c IH]; intros r Hr; [constructor |].
  destruct r as [| y r]; [rewrite selected_nil_r; constructor |].
  inversion Hr; subst. rewrite selected_cons.
  destruct (Py.chr_eqb x "1"); [constructor |]; auto.
Qed.

Section SelectLoop.

Variables c r : Py.str.

Lemma select_loop_ok (n : nat) :
  forall (k : nat) (acc : Py.str),
    (k + n = length c)%nat ->
    (forall i, (k <= i)%nat -> c !! i = Some "1"%char -> (i < length r)%nat) ->
    for_each (seq k n) (select_bit c r) acc
    = Ok (acc ++ selected (drop k c) (drop k r)).
Proof.
  induction n as [| n IH]; intros k acc Hk Hones.
  - simpl. rewrite drop_ge by lia. simpl. rewrite app_nil_r. reflexivity.
  - simpl. unfold select_bit at 1.
    destruct (lookup_lt_is_Some_2 c k ltac:(lia)) as [x Hx].
    rewrite (index_ok _ _ _ Hx). simpl bind.
    rewrite (drop_S c x k Hx).
    destruct (Py.chr_eqb x "1") eqn:Hx1.
    + apply chr_eqb_true in Hx1. subst x.
      destruct (lookup_lt_is_Some_2 r k (Hones k ltac:(lia) Hx)) as [y Hy].
      rewrite (index_ok _ _ _ Hy). simpl bind.
      rewrite (drop_S r y k Hy), selected_cons.
      change (Py.chr_eqb "1" "1") with true. cbv iota.
      rewrite IH by first [lia | intros i Hi Hc; apply Hones; [lia | exact Hc]].
      rewrite <- app_assoc. reflexivity.
    + simpl bind. rewrite IH by first [lia | intros i Hi Hc; apply Hones; [lia | exact Hc]].
      destruct (r !! k) as [y |] eqn:Hy.
      * rewrite (drop_S r y k Hy), selected_cons, Hx1. reflexivity.
      * apply lookup_ge_None_1 in Hy.
        rewrite !(drop_ge r) by lia. rewrite !selected_nil_r. reflexivity.
Qed.

Lemma select_loop_fail (n : nat) :
  forall (k : nat) (acc : Py.str),
    (k + n = length c)%nat ->
    (exists i, (k <= i)%nat /\ c !! i = Some "1"%char /\ (length r <= i)%nat) ->
    for_each (seq k n) (select_bit c r) acc = Raise IndexError.
Proof.
  induction n as [| n IH]; intros k acc Hk (i & Hki & Hi & Hri).
  - apply lookup_lt_Some in Hi. lia.
  - simpl. unfold select_bit at 1.
    destruct (lookup_lt_is_Some_2 c k ltac:(lia)) as [x Hx].
    rewrite (index_ok _ _ _ Hx). simpl bind.
    destruct (Nat.eq_dec i k) as [-> | Hne].
    + rewrite Hx in Hi. injection Hi as ->. simpl.
      rewrite index_raise by exact Hri. reflexivity.
    + assert (Hrest : forall acc',
                 for_each (seq (S k) n) (select_bit c r) acc' = Raise IndexError).
      { intros acc'. apply IH; [lia |]. exists i. repeat split; try assumption. lia. }
      destruct (Py.chr_eqb x "1"); [| apply Hrest].
      destruct (Py.index r k) as [y | e] eqn:Hy; simpl; [apply Hrest |].
      unfold Py.index in Hy. destruct (r !! k); congruence.
Qed.

End SelectLoop.

Lemma to_byte_ok (v : Z) : 0 <= v < 256 -> to_byte v = Ok (byte_of_Z v).
Proof.
  intros Hv. unfold to_byte, byte_of_Z.
  replace ((0 <=? v) && (v <? 256)) with true
    by (symmetry; apply andb_true_iff; split; [apply Z.leb_le | apply Z.ltb_lt]; lia).
  rewrite Z.mod_small by lia.
  destruct (Byte.of_N (Z.to_N v)) as [b |] eqn:Hb; [reflexivity |].
  apply Byte.of_N_None_iff in Hb. lia.
Qed.

Lemma range_step_8_lt (n i : nat) : In i (range_step n 8) -> (i < n)%nat.
Proof.
  unfold range_step. rewrite in_map_iff. intros (k & <- & Hk).
  apply in_seq in Hk.
  assert ((n + 8 - 1) / 8 * 8 <= n + 8 - 1)%nat.
  { rewrite Nat.mul_comm. apply Nat.Div0.mul_div_le. }
  lia.
Qed.

Lemma chunks_length (s : Py.str) :
  length (chunks 8 s) = ((length s + 7) / 8)%nat.
Proof.
  unfold chunks, range_step. rewrite !length_map, length_seq.
  f_equal. lia.
Qed.

Lemma pack_byte_ok (bits : Py.str) (i : nat) :
  Forall (digit_below 2) bits -> (i < length bits)%nat ->
  pack_byte bits i = Ok (pack (take 8 (drop i bits))).
Proof.
  intros Hb Hi. unfold pack_byte, pack.
  set (g := take 8 (drop i bits)).
  assert (Hg : Forall (digit_below 2) g).
  { unfold g. apply Forall_take, Forall_drop. exact Hb. }
  assert (Hlen : (1 <= length g <= 8)%nat).
  { unfold g. rewrite length_take, length_drop. lia. }
  assert (Hne : g <> []) by (destruct g; simpl in Hlen; [lia | congruence]).
  rewrite (int_digits 2) by (assumption || lia).
  simpl bind.
  pose proof (value_bounds 2 ltac:(lia) ltac:(lia) g Hg) as Hv.
  apply to_byte_ok.
  assert (2 ^ Z.of_nat (length g) <= 2 ^ 8) by (apply Z.pow_le_mono_r; lia).
  lia.
Qed.

Lemma pack_all (bits : Py.str) :
  Forall (digit_below 2) bits ->
  map_result (pack_byte bits) (range_step (length bits) 8)
  = Ok (map pack (chunks 8 bits)).
Proof.
  intros Hb. unfold chunks. rewrite map_map.
  apply map_result_ok. intros i Hi.
  apply pack_byte_ok; [exact Hb |]. apply range_step_8_lt. exact Hi.
Qed.

Lemma extract_ok (c r : Py.str) :
  (forall i, c !! i = Some "1"%char -> (i < length r)%nat) ->
  Forall (digit_below 2) r ->
  extract_bits_from_sram_to_bytearray c r = Ok (map pack (chunks 8 (selected c r))).
Proof.
  intros Hones Hr. unfold extract_bits_from_sram_to_bytearray.
  rewrite (select_loop_ok c r (length c) 0 []) by (try reflexivity; auto).
  exact (pack_all (selected c r) (selected_bits c r Hr)).
Qed.

Lemma extract_fail (c r : Py.str) :
  (exists i, c !! i = Some "1"%char /\ (length r <= i)%nat) ->
  extract_bits_from_sram_to_bytearray c r = Raise IndexError.
Proof.
  intros (i & Hi & Hri). unfold extract_bits_from_sram_to_bytearray.
  rewrite (select_loop_fail c r (length c) 0 []); [reflexivity | reflexivity |].
  exists i. repeat split; [lia | assumption | assumption].
Qed.

(** ** Key derivation *)

Lemma be_bytes_length (n : nat) (v : Z) : length (SHA256.be_bytes n v) = n.
Proof. unfold SHA256.be_bytes. rewrite length_map, length_seq. reflexivity. Qed.

Lemma digest_length (msg : bytes) :
  length (SHA256.digest msg) = SHA256.digest_size.
Proof.
  unfold SHA256.digest, SHA256.output.
  rewrite !length_app, !be_bytes_length. reflexivity.
Qed.

Lemma hmac_sha256_length (key msg : bytes) :
  length (hmac_sha256 key msg) = SHA256.digest_size.
Proof. unfold hmac_sha256. apply digest_length. Qed.

Lemma xor_bytes_length (a b : bytes) :
  length (xor_bytes a b) = Nat.min (length a) (length b).
Proof. unfold xor_bytes. apply length_zip_with. Qed.

Lemma pbkdf2_iter_length (password : bytes) (n : nat) (u t : bytes) :
  length u = SHA256.digest_size -> length t = SHA256.digest_size ->
  length (fst (Nat.iter n (pbkdf2_step password) (u, t))) = SHA256.digest_size
  /\ length (snd (Nat.iter n (pbkdf2_step password) (u, t))) = SHA256.digest_size.
Proof.
  intros Hu Ht. induction n as [| n [IHu IHt]]; [simpl; auto |].
  rewrite Nat.iter_succ.
  destruct (Nat.iter n (pbkdf2_step password) (u, t)) as [u' t'].
  unfold pbkdf2_step. cbv zeta. cbn [fst snd] in *.
  rewrite xor_bytes_length, hmac_sha256_length, IHt.
  split; [reflexivity | apply Nat.min_id].
Qed.

Lemma pbkdf2_block_length (password salt : bytes) (c i : nat) :
  length (pbkdf2_block password salt c i) = SHA256.digest_size.
Proof.
  unfold pbkdf2_block.
  apply pbkdf2_iter_length; apply hmac_sha256_length.
Qed.

Lemma derived_length (material : bytes) : length (derived material) = 32%nat.
Proof. unfold derived. apply pbkdf2_block_length. Qed.

Lemma pbkdf2_single_block (password salt : bytes) (iterations : Z) :
  1 <= iterations ->
  pbkdf2_hmac_sha256 password salt iterations 32
  = Ok (pbkdf2_block password salt (Z.to_nat iterations) 1).
Proof.
  intros Hit. unfold pbkdf2_hmac_sha256.
  replace (iterations <? 1) with false by (symmetry; apply Z.ltb_ge; lia).
  change (32 <? 1) with false. cbv iota.
  change (Z.to_nat ((32 + 31) / 32)) with 1%nat.
  change (seq 1 1) with [1%nat].
  change (map (pbkdf2_block password salt (Z.to_nat iterations)) [1%nat])
    with [pbkdf2_block password salt (Z.to_nat iterations) 1].
  change (concat [pbkdf2_block password salt (Z.to_nat iterations) 1])
    with (pbkdf2_block password salt (Z.to_nat iterations) 1 ++ []).
  rewrite app_nil_r, take_ge; [reflexivity |].
  rewrite pbkdf2_block_length. reflexivity.
Qed.

Lemma pbkdf2_hash_ok (material : bytes) :
  pbkdf2_hash material = Ok (derived material).
Proof.
  unfold pbkdf2_hash, derived. apply pbkdf2_single_block.
  unfold PBKDF2_ITERATIONS. lia.
Qed.

(** ** The orchestrator, step by step *)

Lemma bind_Ok {A B : Type} (a : A) (k : A -> result B) : bind (Ok a) k = k a.
Proof. reflexivity. Qed.

Lemma bind_Raise {A B : Type} (e : exn) (k : A -> result B) :
  bind (Raise e) k = Raise e.
Proof. reflexivity. Qed.

Lemma Ok_inj {A : Type} (a b : A) : Ok a = Ok b -> a = b.
Proof. intros H. injection H as H. exact H. Qed.

Lemma int_raises (s : Py.str) (b : Z) (e : exn) :
  Py.int s b = Raise e -> e = ValueError.
Proof.
  unfold Py.int. destruct (Py.take_sign (Py.skip_int_space s)) as [sign s2].
  destruct (Py.starts_with_underscore _); [congruence |].
  destruct (Py.scan_digits _ _ _ _ _) as [[[v m] rest] |]; [| congruence].
  destruct (Nat.eqb m 0); [congruence |].
  destruct (forallb Py.int_isspace rest); congruence.
Qed.

Lemma stable_char_bit (x : Z) : digit_below 2 (stable_char x).
Proof. unfold stable_char, digit_below. destruct (x =? 0); vm_compute; reflexivity. Qed.

Lemma find_stable_bits_bits (hex_codes : list Py.str) (mask : Py.str) :
  find_stable_bits hex_codes = Ok mask -> Forall (digit_below 2) mask.
Proof.
  unfold find_stable_bits.
  destruct (length hex_codes <? 2)%nat; [discriminate |].
  destruct (map_result hex_to_binary hex_codes) as [bins | e]; [| discriminate].
  rewrite bind_Ok.
  destruct (py_min _) as [m | e]; [| discriminate]. rewrite bind_Ok.
  destruct (Py.index _ 0) as [first | e]; [| discriminate]. rewrite bind_Ok.
  destruct (for_each _ _ _) as [bc | e]; [| discriminate]. rewrite bind_Ok.
  intros H. injection H as <-.
  rewrite Forall_forall. intros c Hc.
  apply list_elem_of_In, in_map_iff in Hc as (x & <- & _).
  apply stable_char_bit.
Qed.

Lemma slice_to_bits (mask : Py.str) (n : Z) :
  Forall (digit_below 2) mask -> Forall (digit_below 2) (Py.slice_to mask n).
Proof.
  intros H. unfold Py.slice_to. destruct (n <? 0); apply Forall_take; exact H.
Qed.

Lemma slice_to_length (mask : Py.str) (n : Z) :
  (length (Py.slice_to mask n) <= length mask)%nat.
Proof.
  unfold Py.slice_to. destruct (n <? 0); rewrite length_take; lia.
Qed.

Lemma main_run (f : file) (n : Z) (mask ram : Py.str) (ex : bytes) :
  (2 <= length (read_hex_codes f))%nat ->
  find_stable_bits (read_hex_codes f) = Ok mask ->
  mask <> [] ->
  hex_to_binary (get_first_measurement f) = Ok ram ->
  extract_bits_from_sram_to_bytearray (Py.slice_to mask n) ram = Ok ex ->
  main f n
  = (let* hex := challenge_hex (Py.slice_to mask n) in
     Ok (Exit0 (Report (Py.count "1" mask <? n) (Py.slice_to mask n) ex hex
                       (derived ex)))).
Proof.
  intros Hlen Hmask Hne Hram Hex. unfold main.
  replace (length (read_hex_codes f) <? 2)%nat with false
    by (symmetry; apply Nat.ltb_ge; lia).
  rewrite Hmask, bind_Ok.
  replace (Z.of_nat (length mask) =? 0) with false.
  2:{ symmetry. apply Z.eqb_neq. destruct mask; [congruence | simpl; lia]. }
  rewrite bind_Ok, Hram, bind_Ok, Hex, bind_Ok, pbkdf2_hash_ok, bind_Ok.
  reflexivity.
Qed.

(** ** [int(s, 16)] reads integer literals, and nothing else *)

Lemma token_of_spec (c : ascii) :
  token_of c
  = if Py.int_isspace c then TSpace
    else if Py.chr_eqb c "+" then TPlus
    else if Py.chr_eqb c "-" then TMinus
    else if Py.chr_eqb c "_" then TUnderscore
    else if Py.chr_eqb c "x" || Py.chr_eqb c "X" then TX
    else if Py.digit_value c <? 16 then TDigit (Py.digit_value c)
    else TOther.
Proof. all_chars c. Qed.

Lemma prefix_letter_16 (c : ascii) :
  Py.is_prefix_letter 16 c = Py.chr_eqb c "x" || Py.chr_eqb c "X".
Proof.
  unfold Py.is_prefix_letter. change (16 =? 16) with true.
  change (16 =? 8) with false. change (16 =? 2) with false.
  cbn [andb]. rewrite !orb_false_r. reflexivity.
Qed.

Lemma token_space (c : ascii) :
  token_of c = TSpace <-> Py.int_isspace c = true.
Proof.
  rewrite token_of_spec.
  destruct (Py.int_isspace c); [tauto |].
  destruct (Py.chr_eqb c "+"); [split; discriminate |].
  destruct (Py.chr_eqb c "-"); [split; discriminate |].
  destruct (Py.chr_eqb c "_"); [split; discriminate |].
  destruct (Py.chr_eqb c "x" || Py.chr_eqb c "X"); [split; discriminate |].
  destruct (Py.digit_value c <? 16); split; discriminate.
Qed.

Lemma token_plus (c : ascii) :
  token_of c = TPlus <-> Py.chr_eqb c "+" = true.
Proof.
  split.
  - rewrite token_of_spec.
    destruct (Py.int_isspace c); [discriminate |].
    destruct (Py.chr_eqb c "+"); [reflexivity |].
    destruct (Py.chr_eqb c "-"); [discriminate |].
    destruct (Py.chr_eqb c "_"); [discriminate |].
    destruct (Py.chr_eqb c "x" || Py.chr_eqb c "X"); [discriminate |].
    destruct (Py.digit_value c <? 16); discriminate.
  - intros H. apply Ascii.eqb_eq in H. subst c. reflexivity.
Qed.

Lemma token_minus (c : ascii) :
  token_of c = TMinus
  <-> Py.chr_eqb c "+" = false /\ Py.chr_eqb c "-" = true.
Proof.
  split.
  - rewrite token_of_spec.
    destruct (Py.int_isspace c); [discriminate |].
    destruct (Py.chr_eqb c "+"); [discriminate |].
    destruct (Py.chr_eqb c "-"); [split; reflexivity |].
    destruct (Py.chr_eqb c "_"); [discriminate |].
    destruct (Py.chr_eqb c "x" || Py.chr_eqb c "X"); [discriminate |].
    destruct (Py.digit_value c <? 16); discriminate.
  - intros [_ H]. apply Ascii.eqb_eq in H. subst c. reflexivity.
Qed.

Lemma token_underscore (c : ascii) :
  token_of c = TUnderscore <-> Py.chr_eqb c "_" = true.
Proof.
  split.
  - rewrite token_of_spec.
    destruct (Py.int_isspace c); [discriminate |].
    destruct (Py.chr_eqb c "+"); [discriminate |].
    destruct (Py.chr_eqb c "-"); [discriminate |].
    destruct (Py.chr_eqb c "_"); [reflexivity |].
    destruct (Py.chr_eqb c "x" || Py.chr_eqb c "X"); [discriminate |].
    destruct (Py.digit_value c <? 16); discriminate.
  - intros H. apply Ascii.eqb_eq in H. subst c. reflexivity.
Qed.

Lemma token_x (c : ascii) :
  token_of c = TX <-> Py.is_prefix_letter 16 c = true.
Proof.
  rewrite prefix_letter_16. split.
  - rewrite token_of_spec.
    destruct (Py.int_isspace c); [discriminate |].
    destruct (Py.chr_eqb c "+"); [discriminate |].
    destruct (Py.chr_eqb c "-"); [discriminate |].
    destruct (Py.chr_eqb c "_"); [discriminate |].
    destruct (Py.chr_eqb c "x" || Py.chr_eqb c "X"); [reflexivity |].
    destruct (Py.digit_value c <? 16); discriminate.
  - intros H. apply orb_true_iff in H.
    destruct H as [H | H]; apply Ascii.eqb_eq in H; subst c; reflexivity.
Qed.

Lemma token_digit (c : ascii) (d : Z) :
  token_of c = TDigit d
  <-> (Py.digit_value c <? 16) = true /\ Py.digit_value c = d.
Proof.
  split.
  - rewrite token_of_spec.
    destruct (Py.int_isspace c); [discriminate |].
    destruct (Py.chr_eqb c "+"); [discriminate |].
    destruct (Py.chr_eqb c "-"); [discriminate |].
    destruct (Py.chr_eqb c "_"); [discriminate |].
    destruct (Py.chr_eqb c "x" || Py.chr_eqb c "X"); [discriminate |].
    destruct (Py.digit_value c <? 16); [| discriminate].
    intros H. injection H as H. split; [reflexivity | exact H].
  - intros [Hlt <-]. revert Hlt. all_chars c.
Qed.

Lemma token_zero (c : ascii) :
  token_of c = TDigit 0 -> Py.chr_eqb c "0" = true.
Proof. all_chars c. Qed.

(** A digit is no white space, sign or underscore. *)
Lemma token_digit_plain (c : ascii) (d : Z) :
  token_of c = TDigit d ->
  Py.int_isspace c = false /\ Py.chr_eqb c "+" = false
  /\ Py.chr_eqb c "-" = false /\ Py.chr_eqb c "_" = false
  /\ Py.is_prefix_letter 16 c = false.
Proof.
  rewrite prefix_letter_16, token_of_spec.
  destruct (Py.int_isspace c); [discriminate |].
  destruct (Py.chr_eqb c "+"); [discriminate |].
  destruct (Py.chr_eqb c "-"); [discriminate |].
  destruct (Py.chr_eqb c "_"); [discriminate |].
  destruct (Py.chr_eqb c "x" || Py.chr_eqb c "X"); [discriminate |].
  intros _. repeat split; reflexivity.
Qed.

(** White space ends the digits. *)
Lemma token_space_stops (c : ascii) :
  token_of c = TSpace ->
  Py.chr_eqb c "_" = false /\ (Py.digit_value c <? 16) = false
  /\ Py.is_prefix_letter 16 c = false.
Proof. rewrite prefix_letter_16. all_chars c. Qed.

Lemma token_underscore_plain (c : ascii) :
  token_of c = TUnderscore -> Py.is_prefix_letter 16 c = false.
Proof. rewrite prefix_letter_16. all_chars c. Qed.

(** *** From the parser to the grammar *)

Lemma skip_int_space_split (s : Py.str) :
  exists ws : Py.str,
    s = ws ++ Py.skip_int_space s
    /\ Forall (fun t => t = TSpace) (map token_of ws).
Proof.
  induction s as [| c r (ws & Hws & Hsp)].
  - exists []. split; [reflexivity | constructor].
  - simpl. destruct (Py.int_isspace c) eqn:Hc.
    + exists (c :: ws). split; [simpl; f_equal; exact Hws |].
      simpl. constructor; [apply token_space; exact Hc | exact Hsp].
    + exists []. split; [reflexivity | constructor].
Qed.

Lemma take_sign_split (s : Py.str) :
  exists sign : Py.str,
    s = sign ++ snd (Py.take_sign s)
    /\ is_sign (map token_of sign) (fst (Py.take_sign s)).
Proof.
  unfold Py.take_sign. destruct s as [| c r].
  - exists []. split; [reflexivity | left; split; reflexivity].
  - destruct (Py.chr_eqb c "+") eqn:Hp.
    + exists [c]. split; [reflexivity |]. right. left.
      split; [| reflexivity]. simpl. f_equal. apply token_plus. exact Hp.
    + destruct (Py.chr_eqb c "-") eqn:Hm.
      * exists [c]. split; [reflexivity |]. right. right.
        split; [| reflexivity]. simpl. f_equal. apply token_minus. auto.
      * exists []. split; [reflexivity | left; split; reflexivity].
Qed.

Lemma skip_base_prefix_split (s : Py.str) :
  exists prefix : Py.str,
    s = prefix ++ Py.skip_base_prefix 16 s
    /\ is_prefix (map token_of prefix).
Proof.
  unfold Py.skip_base_prefix.
  destruct s as [| z [| c r]];
    [exists []; split; [reflexivity | left; reflexivity] ..|].
  destruct (Py.chr_eqb z "0" && Py.is_prefix_letter 16 c) eqn:H;
    [| exists []; split; [reflexivity | left; reflexivity]].
  apply andb_true_iff in H as [Hz Hc].
  apply Ascii.eqb_eq in Hz. subst z. apply token_x in Hc.
  destruct r as [| u r'].
  - exists ["0"%char; c]. split; [reflexivity |]. right. left.
    simpl. rewrite Hc. reflexivity.
  - destruct (Py.chr_eqb u "_") eqn:Hu.
    + exists ["0"%char; c; u]. split; [reflexivity |]. right. right.
      apply token_underscore in Hu. simpl. rewrite Hc, Hu. reflexivity.
    + exists ["0"%char; c]. split; [reflexivity |]. right. left.
      simpl. rewrite Hc. reflexivity.
Qed.

Lemma scan_digits_sound (s : Py.str) :
  forall (acc : Z) (prev_us : bool) (n : nat) (v : Z) (m : nat) (rest : Py.str),
    Py.scan_digits 16 s acc prev_us n = Some (v, m, rest) ->
    exists body : Py.str,
      s = body ++ rest
      /\ (if prev_us then digit_group (map token_of body)
          else digit_tail (map token_of body))
      /\ v = foldl token_step acc (map token_of body)
      /\ (body = [] -> m = n).
Proof.
  induction s as [| c r IH]; intros acc prev n v m rest H; simpl in H.
  - destruct prev; [discriminate |]. injection H as <- <- <-.
    exists []. repeat split; constructor.
  - destruct (Py.chr_eqb c "_") eqn:Hu.
    + destruct prev; [discriminate |].
      destruct (IH _ _ _ _ _ _ H) as (body & -> & (d & ts & Hts & Htail) & Hv & _).
      exists (c :: body). split; [reflexivity |].
      apply token_underscore in Hu.
      split; [| split; [| discriminate]].
      * simpl. rewrite Hu, Hts. constructor. exact Htail.
      * simpl. rewrite Hu. exact Hv.
    + destruct (Py.digit_value c <? 16) eqn:Hd.
      * destruct (IH _ _ _ _ _ _ H) as (body & -> & Htail & Hv & _).
        assert (Hc : token_of c = TDigit (Py.digit_value c))
          by (apply token_digit; auto).
        exists (c :: body). split; [reflexivity |].
        split; [| split; [| discriminate]].
        -- simpl. rewrite Hc.
           destruct prev; [eexists _, _; split; [reflexivity | exact Htail] |].
           constructor. exact Htail.
        -- simpl. rewrite Hc. exact Hv.
      * destruct prev; [discriminate |]. injection H as <- <- <-.
        exists []. repeat split; constructor.
Qed.

Lemma forallb_space (s : Py.str) :
  forallb Py.int_isspace s = true
  <-> Forall (fun t => t = TSpace) (map token_of s).
Proof.
  induction s as [| c r IH]; simpl.
  - split; [constructor | reflexivity].
  - rewrite andb_true_iff, IH, <- token_space. split.
    + intros [Hc Hr]. constructor; assumption.
    + intros H. inversion H; subst. auto.
Qed.

Lemma int_literal_sound (s : Py.str) (v : Z) :
  Py.int s 16 = Ok v -> literal (map token_of s) v.
Proof.
  unfold Py.int. intros H.
  destruct (skip_int_space_split s) as (ws & Hs & Hws).
  destruct (take_sign_split (Py.skip_int_space s)) as (sign & Hs1 & Hsign).
  destruct (Py.take_sign (Py.skip_int_space s)) as [sg s2]. cbn [fst snd] in *.
  destruct (skip_base_prefix_split s2) as (prefix & Hs2 & Hprefix).
  destruct (Py.starts_with_underscore (Py.skip_base_prefix 16 s2)) eqn:Hus;
    [discriminate |].
  destruct (Py.scan_digits 16 (Py.skip_base_prefix 16 s2) 0 false 0)
    as [[[v0 m] rest] |] eqn:Hscan; [| discriminate].
  destruct (Nat.eqb m 0) eqn:Hm; [discriminate |].
  destruct (forallb Py.int_isspace rest) eqn:Hrest; [| discriminate].
  injection H as <-.
  destruct (scan_digits_sound _ _ _ _ _ _ _ Hscan)
    as (body & Hs3 & Htail & Hv & Hne).
  exists (map token_of ws), (map token_of sign), sg, (map token_of prefix),
         (map token_of body), (map token_of rest).
  split.
  { rewrite <- !map_app. f_equal.
    rewrite Hs at 1. f_equal. rewrite Hs1 at 1. f_equal.
    rewrite Hs2 at 1. f_equal. exact Hs3. }
  split; [exact Hws |]. split; [exact Hsign |]. split; [exact Hprefix |].
  split; [| split; [apply forallb_space; exact Hrest | rewrite Hv; reflexivity]].
  destruct body as [| c b].
  - specialize (Hne eq_refl). subst m. discriminate.
  - rewrite Hs3 in Hus. simpl in Hus. simpl in Htail. simpl.
    inversion Htail as [| d ts Hts Heq | d ts Hts Heq].
    + exists d, (map token_of b). split; [reflexivity | exact Hts].
    + symmetry in Heq. apply token_underscore in Heq. congruence.
Qed.

(** *** From the grammar to the parser *)

Lemma skip_int_space_app (ws r : Py.str) :
  Forall (fun t => t = TSpace) (map token_of ws) ->
  Py.skip_int_space (ws ++ r) = Py.skip_int_space r.
Proof.
  induction ws as [| c ws IH]; intros H; [reflexivity |].
  simpl in H. inversion H as [| ? ? Hc Hr]; subst.
  apply token_space in Hc. simpl. rewrite Hc. apply IH. exact Hr.
Qed.

Lemma scan_digits_complete (ts : list token) :
  digit_tail ts ->
  forall (body rest : Py.str) (acc : Z) (n : nat),
    map token_of body = ts -> stops rest ->
    exists m : nat,
      (n <= m)%nat
      /\ Py.scan_digits 16 (body ++ rest) acc false n
         = Some (foldl token_step acc ts, m, rest).
Proof.
  induction 1 as [| d ts Hts IH | d ts Hts IH]; intros body rest acc n Hb Hst.
  - apply map_eq_nil in Hb. subst body. exists n. split; [lia |].
    destruct rest as [| c r]; [reflexivity |].
    destruct Hst as [Hu Hd]. simpl. rewrite Hu, Hd. reflexivity.
  - apply map_eq_cons in Hb as (c & b & -> & Hc & Hb).
    destruct (token_digit_plain c d Hc) as (_ & _ & _ & Hu & _).
    apply token_digit in Hc as [Hlt Hd].
    destruct (IH b rest (acc * 16 + d) (S n) Hb Hst) as (m & Hm & Hscan).
    exists m. split; [lia |].
    simpl. rewrite Hu, Hlt, Hd. exact Hscan.
  - apply map_eq_cons in Hb as (u & b0 & -> & Hu & Hb).
    apply map_eq_cons in Hb as (c & b & -> & Hc & Hb).
    apply token_underscore in Hu.
    destruct (token_digit_plain c d Hc) as (_ & _ & _ & Hcu & _).
    apply token_digit in Hc as [Hlt Hd].
    destruct (IH b rest (acc * 16 + d) (S n) Hb Hst) as (m & Hm & Hscan).
    exists m. split; [lia |].
    simpl. rewrite Hu, Hcu, Hlt, Hd. exact Hscan.
Qed.

Lemma spaces_stop (ws : Py.str) :
  Forall (fun t => t = TSpace) (map token_of ws) -> stops ws.
Proof.
  destruct ws as [| c r]; intros H; [exact I |].
  simpl in H. inversion H as [| ? ? Hc _]; subst.
  destruct (token_space_stops c Hc) as (Hu & Hd & _). split; assumption.
Qed.

(** The digits and what follows them are not taken for a prefix. *)
Lemma skip_base_prefix_digits (c : ascii) (b rest : Py.str) (d : Z) :
  token_of c = TDigit d -> digit_tail (map token_of b) ->
  Forall (fun t => t = TSpace) (map token_of rest) ->
  Py.skip_base_prefix 16 (c :: b ++ rest) = c :: b ++ rest.
Proof.
  intros Hc Hb Hrest. unfold Py.skip_base_prefix.
  destruct (b ++ rest) as [| c1 r] eqn:Hbr; [reflexivity |].
  assert (H1 : Py.is_prefix_letter 16 c1 = false).
  { destruct b as [| c1' b'].
    - simpl in Hbr. subst rest. simpl in Hrest.
      inversion Hrest as [| ? ? H1 _]; subst.
      apply (token_space_stops c1 H1).
    - simpl in Hbr. injection Hbr as -> _. simpl in Hb.
      inversion Hb as [| d1 ts _ Heq | d1 ts _ Heq]; symmetry in Heq.
      + apply (token_digit_plain c1 d1 Heq).
      + apply (token_underscore_plain c1 Heq). }
  rewrite H1, andb_false_r. reflexivity.
Qed.

Lemma int_literal_complete (s : Py.str) (v : Z) :
  literal (map token_of s) v -> Py.int s 16 = Ok v.
Proof.
  intros (ws1 & sign & sg & prefix & body & ws2
          & Hs & Hws1 & Hsign & Hprefix & (d & ts & Hbody & Htail) & Hws2 & ->).
  apply map_eq_app in Hs as (w1 & s1 & -> & Hw1 & Hs).
  apply map_eq_app in Hs as (sn & s2 & -> & Hsn & Hs).
  apply map_eq_app in Hs as (p & s3 & -> & Hp & Hs).
  apply map_eq_app in Hs as (b & w2 & -> & Hb & Hw2).
  subst ws1 sign prefix ws2.
  rewrite Hbody in Hb. apply map_eq_cons in Hb as (c & b' & -> & Hc & Hb').
  subst ts body.
  destruct (token_digit_plain c d Hc) as (Hcsp & Hcpl & Hcmi & Hcus & Hcx).
  pose proof (proj1 (token_digit c d) Hc) as [Hclt Hcd].
  (* the digits *)
  assert (Hdigits : forall sgn,
             (if Py.starts_with_underscore ((c :: b') ++ w2)
              then Raise ValueError
              else match Py.scan_digits 16 ((c :: b') ++ w2) 0 false 0 with
                   | None => Raise ValueError
                   | Some (v, n, rest) =>
                       if Nat.eqb n 0 then Raise ValueError
                       else if forallb Py.int_isspace rest then Ok (sgn * v)
                            else Raise ValueError
                   end)
             = Ok (sgn * token_value (TDigit d :: map token_of b'))).
  { intros sgn. simpl. rewrite Hcus, Hclt, Hcd.
    destruct (scan_digits_complete _ Htail b' w2 (0 * 16 + d) 1 eq_refl
                (spaces_stop w2 Hws2)) as (m & Hm & Hscan).
    rewrite Hscan.
    destruct m as [| m]; [lia |]. cbn [Nat.eqb].
    rewrite (proj2 (forallb_space w2) Hws2). reflexivity. }
  (* the prefix *)
  assert (Hpre : Py.skip_base_prefix 16 (p ++ (c :: b') ++ w2)
                 = (c :: b') ++ w2).
  { destruct Hprefix as [Hp | [Hp | Hp]].
    - apply map_eq_nil in Hp. subst p.
      apply (skip_base_prefix_digits c b' w2 d Hc Htail Hws2).
    - apply map_eq_cons in Hp as (z & p' & -> & Hz & Hp).
      apply map_eq_cons in Hp as (x & p'' & -> & Hx & Hp).
      apply map_eq_nil in Hp. subst p''.
      apply token_zero in Hz. apply token_x in Hx.
      simpl. rewrite Hz, Hx, Hcus. reflexivity.
    - apply map_eq_cons in Hp as (z & p' & -> & Hz & Hp).
      apply map_eq_cons in Hp as (x & p'' & -> & Hx & Hp).
      apply map_eq_cons in Hp as (u & p' & -> & Hu & Hp).
      apply map_eq_nil in Hp. subst p'.
      apply token_zero in Hz. apply token_x in Hx. apply token_underscore in Hu.
      simpl. rewrite Hz, Hx, Hu. reflexivity. }
  (* what follows the sign starts with a digit *)
  assert (Hhead : exists c0 r0 d0,
             p ++ (c :: b') ++ w2 = c0 :: r0 /\ token_of c0 = TDigit d0).
  { destruct Hprefix as [Hp | [Hp | Hp]].
    - apply map_eq_nil in Hp. subst p. exists c, (b' ++ w2), d. auto.
    - apply map_eq_cons in Hp as (z & p' & -> & Hz & _).
      exists z, (p' ++ (c :: b') ++ w2), 0. auto.
    - apply map_eq_cons in Hp as (z & p' & -> & Hz & _).
      exists z, (p' ++ (c :: b') ++ w2), 0. auto. }
  destruct Hhead as (c0 & r0 & d0 & Hr0 & Hc0).
  destruct (token_digit_plain c0 d0 Hc0) as (H0sp & H0pl & H0mi & _).
  set (r3 := (c :: b') ++ w2) in *. clearbody r3.
  unfold Py.int. rewrite (skip_int_space_app w1 _ Hws1).
  destruct Hsign as [[Hsn ->] | [[Hsn ->] | [Hsn ->]]].
  - apply map_eq_nil in Hsn. subst sn. cbn [app].
    rewrite Hr0. cbn [Py.skip_int_space]. rewrite H0sp.
    cbn [Py.take_sign]. rewrite H0pl, H0mi. rewrite <- Hr0, Hpre.
    apply Hdigits.
  - apply map_eq_cons in Hsn as (x & sn' & -> & Hx & Hsn).
    apply map_eq_nil in Hsn. subst sn'.
    pose proof (proj1 (token_plus x) Hx) as Hxp.
    assert (Hxs : Py.int_isspace x = false).
    { destruct (Py.int_isspace x) eqn:E; [| reflexivity].
      apply token_space in E. congruence. }
    cbn [app Py.skip_int_space]. rewrite Hxs.
    cbn [Py.take_sign]. rewrite Hxp, Hpre. apply Hdigits.
  - apply map_eq_cons in Hsn as (x & sn' & -> & Hx & Hsn).
    apply map_eq_nil in Hsn. subst sn'.
    pose proof (proj1 (token_minus x) Hx) as [Hxp Hxm].
    assert (Hxs : Py.int_isspace x = false).
    { destruct (Py.int_isspace x) eqn:E; [| reflexivity].
      apply token_space in E. congruence. }
    cbn [app Py.skip_int_space]. rewrite Hxs.
    cbn [Py.take_sign]. rewrite Hxp, Hxm, Hpre. apply Hdigits.
Qed.

(** [int(s, 16)] succeeds exactly on integer literals. *)
Lemma int_literal (s : Py.str) (v : Z) :
  Py.int s 16 = Ok v <-> literal (map token_of s) v.
Proof. split; [apply int_literal_sound | apply int_literal_complete]. Qed.

(** *** Any string *)

Lemma token_of_chr (ch : N) :
  (ch < 256)%N -> token_of (ascii_of_N ch) = classify ch.
Proof.
  intros H. unfold token_of. rewrite N_ascii_embedding by exact H. reflexivity.
Qed.

Lemma classify_high (ch : N) :
  (127 <= ch)%N ->
  classify ch
  = if Unicode.isspace ch then TSpace
    else match Unicode.to_decimal ch with
         | Some d => TDigit (Z.of_N d)
         | None => TOther
         end.
Proof.
  intros H. unfold classify. rewrite existsb_app. cbn [existsb].
  repeat match goal with
         | |- context [(ch =? ?k)%N] =>
             replace (ch =? k)%N with false by (symmetry; apply N.eqb_neq; lia)
         end.
  replace (ch <=? 57)%N with false by (symmetry; apply N.leb_gt; lia).
  replace (ch <=? 102)%N with false by (symmetry; apply N.leb_gt; lia).
  replace (ch <=? 70)%N with false by (symmetry; apply N.leb_gt; lia).
  rewrite !andb_false_r. cbn [orb]. reflexivity.
Qed.

Lemma to_decimal_range (ch d : N) :
  Unicode.to_decimal ch = Some d -> (d < 10)%N.
Proof.
  unfold Unicode.to_decimal.
  destruct (find _ Unicode.digit_zeros) as [z |] eqn:Hf; [| discriminate].
  intros H. injection H as <-.
  apply find_some in Hf as [_ Hf]. apply andb_true_iff in Hf as [H1 H2].
  apply N.leb_le in H1. apply N.ltb_lt in H2. lia.
Qed.

Lemma token_of_decimal (d : N) :
  (d < 10)%N -> token_of (ascii_of_N (48 + d)) = TDigit (Z.of_N d).
Proof.
  intros H.
  assert (Hd : (d = 0 \/ d = 1 \/ d = 2 \/ d = 3 \/ d = 4 \/ d = 5 \/ d = 6
                \/ d = 7 \/ d = 8 \/ d = 9)%N) by lia.
  repeat (destruct Hd as [-> | Hd]; [reflexivity |]). subst d. reflexivity.
Qed.

Lemma transform_tokens (u : Unicode.str) :
  Forall (fun ch => classify ch <> TOther) u ->
  map token_of (Unicode.transform u) = map classify u.
Proof.
  induction u as [| ch u IH]; intros H; [reflexivity |].
  inversion H as [| ? ? Hch Hu]; subst. specialize (IH Hu).
  cbn [Unicode.transform]. destruct (ch <? 127)%N eqn:Hlt.
  - apply N.ltb_lt in Hlt. cbn [map].
    rewrite token_of_chr by lia. f_equal. exact IH.
  - apply N.ltb_ge in Hlt. rewrite (classify_high ch Hlt) in Hch.
    cbn [map]. rewrite (classify_high ch Hlt).
    destruct (Unicode.isspace ch).
    + cbn [map]. f_equal. exact IH.
    + destruct (Unicode.to_decimal ch) as [d |] eqn:Hd; [| congruence].
      cbn [map]. rewrite token_of_decimal by (eapply to_decimal_range; eauto).
      f_equal. exact IH.
Qed.

Lemma transform_other (u : Unicode.str) :
  Exists (fun ch => classify ch = TOther) u ->
  In TOther (map token_of (Unicode.transform u)).
Proof.
  induction u as [| ch u IH]; intros H; [inversion H |].
  apply Exists_cons in H.
  cbn [Unicode.transform]. destruct (ch <? 127)%N eqn:Hlt.
  - apply N.ltb_lt in Hlt. cbn [map]. rewrite token_of_chr by lia.
    destruct H as [H | H]; [left; exact H | right; exact (IH H)].
  - apply N.ltb_ge in Hlt. rewrite (classify_high ch Hlt) in H.
    destruct (Unicode.isspace ch).
    + destruct H as [H | H]; [discriminate | right; exact (IH H)].
    + destruct (Unicode.to_decimal ch) as [d |].
      * destruct H as [H | H]; [discriminate | right; exact (IH H)].
      * left. reflexivity.
Qed.

Lemma ascii_tokens (u : Unicode.str) :
  Unicode.is_ascii u = true ->
  map token_of (map ascii_of_N u) = map classify u.
Proof.
  unfold Unicode.is_ascii. induction u as [| ch u IH]; intros H; [reflexivity |].
  cbn [forallb] in H. apply andb_true_iff in H as [Hch Hu].
  apply N.ltb_lt in Hch. cbn [map].
  rewrite token_of_chr by lia. f_equal. exact (IH Hu).
Qed.

Lemma other_in_tokens (u : Unicode.str) :
  Exists (fun ch => classify ch = TOther) u -> In TOther (map classify u).
Proof.
  induction u as [| ch u IH]; intros H; [inversion H |].
  apply Exists_cons in H as [H | H]; [left; exact H | right; exact (IH H)].
Qed.

Lemma to_ascii_tokens (u : Unicode.str) :
  Forall (fun ch => classify ch <> TOther) u ->
  map token_of (Unicode.to_ascii u) = map classify u.
Proof.
  intros H. unfold Unicode.to_ascii.
  destruct (Unicode.is_ascii u) eqn:Ha;
    [apply ascii_tokens; exact Ha | apply transform_tokens; exact H].
Qed.

Lemma to_ascii_other (u : Unicode.str) :
  Exists (fun ch => classify ch = TOther) u ->
  In TOther (map token_of (Unicode.to_ascii u)).
Proof.
  intros H. unfold Unicode.to_ascii.
  destruct (Unicode.is_ascii u) eqn:Ha.
  - rewrite (ascii_tokens u Ha). apply other_in_tokens. exact H.
  - apply transform_other. exact H.
Qed.

Lemma other_or_not (u : Unicode.str) :
  Forall (fun ch => classify ch <> TOther) u
  \/ Exists (fun ch => classify ch = TOther) u.
Proof.
  induction u as [| ch u [IH | IH]].
  - left. constructor.
  - destruct (is_other (classify ch)) eqn:E.
    + right. apply Exists_cons. left.
      destruct (classify ch); try discriminate. reflexivity.
    + left. constructor; [| exact IH].
      intros H. rewrite H in E. discriminate.
  - right. apply Exists_cons. right. exact IH.
Qed.

Lemma digit_tail_no_other (ts : list token) :
  digit_tail ts -> ~ In TOther ts.
Proof.
  induction 1 as [| d ts _ IH | d ts _ IH]; simpl; intros H.
  - exact H.
  - destruct H as [H | H]; [discriminate | exact (IH H)].
  - destruct H as [H | [H | H]]; [discriminate | discriminate | exact (IH H)].
Qed.

Lemma spaces_no_other (ts : list token) :
  Forall (fun t => t = TSpace) ts -> ~ In TOther ts.
Proof.
  induction 1 as [| t ts Ht _ IH]; simpl; intros H; [exact H |].
  destruct H as [H | H]; [rewrite Ht in H; discriminate | exact (IH H)].
Qed.

(** A literal holds no character outside the grammar's alphabet. *)
Lemma literal_no_other (ts : list token) (v : Z) :
  literal ts v -> ~ In TOther ts.
Proof.
  intros (ws1 & sign & sg & prefix & body & ws2
          & -> & Hws1 & Hsign & Hprefix & (d & ts' & -> & Htail) & Hws2 & _) H.
  apply in_app_or in H as [H | H]; [exact (spaces_no_other _ Hws1 H) |].
  apply in_app_or in H as [H | H].
  { destruct Hsign as [[-> _] | [[-> _] | [-> _]]]; simpl in H;
      intuition discriminate. }
  apply in_app_or in H as [H | H].
  { destruct Hprefix as [-> | [-> | ->]]; simpl in H; intuition discriminate. }
  apply in_app_or in H as [H | H]; [| exact (spaces_no_other _ Hws2 H)].
  destruct H as [H | H]; [discriminate | exact (digit_tail_no_other _ Htail H)].
Qed.

(** [int(s, 16)] on any string succeeds exactly on integer literals. *)
Lemma unicode_int_literal (u : Unicode.str) (v : Z) :
  Unicode.int u 16 = Ok v <-> literal (map classify u) v.
Proof.
  unfold Unicode.int. rewrite int_literal.
  destruct (other_or_not u) as [Hg | Hb].
  - rewrite (to_ascii_tokens u Hg). reflexivity.
  - split; intros H; exfalso; apply (literal_no_other _ _ H).
    + apply to_ascii_other. exact Hb.
    + apply other_in_tokens. exact Hb.
Qed.

Lemma unicode_int_raises (u : Unicode.str) (e : exn) :
  Unicode.int u 16 = Raise e -> e = ValueError.
Proof. unfold Unicode.int. apply int_raises. Qed.

(** On a string of 8-bit characters the two readings of [int] agree. *)
Lemma codes_int (s : Py.str) :
  Unicode.int (Unicode.codes s) 16 = Py.int s 16.
Proof.
  assert (Htok : map classify (Unicode.codes s) = map token_of s).
  { unfold Unicode.codes. rewrite map_map. reflexivity. }
  destruct (Py.int s 16) as [v | e] eqn:H.
  - apply unicode_int_literal. rewrite Htok. apply int_literal. exact H.
  - pose proof (int_raises _ _ _ H) as ->.
    destruct (Unicode.int (Unicode.codes s) 16) as [v | e] eqn:H2.
    + apply unicode_int_literal in H2. rewrite Htok in H2.
      apply int_literal in H2. congruence.
    + apply unicode_int_raises in H2 as ->. reflexivity.
Qed.

Lemma codes_hex_to_binary (s : Py.str) :
  Unicode.hex_to_binary (Unicode.codes s) = hex_to_binary s.
Proof.
  unfold Unicode.hex_to_binary, hex_to_binary.
  rewrite codes_int. unfold Unicode.codes. rewrite length_map. reflexivity.
Qed.

Lemma unicode_hex_to_binary_ok (u : Unicode.str) (bits : Py.str) :
  Unicode.hex_to_binary u = Ok bits
  <-> exists v : Z,
        literal (map classify u) v
        /\ bits = Py.zfill (drop 2 (Py.bin v)) (Z.of_nat (length u) * 4).
Proof.
  unfold Unicode.hex_to_binary.
  destruct (Unicode.int u 16) as [v | e] eqn:H.
  - rewrite bind_Ok. split.
    + intros Hb. exists v. split; [apply unicode_int_literal; exact H |].
      symmetry. exact (Ok_inj _ _ Hb).
    + intros (v' & Hl & ->). apply unicode_int_literal in Hl.
      rewrite H in Hl. rewrite (Ok_inj _ _ Hl). reflexivity.
  - rewrite bind_Raise. split; [discriminate |].
    intros (v' & Hl & _). apply unicode_int_literal in Hl. congruence.
Qed.

Lemma unicode_hex_to_binary_fails (u : Unicode.str) :
  (forall v : Z, ~ literal (map classify u) v) ->
  Unicode.hex_to_binary u = Raise ValueError.
Proof.
  intros Hno. unfold Unicode.hex_to_binary.
  destruct (Unicode.int u 16) as [v | e] eqn:H.
  - apply unicode_int_literal in H. destruct (Hno v H).
  - apply unicode_int_raises in H as ->. reflexivity.
Qed.

(** *** The bits of a literal that is not negative *)

Lemma classify_digit_range (ch : N) (d : Z) :
  classify ch = TDigit d -> 0 <= d < 16.
Proof.
  unfold classify.
  destruct (existsb _ _); [discriminate |].
  destruct (ch =? 43)%N; [discriminate |].
  destruct (ch =? 45)%N; [discriminate |].
  destruct (ch =? 95)%N; [discriminate |].
  destruct ((ch =? 120)%N || (ch =? 88)%N); [discriminate |].
  destruct ((48 <=? ch)%N && (ch <=? 57)%N) eqn:H1.
  { apply andb_true_iff in H1 as [Ha Hb].
    apply N.leb_le in Ha. apply N.leb_le in Hb.
    intros H. injection H as <-. lia. }
  destruct ((97 <=? ch)%N && (ch <=? 102)%N) eqn:H2.
  { apply andb_true_iff in H2 as [Ha Hb].
    apply N.leb_le in Ha. apply N.leb_le in Hb.
    intros H. injection H as <-. lia. }
  destruct ((65 <=? ch)%N && (ch <=? 70)%N) eqn:H3.
  { apply andb_true_iff in H3 as [Ha Hb].
    apply N.leb_le in Ha. apply N.leb_le in Hb.
    intros H. injection H as <-. lia. }
  destruct (Unicode.to_decimal ch) as [d0 |] eqn:Hd; [| discriminate].
  apply to_decimal_range in Hd. intros H. injection H as <-. lia.
Qed.

Lemma tokens_digit_range (u : Unicode.str) :
  Forall (fun t => forall d, t = TDigit d -> 0 <= d < 16) (map classify u).
Proof.
  induction u as [| ch u IH]; constructor; [| exact IH].
  intros d. apply classify_digit_range.
Qed.

Lemma token_value_bounds (ts : list token) :
  Forall (fun t => forall d, t = TDigit d -> 0 <= d < 16) ts ->
  forall acc : Z,
    0 <= acc ->
    0 <= foldl token_step acc ts < (acc + 1) * 16 ^ Z.of_nat (length ts).
Proof.
  induction 1 as [| t ts Ht _ IH]; intros acc Hacc.
  - simpl. lia.
  - cbn [foldl length]. rewrite Nat2Z.inj_succ, Z.pow_succ_r by lia.
    assert (Hp : 0 < 16 ^ Z.of_nat (length ts)) by (apply Z.pow_pos_nonneg; lia).
    destruct t as [| | | | | d |];
      try (cbn [token_step]; specialize (IH acc Hacc); nia).
    cbn [token_step]. specialize (Ht d eq_refl).
    specialize (IH (acc * 16 + d) ltac:(lia)). nia.
Qed.

Lemma bin_fixed_width (v : Z) (L : nat) :
  (1 <= L)%nat -> 0 <= v < 16 ^ Z.of_nat L ->
  Py.zfill (drop 2 (Py.bin v)) (Z.of_nat L * 4) = fixed_width 2 (4 * L) v.
Proof.
  intros HL Hv. unfold Py.bin. rewrite format_int_nonneg by lia.
  change (drop 2 (Py.lit "0b" ++ Py.digits 2 v)) with (Py.digits 2 v).
  replace (Z.of_nat L * 4) with (Z.of_nat (4 * L)) by lia.
  assert (Hp : 2 ^ Z.of_nat (4 * L) = 16 ^ Z.of_nat L).
  { rewrite Nat2Z.inj_mul, Z.pow_mul_r by lia. reflexivity. }
  apply (zfill_digits 2); lia.
Qed.

Lemma literal_bounds (u : Unicode.str) (v : Z) :
  literal (map classify u) v -> 0 <= v ->
  (1 <= length u)%nat /\ v < 16 ^ Z.of_nat (length u).
Proof.
  intros (ws1 & sign & sg & prefix & body & ws2
          & Hu & _ & Hsign & _ & (d & ts' & Hbody & _) & _ & ->) Hv.
  pose proof (tokens_digit_range u) as Hr. rewrite Hu in Hr.
  apply Forall_app in Hr as [_ Hr]. apply Forall_app in Hr as [_ Hr].
  apply Forall_app in Hr as [_ Hr]. apply Forall_app in Hr as [Hr _].
  pose proof (token_value_bounds body Hr 0 ltac:(lia)) as Hb.
  change (foldl token_step 0 body) with (token_value body) in Hb.
  assert (Hlen : (length body <= length u)%nat).
  { rewrite <- (length_map classify u), Hu, !length_app. lia. }
  assert (Hb1 : (1 <= length body)%nat) by (rewrite Hbody; simpl; lia).
  split; [lia |].
  assert (Hpow : 16 ^ Z.of_nat (length body) <= 16 ^ Z.of_nat (length u))
    by (apply Z.pow_le_mono_r; lia).
  destruct Hsign as [[_ ->] | [[_ ->] | [_ ->]]]; lia.
Qed.

Lemma unicode_hex_to_binary_bits (u : Unicode.str) (v : Z) :
  literal (map classify u) v -> 0 <= v ->
  Unicode.hex_to_binary u = Ok (fixed_width 2 (4 * length u) v).
Proof.
  intros Hl Hv. destruct (literal_bounds u v Hl Hv) as [HL Hlt].
  unfold Unicode.hex_to_binary.
  rewrite (proj2 (unicode_int_literal u v) Hl), bind_Ok.
  rewrite bin_fixed_width by lia. reflexivity.
Qed.

(** * The claims *)

Lemma hex_string_digits (s : Py.str) :
  Forall (fun c => is_hex_digit c = true) s -> Forall (digit_below 16) s.
Proof.
  intros H. eapply Forall_impl; [exact H |].
  intros c Hc. unfold is_hex_digit in Hc.
  apply Z.ltb_lt in Hc. exact Hc.
Qed.

Lemma map_lower_same (s : Py.str) :
  Forall (fun c => lower c = c) s -> map lower s = s.
Proof.
  induction 1 as [| c r Hc _ IH]; [reflexivity |].
  simpl. rewrite Hc, IH. reflexivity.
Qed.

(** C7, as stated, fails: [hex_to_binary] does not reject every string that
    holds a character which is no hex digit.  The string "0x1F" holds an
    "x" and decodes to sixteen bits. *)
Lemma hex_to_binary_accepts_prefix :
  In "x"%char (Py.lit "0x1F")
  /\ is_hex_digit "x" = false
  /\ hex_to_binary (Py.lit "0x1F") = Ok (Py.lit "0000000000011111")
  /\ hex_to_binary (Py.lit "0x1F") <> Raise ValueError.
Proof.
  split; [vm_compute; auto |]. split; [reflexivity |].
  split; [vm_compute; reflexivity | vm_compute; discriminate].
Qed.

(** C7 (amended).  [hex_to_binary] takes whatever [int(s, 16)] takes.  It
    succeeds exactly on the strings that are an integer literal: optional
    white space, an optional sign, an optional prefix "0x" or "0X" that one
    underscore may follow, digits in groups separated by single
    underscores, optional white space; a digit is an ASCII hex digit of
    either case or a decimal digit of any script.  The result is then
    [bin(value)[2:]] zero-filled to [4 * len(s)], which for a value that is
    not negative is the value written in exactly [4 * len(s)] bits.  On
    every other string it raises [ValueError]: on the empty string, on
    every string holding a character outside the alphabet of the literals,
    and on every string of such characters that is no literal.  On a
    string of 8-bit characters this is the [hex_to_binary] of the rest of
    this development; in particular a non-empty string of hex digits
    gives the four bits of every character in order, so leading zero bits
    are kept. *)
Theorem hex_to_binary_decodes (hex_str : Unicode.str) :
  (forall bits : Py.str,
      Unicode.hex_to_binary hex_str = Ok bits
      <-> exists v : Z,
            literal (map classify hex_str) v
            /\ bits = Py.zfill (drop 2 (Py.bin v))
                               (Z.of_nat (length hex_str) * 4))
  /\ (forall v : Z,
         literal (map classify hex_str) v -> 0 <= v ->
         Unicode.hex_to_binary hex_str
         = Ok (fixed_width 2 (4 * length hex_str) v)
         /\ length (fixed_width 2 (4 * length hex_str) v)
            = (4 * length hex_str)%nat)
  /\ ((forall v : Z, ~ literal (map classify hex_str) v) ->
      Unicode.hex_to_binary hex_str = Raise ValueError)
  /\ (forall ch : N,
         In ch hex_str -> classify ch = TOther ->
         Unicode.hex_to_binary hex_str = Raise ValueError)
  /\ (forall s : Py.str,
         hex_str = Unicode.codes s ->
         Unicode.hex_to_binary hex_str = hex_to_binary s
         /\ (s <> [] -> Forall (fun c => is_hex_digit c = true) s ->
             hex_to_binary s = Ok (concat (map nibble s))
             /\ length (concat (map nibble s)) = (4 * length s)%nat))
  /\ Unicode.hex_to_binary [] = Raise ValueError.
Proof.
  split; [intros bits; apply unicode_hex_to_binary_ok |].
  split.
  { intros v Hl Hv.
    split; [apply unicode_hex_to_binary_bits; assumption |].
    apply fixed_width_length. }
  split; [apply unicode_hex_to_binary_fails |].
  split.
  { intros ch Hin Hch. apply unicode_hex_to_binary_fails. intros v Hl.
    apply (literal_no_other _ _ Hl). rewrite <- Hch. apply in_map. exact Hin. }
  split; [| reflexivity].
  intros s ->. split; [apply codes_hex_to_binary |].
  intros Hne Hs. split; [| apply nibbles_length].
  apply hex_to_binary_hex; [exact Hne | apply hex_string_digits; exact Hs].
Qed.

Lemma hex_to_binary_decodes_witness :
  Unicode.hex_to_binary [0xff11; 70]%N = Ok (Py.lit "00011111")
  /\ Unicode.hex_to_binary (Unicode.codes (Py.lit "0aF"))
     = Ok (Py.lit "000010101111")
  /\ Unicode.hex_to_binary (Unicode.codes (Py.lit "f f")) = Raise ValueError
  /\ Unicode.hex_to_binary (Unicode.codes (Py.lit "0g")) = Raise ValueError.
Proof.
  split; [| split; [| split]].
  - destruct (hex_to_binary_decodes [0xff11; 70]%N) as (_ & H & _).
    apply (H 31); [| lia].
    exists [], [], 1, [], [TDigit 1; TDigit 15], [].
    split; [reflexivity |]. split; [constructor |].
    split; [left; split; reflexivity |]. split; [left; reflexivity |].
    split; [| split; [constructor | reflexivity]].
    exists 1, [TDigit 15]. split; [reflexivity | repeat constructor].
  - destruct (hex_to_binary_decodes (Unicode.codes (Py.lit "0aF")))
      as (_ & _ & _ & _ & H & _).
    destruct (H (Py.lit "0aF") eq_refl) as [Heq Hhex].
    rewrite Heq. apply Hhex; [discriminate | repeat constructor].
  - destruct (hex_to_binary_decodes (Unicode.codes (Py.lit "f f")))
      as (_ & _ & H & _).
    apply H. intros v Hl.
    change (map classify (Unicode.codes (Py.lit "f f")))
      with (map token_of (Py.lit "f f")) in Hl.
    apply int_literal_complete in Hl. discriminate Hl.
  - destruct (hex_to_binary_decodes (Unicode.codes (Py.lit "0g")))
      as (_ & _ & _ & H & _).
    apply (H 103%N); [simpl; auto | reflexivity].
Defined.

(** What the interpreter makes of some strings, for comparison: "0x1F"
    with an Arabic-Indic zero, full-width "1F", digits of two scripts
    around an underscore, white space of the general punctuation block;
    and, refused, a hex digit after the information separator U+001C, a
    superscript two, two underscores, a prefix without digits. *)
Example unicode_int_accepts :
  Unicode.int [0x660; 120; 49; 70]%N 16 = Ok 31
  /\ Unicode.int [0xff11; 70]%N 16 = Ok 31
  /\ Unicode.int [0x661; 95; 0x662]%N 16 = Ok 18
  /\ Unicode.int [0x2003; 102; 0x3000]%N 16 = Ok 15
  /\ Unicode.int [43; 0xff10; 120; 102]%N 16 = Ok 15
  /\ Unicode.int [45; 49; 48]%N 16 = Ok (-16).
Proof. repeat split; reflexivity. Qed.

Example unicode_int_refuses :
  Unicode.int [0x1c; 102]%N 16 = Raise ValueError
  /\ Unicode.int [102; 0xb2]%N 16 = Raise ValueError
  /\ Unicode.int [102; 95; 95; 102]%N 16 = Raise ValueError
  /\ Unicode.int [48; 120]%N 16 = Raise ValueError
  /\ Unicode.int [102; 32; 102]%N 16 = Raise ValueError
  /\ Unicode.int [43; 45]%N 16 = Raise ValueError
  /\ Unicode.int [49; 120]%N 16 = Raise ValueError
  /\ Unicode.int [0xd800; 102]%N 16 = Raise ValueError.
Proof. repeat split; reflexivity. Qed.

(** C8, as stated, fails: the letter case of the original is not kept.
    "F0" decodes to 11110000, which is written back as "f0". *)
Lemma round_trip_loses_case :
  hex_to_binary (Py.lit "F0") = Ok (Py.lit "11110000")
  /\ challenge_hex (Py.lit "11110000") = Ok (Py.lit "f0")
  /\ Py.lit "f0" <> Py.lit "F0".
Proof.
  split; [vm_compute; reflexivity |].
  split; [vm_compute; reflexivity | discriminate].
Qed.

(** C8 (amended): for a non-empty string [s] of hex digits, writing the
    decoded bits back in hexadecimal with width [len(s)] gives [s] with its
    letters in lower case, leading zeros included; it is [s] itself when [s]
    has no upper-case letter. *)
Theorem round_trip_lower (s : Py.str) :
  s <> [] -> Forall (fun c => is_hex_digit c = true) s ->
  exists bits,
    hex_to_binary s = Ok bits
    /\ challenge_hex bits = Ok (map lower s)
    /\ (Forall (fun c => lower c = c) s -> challenge_hex bits = Ok s).
Proof.
  intros Hne Hs. apply hex_string_digits in Hs.
  exists (concat (map nibble s)).
  split; [apply hex_to_binary_hex; assumption |].
  split; [apply challenge_hex_nibbles; assumption |].
  intros Hlow. rewrite challenge_hex_nibbles by assumption.
  rewrite (map_lower_same s Hlow). reflexivity.
Qed.

Lemma round_trip_lower_witness :
  exists bits,
    hex_to_binary (Py.lit "0a3f") = Ok bits
    /\ challenge_hex bits = Ok (map lower (Py.lit "0a3f"))
    /\ (Forall (fun c => lower c = c) (Py.lit "0a3f") ->
        challenge_hex bits = Ok (Py.lit "0a3f")).
Proof.
  apply (round_trip_lower (Py.lit "0a3f")).
  - discriminate.
  - repeat constructor.
Defined.

(** C3, as stated, fails: measurements of different decoded lengths raise
    nothing.  "F0" decodes to eight bits and "F" to four; the mask is the
    four-bit mask of the truncated measurements. *)
Lemma mismatched_lengths_accepted :
  map_result hex_to_binary [Py.lit "F0"; Py.lit "F"]
  = Ok [Py.lit "11110000"; Py.lit "1111"]
  /\ find_stable_bits [Py.lit "F0"; Py.lit "F"] = Ok (Py.lit "1111").
Proof. split; vm_compute; reflexivity. Qed.

(** C3 (amended): for two or more measurements that all decode, differing
    decoded lengths are no error: every decoded measurement is cut to the
    shortest decoded length [m], and the mask has length [m] and is the
    stability mask of the cut measurements. *)
Theorem find_stable_bits_truncates (hex_codes bins : list Py.str) :
  (2 <= length hex_codes)%nat ->
  map_result hex_to_binary hex_codes = Ok bins ->
  exists (m : nat) (mask : Py.str),
    In m (map (fun code => length code) bins)
    /\ Forall (fun b => (m <= length b)%nat) bins
    /\ find_stable_bits hex_codes = Ok mask
    /\ length mask = m
    /\ forall p, (p < m)%nat ->
         mask !! p
         = Some (if flipped (map (fun code => take m code) bins) p
                 then "0"%char else "1"%char).
Proof.
  intros Hlen Hbins.
  destruct (find_stable_bits_spec hex_codes bins Hlen Hbins)
    as (m & mask & Hmin & Hrun & Hmlen & Hspec).
  exists m, mask.
  destruct (py_min_spec (map (fun code => length code) bins))
    as (m' & Hmin' & Hin & Hle).
  { pose proof (map_result_length _ _ _ Hbins) as Hl.
    intros Hnil. apply (f_equal length) in Hnil.
    rewrite length_map in Hnil. simpl in Hnil. lia. }
  assert (m' = m) by congruence. subst m'.
  repeat split; try assumption.
  rewrite Forall_forall in Hle. rewrite Forall_forall. intros b Hb.
  apply Hle. apply list_elem_of_In, in_map_iff. exists b.
  split; [reflexivity | apply list_elem_of_In; exact Hb].
Qed.

Lemma find_stable_bits_truncates_witness :
  exists (m : nat) (mask : Py.str),
    In m (map (fun code => length code) [Py.lit "11110000"; Py.lit "1011"])
    /\ Forall (fun b => (m <= length b)%nat) [Py.lit "11110000"; Py.lit "1011"]
    /\ find_stable_bits [Py.lit "F0"; Py.lit "B"] = Ok mask
    /\ length mask = m
    /\ forall p, (p < m)%nat ->
         mask !! p
         = Some (if flipped (map (fun code => take m code)
                                 [Py.lit "11110000"; Py.lit "1011"]) p
                 then "0"%char else "1"%char).
Proof.
  apply (find_stable_bits_truncates [Py.lit "F0"; Py.lit "B"]).
  - simpl. lia.
  - vm_compute. reflexivity.
Defined.

(** C4: fewer than two measurements raise [ValueError]; for two or more
    measurements that decode to bit strings of one length [L], the mask has
    length [L], it has a 1 at position [p] exactly when every pair of
    neighbouring measurements agrees at [p], and a 0 exactly when some pair
    of neighbouring measurements differs at [p].  Only neighbours in the
    given order are compared. *)
Theorem find_stable_bits_consecutive (hex_codes : list Py.str) :
  ((length hex_codes < 2)%nat -> find_stable_bits hex_codes = Raise ValueError)
  /\ (forall (bins : list Py.str) (L : nat),
        (2 <= length hex_codes)%nat ->
        map_result hex_to_binary hex_codes = Ok bins ->
        Forall (fun b => length b = L) bins ->
        exists mask : Py.str,
          find_stable_bits hex_codes = Ok mask
          /\ length mask = L
          /\ forall p, (p < L)%nat ->
               (mask !! p = Some "1"%char
                <-> forall i a b, bins !! i = Some a ->
                                  bins !! (i + 1)%nat = Some b ->
                                  a !! p = b !! p)
               /\ (mask !! p = Some "0"%char
                   <-> exists i a b, bins !! i = Some a
                                     /\ bins !! (i + 1)%nat = Some b
                                     /\ a !! p <> b !! p)).
Proof.
  split; [apply find_stable_bits_too_few |].
  intros bins L Hlen Hbins Hall.
  destruct (find_stable_bits_spec hex_codes bins Hlen Hbins)
    as (m & mask & Hmin & Hrun & Hmlen & Hspec).
  pose proof (map_result_length _ _ _ Hbins) as Hbl.
  assert (m = L).
  { rewrite (py_min_same L) in Hmin.
    - congruence.
    - intros Hnil. apply (f_equal length) in Hnil.
      rewrite length_map in Hnil. simpl in Hnil. lia.
    - rewrite Forall_forall in Hall. rewrite Forall_forall. intros y Hy.
      apply list_elem_of_In, in_map_iff in Hy as (b & <- & Hb).
      apply Hall. apply list_elem_of_In. exact Hb. }
  subst L.
  exists mask. split; [exact Hrun |]. split; [exact Hmlen |].
  intros p Hp. rewrite (Hspec p Hp), (map_take_same m bins Hall).
  assert (Hcell : forall i a, bins !! i = Some a -> exists x, a !! p = Some x).
  { intros i a Ha. apply lookup_lt_is_Some_2.
    rewrite Forall_forall in Hall. rewrite (Hall a); [exact Hp |].
    eapply list_elem_of_lookup_2. exact Ha. }
  destruct (flipped bins p) eqn:Hf.
  - apply flipped_true in Hf as (i & a & b & x & y & Ha & Hb & Hx & Hy & Hxy).
    split; split.
    + discriminate.
    + intros Hsame. specialize (Hsame i a b Ha Hb). congruence.
    + intros _. exists i, a, b. repeat split; try assumption. congruence.
    + reflexivity.
  - split; split.
    + intros _ i a b Ha Hb.
      destruct (Hcell i a Ha) as [x Hx]. destruct (Hcell _ b Hb) as [y Hy].
      rewrite Hx, Hy. f_equal.
      destruct (ascii_dec x y) as [Heq | Hne]; [exact Heq |].
      assert (flipped bins p = true)
        by (apply flipped_true; exists i, a, b, x, y; auto).
      congruence.
    + reflexivity.
    + discriminate.
    + intros (i & a & b & Ha & Hb & Hne).
      destruct (Hcell i a Ha) as [x Hx]. destruct (Hcell _ b Hb) as [y Hy].
      assert (flipped bins p = true).
      { apply flipped_true. exists i, a, b, x, y. repeat split; try assumption.
        congruence. }
      congruence.
Qed.

Lemma find_stable_bits_consecutive_witness :
  find_stable_bits [Py.lit "F0"] = Raise ValueError
  /\ exists mask : Py.str,
       find_stable_bits [Py.lit "F0"; Py.lit "F0"; Py.lit "D0"] = Ok mask
       /\ length mask = 8%nat
       /\ forall p, (p < 8)%nat ->
            (mask !! p = Some "1"%char
             <-> forall i a b,
                   [Py.lit "11110000"; Py.lit "11110000"; Py.lit "11010000"] !! i
                   = Some a ->
                   [Py.lit "11110000"; Py.lit "11110000"; Py.lit "11010000"]
                     !! (i + 1)%nat = Some b ->
                   a !! p = b !! p)
            /\ (mask !! p = Some "0"%char
                <-> exists i a b,
                      [Py.lit "11110000"; Py.lit "11110000"; Py.lit "11010000"] !! i
                      = Some a
                      /\ [Py.lit "11110000"; Py.lit "11110000"; Py.lit "11010000"]
                           !! (i + 1)%nat = Some b
                      /\ a !! p <> b !! p).
Proof.
  split.
  - apply (proj1 (find_stable_bits_consecutive [Py.lit "F0"])). simpl. lia.
  - apply (proj2 (find_stable_bits_consecutive
                    [Py.lit "F0"; Py.lit "F0"; Py.lit "D0"])).
    + simpl. lia.
    + vm_compute. reflexivity.
    + repeat constructor.
Defined.

Lemma ones_in_range (c r : Py.str) :
  (length c <= length r)%nat ->
  forall i, c !! i = Some "1"%char -> (i < length r)%nat.
Proof.
  intros Hlen i Hi. apply lookup_lt_Some in Hi. lia.
Qed.

(** C1, as stated, fails: a trailing group of fewer than eight bits is not
    dropped.  Nine selected bits give two bytes, the second one holding the
    ninth bit, where [floor(9/8)] is one. *)
Lemma trailing_group_is_emitted :
  popcount (Py.lit "111111111") = 9%nat
  /\ extract_bits_from_sram_to_bytearray (Py.lit "111111111") (Py.lit "101100001")
     = Ok [xb0; x01]
  /\ length [xb0; x01] <> (9 / 8)%nat.
Proof.
  split; [reflexivity |]. split; [vm_compute; reflexivity | vm_compute; lia].
Qed.

(** C1 (amended): for a challenge and a reference bit string of equal
    length the extractor returns [ceil(popcount(challenge)/8)] bytes: the
    reference bits at the positions where the challenge is 1, taken in index
    order, are cut into consecutive groups of eight and every group is
    packed most significant bit first; a trailing group of fewer than eight
    bits is kept and gives one more byte, whose value is that group read as
    a binary number. *)
Theorem extract_packs_selected_bits (binary_challenge ram_buffer_binary : Py.str) :
  length binary_challenge = length ram_buffer_binary ->
  Forall (fun c => is_bit c = true) ram_buffer_binary ->
  exists out : bytes,
    extract_bits_from_sram_to_bytearray binary_challenge ram_buffer_binary = Ok out
    /\ out = map pack (chunks 8 (selected binary_challenge ram_buffer_binary))
    /\ length (selected binary_challenge ram_buffer_binary)
       = popcount binary_challenge
    /\ length out = ((popcount binary_challenge + 7) / 8)%nat.
Proof.
  intros Hlen Hbits.
  assert (Hr : Forall (digit_below 2) ram_buffer_binary).
  { eapply Forall_impl; [exact Hbits |]. intros c Hc.
    unfold is_bit in Hc. apply Z.ltb_lt in Hc. exact Hc. }
  eexists. split; [apply extract_ok; [apply ones_in_range; lia | exact Hr] |].
  split; [reflexivity |].
  pose proof (selected_length binary_challenge ram_buffer_binary ltac:(lia)) as Hs.
  split; [exact Hs |].
  rewrite length_map, chunks_length, Hs. reflexivity.
Qed.

Lemma extract_packs_selected_bits_witness :
  exists out : bytes,
    extract_bits_from_sram_to_bytearray (Py.lit "1101") (Py.lit "1111") = Ok out
    /\ out = map pack (chunks 8 (selected (Py.lit "1101") (Py.lit "1111")))
    /\ length (selected (Py.lit "1101") (Py.lit "1111"))
       = popcount (Py.lit "1101")
    /\ length out = ((popcount (Py.lit "1101") + 7) / 8)%nat.
Proof.
  apply (extract_packs_selected_bits (Py.lit "1101") (Py.lit "1111")).
  - reflexivity.
  - repeat constructor.
Defined.

(** C6, as stated, fails: the extractor has no length check.  A one-bit
    challenge against a two-bit reference is accepted. *)
Lemma shorter_challenge_accepted :
  length (Py.lit "1") <> length (Py.lit "10")
  /\ extract_bits_from_sram_to_bytearray (Py.lit "1") (Py.lit "10") = Ok [x01].
Proof. split; [vm_compute; lia | vm_compute; reflexivity]. Qed.

(** C6 (amended): the extractor compares no lengths.  Against a reference
    bit string it succeeds whenever every 1 of the challenge lies at an
    index inside the reference, so in particular whenever the challenge is
    not longer than the reference; it raises [IndexError], before any byte
    is produced, exactly when the challenge has a 1 at an index at or
    beyond the end of the reference. *)
Theorem extract_needs_ones_in_range (binary_challenge ram_buffer_binary : Py.str) :
  Forall (fun c => is_bit c = true) ram_buffer_binary ->
  ((forall i, binary_challenge !! i = Some "1"%char ->
              (i < length ram_buffer_binary)%nat) ->
   extract_bits_from_sram_to_bytearray binary_challenge ram_buffer_binary
   = Ok (map pack (chunks 8 (selected binary_challenge ram_buffer_binary))))
  /\ ((length binary_challenge <= length ram_buffer_binary)%nat ->
      extract_bits_from_sram_to_bytearray binary_challenge ram_buffer_binary
      = Ok (map pack (chunks 8 (selected binary_challenge ram_buffer_binary))))
  /\ ((exists i, binary_challenge !! i = Some "1"%char
                 /\ (length ram_buffer_binary <= i)%nat) ->
      extract_bits_from_sram_to_bytearray binary_challenge ram_buffer_binary
      = Raise IndexError).
Proof.
  intros Hbits.
  assert (Hr : Forall (digit_below 2) ram_buffer_binary).
  { eapply Forall_impl; [exact Hbits |]. intros c Hc.
    unfold is_bit in Hc. apply Z.ltb_lt in Hc. exact Hc. }
  split; [| split].
  - intros Hones. apply extract_ok; assumption.
  - intros Hlen. apply extract_ok; [apply ones_in_range; exact Hlen | exact Hr].
  - apply extract_fail.
Qed.

Lemma extract_needs_ones_in_range_witness :
  extract_bits_from_sram_to_bytearray (Py.lit "10100") (Py.lit "011")
  = Ok (map pack (chunks 8 (selected (Py.lit "10100") (Py.lit "011"))))
  /\ extract_bits_from_sram_to_bytearray (Py.lit "101") (Py.lit "0110")
     = Ok (map pack (chunks 8 (selected (Py.lit "101") (Py.lit "0110"))))
  /\ extract_bits_from_sram_to_bytearray (Py.lit "1001") (Py.lit "011")
     = Raise IndexError.
Proof.
  split; [| split].
  - apply (proj1 (extract_needs_ones_in_range (Py.lit "10100") (Py.lit "011")
                    ltac:(repeat constructor))).
    intros [| [| [| [| [| i]]]]] Hi; simpl; try lia; discriminate Hi.
  - apply (proj1 (proj2 (extract_needs_ones_in_range (Py.lit "101") (Py.lit "0110")
                           ltac:(repeat constructor)))).
    simpl. lia.
  - apply (proj2 (proj2 (extract_needs_ones_in_range (Py.lit "1001") (Py.lit "011")
                           ltac:(repeat constructor)))).
    exists 3%nat. split; [reflexivity | simpl; lia].
Defined.

Lemma no_ones_lookup (c : Py.str) :
  popcount c = 0%nat -> forall i, c !! i <> Some "1"%char.
Proof.
  induction c as [| x c IH]; intros Hp i Hi; [discriminate |].
  unfold popcount in Hp. simpl in Hp.
  destruct (Py.chr_eqb x "1") eqn:Hx; [discriminate |].
  destruct i as [| i]; simpl in Hi.
  - injection Hi as ->. discriminate.
  - exact (IH Hp i Hi).
Qed.

Lemma extract_no_ones (c r : Py.str) :
  popcount c = 0%nat -> extract_bits_from_sram_to_bytearray c r = Ok [].
Proof.
  intros Hp. unfold extract_bits_from_sram_to_bytearray.
  rewrite (select_loop_ok c r (length c) 0 []).
  - rewrite bind_Ok.
    change (drop 0 c) with c. change (drop 0 r) with r.
    rewrite (selected_no_ones c r Hp). reflexivity.
  - reflexivity.
  - intros i _ Hi. exfalso. exact (no_ones_lookup c Hp i Hi).
Qed.

(** C10, as stated, fails for the empty challenge: with challenge size 0
    the challenge is empty, the extractor returns no bytes, and the run
    then stops with [ValueError] when the empty challenge is written back
    in hexadecimal. *)
Lemma empty_challenge_aborts :
  find_stable_bits (read_hex_codes [Py.lit "F0"; Py.lit "F0"])
  = Ok (Py.lit "11111111")
  /\ Py.slice_to (Py.lit "11111111") 0 = []
  /\ extract_bits_from_sram_to_bytearray [] (Py.lit "11110000") = Ok []
  /\ main [Py.lit "F0"; Py.lit "F0"] 0 = Raise ValueError.
Proof.
  split; [vm_compute; reflexivity |]. split; [reflexivity |].
  split; [reflexivity |].
  rewrite (main_run [Py.lit "F0"; Py.lit "F0"] 0
             (Py.lit "11111111") (Py.lit "11110000") []).
  - reflexivity.
  - vm_compute. lia.
  - vm_compute. reflexivity.
  - discriminate.
  - vm_compute. reflexivity.
  - reflexivity.
Qed.

(** C10 (amended): for every challenge without a 1 bit, the empty one
    included, the extractor returns the empty byte string, and the key
    derivation accepts the empty material and gives a 32-byte token; a run
    whose challenge has no 1 bit and is not empty completes and prints the
    challenge and that token. *)
Theorem no_ones_run :
  (forall c r : Py.str,
      popcount c = 0%nat ->
      extract_bits_from_sram_to_bytearray c r = Ok []
      /\ pbkdf2_hash [] = Ok (derived [])
      /\ length (derived []) = 32%nat)
  /\ (forall (f : file) (n : Z) (mask ram : Py.str),
        (2 <= length (read_hex_codes f))%nat ->
        find_stable_bits (read_hex_codes f) = Ok mask ->
        hex_to_binary (get_first_measurement f) = Ok ram ->
        popcount (Py.slice_to mask n) = 0%nat ->
        Py.slice_to mask n <> [] ->
        exists hex : Py.str,
          main f n
          = Ok (Exit0 (Report (Py.count "1" mask <? n) (Py.slice_to mask n)
                              [] hex (derived [])))).
Proof.
  split.
  - intros c r Hp. split; [apply extract_no_ones; exact Hp |].
    split; [apply pbkdf2_hash_ok | apply derived_length].
  - intros f n mask ram Hlen Hmask Hram Hp Hne.
    assert (Hmne : mask <> []).
    { intros ->. apply Hne. unfold Py.slice_to.
      destruct (n <? 0); apply take_nil. }
    rewrite (main_run f n mask ram [] Hlen Hmask Hmne Hram
               (extract_no_ones _ _ Hp)).
    rewrite challenge_hex_ok.
    + rewrite bind_Ok. eexists. reflexivity.
    + exact Hne.
    + apply slice_to_bits. eapply find_stable_bits_bits. exact Hmask.
Qed.

Lemma no_ones_run_witness :
  (extract_bits_from_sram_to_bytearray (Py.lit "000") (Py.lit "1") = Ok []
   /\ pbkdf2_hash [] = Ok (derived [])
   /\ length (derived []) = 32%nat)
  /\ exists hex : Py.str,
       main [Py.lit "F0"; Py.lit "0F"] 4
       = Ok (Exit0 (Report (Py.count "1" (Py.lit "00000000") <? 4)
                           (Py.slice_to (Py.lit "00000000") 4)
                           [] hex (derived []))).
Proof.
  split.
  - apply (proj1 no_ones_run (Py.lit "000") (Py.lit "1")). reflexivity.
  - apply (proj2 no_ones_run [Py.lit "F0"; Py.lit "0F"] 4
             (Py.lit "00000000") (Py.lit "11110000")).
    + vm_compute. lia.
    + vm_compute. reflexivity.
    + vm_compute. reflexivity.
    + reflexivity.
    + discriminate.
Defined.

(** C2, on the input of the end-to-end scenario: the measurements F0, F0,
    D0 give the mask 11011111 and, with challenge size 4, the challenge
    1101, the first four bits of the mask.  It selects the three stable
    positions 0, 1, 3, whereas the first four stable positions of the mask
    are 0, 1, 3, 4. *)
Theorem challenge_is_mask_prefix :
  find_stable_bits (read_hex_codes [Py.lit "F0"; Py.lit "F0"; Py.lit "D0"])
  = Ok (Py.lit "11011111")
  /\ (exists rep : report,
        main [Py.lit "F0"; Py.lit "F0"; Py.lit "D0"] 4 = Ok (Exit0 rep)
        /\ binary_challenge rep = Py.lit "1101"
        /\ puf_challenge rep = Py.lit "d"
        /\ stable_positions (binary_challenge rep) = [0; 1; 3]%nat)
  /\ take 4 (stable_positions (Py.lit "11011111")) = [0; 1; 3; 4]%nat.
Proof.
  split; [vm_compute; reflexivity |]. split; [| reflexivity].
  rewrite (main_run [Py.lit "F0"; Py.lit "F0"; Py.lit "D0"] 4
             (Py.lit "11011111") (Py.lit "11110000") [x07]).
  - replace (challenge_hex (Py.slice_to (Py.lit "11011111") 4))
      with (Ok (Py.lit "d")) by (vm_compute; reflexivity).
    rewrite bind_Ok. eexists. split; [reflexivity |].
    repeat split; reflexivity.
  - vm_compute. lia.
  - vm_compute. reflexivity.
  - discriminate.
  - vm_compute. reflexivity.
  - vm_compute. reflexivity.
Qed.

(** C9, on the measurements 00, F0 with challenge size 5: the mask is
    00001111 with four stable bits, fewer than requested; the run warns
    and completes, but its challenge is 00001, the first five bits of the
    mask, which holds one of the four stable positions 4, 5, 6, 7. *)
Theorem short_of_stable_bits_run :
  find_stable_bits (read_hex_codes [Py.lit "00"; Py.lit "F0"])
  = Ok (Py.lit "00001111")
  /\ Py.count "1" (Py.lit "00001111") = 4
  /\ (exists rep : report,
        main [Py.lit "00"; Py.lit "F0"] 5 = Ok (Exit0 rep)
        /\ warned rep = true
        /\ binary_challenge rep = Py.lit "00001"
        /\ puf_challenge rep = Py.lit "1"
        /\ length (api_token rep) = 32%nat
        /\ stable_positions (binary_challenge rep) = [4]%nat)
  /\ stable_positions (Py.lit "00001111") = [4; 5; 6; 7]%nat.
Proof.
  split; [vm_compute; reflexivity |]. split; [reflexivity |].
  split; [| reflexivity].
  rewrite (main_run [Py.lit "00"; Py.lit "F0"] 5
             (Py.lit "00001111") (Py.lit "00000000") [x00]).
  - replace (challenge_hex (Py.slice_to (Py.lit "00001111") 5))
      with (Ok (Py.lit "1")) by (vm_compute; reflexivity).
    rewrite bind_Ok. eexists. split; [reflexivity |].
    split; [reflexivity |]. split; [reflexivity |]. split; [reflexivity |].
    split; [apply derived_length | reflexivity].
  - vm_compute. lia.
  - vm_compute. reflexivity.
  - discriminate.
  - vm_compute. reflexivity.
  - vm_compute. reflexivity.
Qed.

(** ** Runs on well-formed measurement files *)

Lemma nibbles_bits (s : Py.str) :
  Forall (digit_below 16) s -> Forall (digit_below 2) (concat (map nibble s)).
Proof.
  intros Hs. rewrite <- fixed_width_nibbles by exact Hs.
  apply (fixed_width_digit_below 2); lia.
Qed.

Lemma read_hex_codes_nonempty (f : file) :
  Forall (fun code => code <> []) (read_hex_codes f).
Proof.
  unfold read_hex_codes. rewrite Forall_forall. intros code Hc.
  apply list_elem_of_In, filter_In in Hc as [_ Hc].
  destruct code; [discriminate | discriminate].
Qed.

Lemma read_hex_codes_first (line : Py.str) (rest : file) :
  nonempty (Py.strip line) = true ->
  read_hex_codes (line :: rest) = Py.strip line :: read_hex_codes rest.
Proof.
  intros H. unfold read_hex_codes. simpl map. simpl List.filter.
  rewrite H. reflexivity.
Qed.

Lemma slice_to_nonempty (mask : Py.str) (n : Z) :
  mask <> [] -> 1 <= n -> Py.slice_to mask n <> [].
Proof.
  intros Hm Hn. unfold Py.slice_to.
  replace (n <? 0) with false by (symmetry; apply Z.ltb_ge; lia).
  destruct mask as [| c r]; [congruence |].
  destruct (Z.to_nat n) as [| k] eqn:Hk; [lia | discriminate].
Qed.

(** A run on a file whose first line is a measurement and whose
    measurements are non-empty strings of hex digits: the mask is computed,
    and for every challenge size of at least 1 the run completes and prints
    a challenge/token pair, with the warning exactly when the mask has
    fewer stable bits than requested. *)
Theorem main_completes (line : Py.str) (rest : file) (n : Z) :
  nonempty (Py.strip line) = true ->
  Forall (fun code => Forall (fun c => is_hex_digit c = true) code)
         (read_hex_codes (line :: rest)) ->
  (2 <= length (read_hex_codes (line :: rest)))%nat ->
  1 <= n ->
  exists (mask : Py.str) (rep : report),
    find_stable_bits (read_hex_codes (line :: rest)) = Ok mask
    /\ main (line :: rest) n = Ok (Exit0 rep)
    /\ warned rep = (Py.count "1" mask <? n)
    /\ binary_challenge rep = Py.slice_to mask n
    /\ pbkdf2_hash (extracted_bytearray rep) = Ok (api_token rep)
    /\ length (api_token rep) = 32%nat.
Proof.
  intros Hfirst Hvalid Hlen Hn.
  set (f := line :: rest) in *.
  set (codes := read_hex_codes f) in *.
  pose proof (read_hex_codes_nonempty f) as Hne. fold codes in Hne.
  assert (Hdec : forall code, In code codes ->
                   hex_to_binary code = Ok (concat (map nibble code))).
  { intros code Hc. apply list_elem_of_In in Hc.
    rewrite Forall_forall in Hne. rewrite Forall_forall in Hvalid.
    apply hex_to_binary_hex; [apply Hne; exact Hc |].
    apply hex_string_digits, Hvalid. exact Hc. }
  pose proof (map_result_ok _ _ codes Hdec) as Hbins.
  destruct (find_stable_bits_spec codes _ Hlen Hbins)
    as (m & mask & Hmin & Hrun & Hmlen & _).
  destruct (py_min_spec
              (map (fun code => length code)
                   (map (fun code => concat (map nibble code)) codes)))
    as (m' & Hmin' & Hin & Hle).
  { intros Hnil. apply (f_equal length) in Hnil.
    rewrite !length_map in Hnil. simpl in Hnil. lia. }
  assert (m' = m) by congruence. subst m'.
  (* the shortest measurement has at least four bits *)
  assert (Hm4 : (4 <= m)%nat).
  { apply in_map_iff in Hin as (b & <- & Hb).
    apply in_map_iff in Hb as (code & <- & Hcode).
    rewrite nibbles_length.
    rewrite Forall_forall in Hne.
    specialize (Hne code (proj2 (list_elem_of_In _ _) Hcode)).
    destruct code; [congruence | simpl; lia]. }
  assert (Hcodes : codes = Py.strip line :: read_hex_codes rest)
    by (apply read_hex_codes_first; exact Hfirst).
  assert (Hline : Forall (digit_below 16) (Py.strip line)).
  { apply hex_string_digits. rewrite Hcodes in Hvalid.
    inversion Hvalid; assumption. }
  assert (Hram : hex_to_binary (get_first_measurement f)
                 = Ok (concat (map nibble (Py.strip line)))).
  { apply Hdec. rewrite Hcodes. left. reflexivity. }
  assert (Hmram : (m <= length (concat (map nibble (Py.strip line))))%nat).
  { rewrite Forall_forall in Hle. apply Hle.
    apply list_elem_of_In, in_map_iff.
    exists (concat (map nibble (Py.strip line))). split; [reflexivity |].
    apply in_map_iff. exists (Py.strip line). split; [reflexivity |].
    rewrite Hcodes. left. reflexivity. }
  assert (Hmask_ne : mask <> []).
  { intros ->. simpl in Hmlen. lia. }
  pose proof (find_stable_bits_bits codes mask Hrun) as Hmbits.
  pose proof (slice_to_length mask n) as Hslen.
  assert (Hex : extract_bits_from_sram_to_bytearray (Py.slice_to mask n)
                  (concat (map nibble (Py.strip line)))
                = Ok (map pack (chunks 8
                        (selected (Py.slice_to mask n)
                                  (concat (map nibble (Py.strip line))))))).
  { apply extract_ok; [apply ones_in_range; lia | apply nibbles_bits; exact Hline]. }
  exists mask. eexists.
  split; [exact Hrun |].
  rewrite (main_run f n mask _ _ Hlen Hrun Hmask_ne Hram Hex).
  rewrite challenge_hex_ok
    by (apply slice_to_nonempty || apply slice_to_bits; assumption).
  rewrite bind_Ok.
  split; [reflexivity |]. split; [reflexivity |]. split; [reflexivity |].
  split; [apply pbkdf2_hash_ok | apply derived_length].
Qed.

(** What every completed run printed: the challenge is the slice
    [stable_bits[:challenge_size]] of the mask, and the token is the key
    derived from the extracted bytes. *)
Theorem main_report (f : file) (n : Z) (rep : report) :
  main f n = Ok (Exit0 rep) ->
  exists mask : Py.str,
    find_stable_bits (read_hex_codes f) = Ok mask
    /\ warned rep = (Py.count "1" mask <? n)
    /\ binary_challenge rep = Py.slice_to mask n
    /\ challenge_hex (binary_challenge rep) = Ok (puf_challenge rep)
    /\ pbkdf2_hash (extracted_bytearray rep) = Ok (api_token rep)
    /\ length (api_token rep) = 32%nat.
Proof.
  unfold main. intros H.
  destruct (length (read_hex_codes f) <? 2)%nat; [discriminate |].
  destruct (find_stable_bits (read_hex_codes f)) as [mask | e];
    [| discriminate].
  rewrite bind_Ok in H.
  destruct (Z.of_nat (length mask) =? 0); [discriminate |].
  rewrite bind_Ok in H.
  destruct (hex_to_binary (get_first_measurement f)) as [ram | e];
    [| discriminate].
  rewrite bind_Ok in H.
  destruct (extract_bits_from_sram_to_bytearray (Py.slice_to mask n) ram)
    as [ex | e]; [| discriminate].
  rewrite bind_Ok, pbkdf2_hash_ok, bind_Ok in H.
  destruct (challenge_hex (Py.slice_to mask n)) as [hex | e] eqn:Hhex;
    [| discriminate].
  rewrite bind_Ok in H. injection H as <-.
  exists mask. cbn [warned binary_challenge extracted_bytearray puf_challenge
                    api_token].
  split; [reflexivity |]. split; [reflexivity |]. split; [reflexivity |].
  split; [exact Hhex |]. split; [apply pbkdf2_hash_ok | apply derived_length].
Qed.

(** A blank first line is skipped by [read_hex_codes] but not by
    [get_first_measurement]: the run stops with [ValueError]. *)
Example leading_blank_line_aborts :
  read_hex_codes [Py.lit ""; Py.lit "F0"; Py.lit "D0"]
  = [Py.lit "F0"; Py.lit "D0"]
  /\ main [Py.lit ""; Py.lit "F0"; Py.lit "D0"] 128 = Raise ValueError.
Proof. split; vm_compute; reflexivity. Qed.

(** Every step of a completed run, read back from its report. *)
Lemma main_inv (f : file) (n : Z) (rep : report) :
  main f n = Ok (Exit0 rep) ->
  exists mask ram : Py.str,
    (2 <= length (read_hex_codes f))%nat
    /\ find_stable_bits (read_hex_codes f) = Ok mask
    /\ mask <> []
    /\ hex_to_binary (get_first_measurement f) = Ok ram
    /\ warned rep = (Py.count "1" mask <? n)
    /\ binary_challenge rep = Py.slice_to mask n
    /\ extract_bits_from_sram_to_bytearray (binary_challenge rep) ram
       = Ok (extracted_bytearray rep)
    /\ challenge_hex (binary_challenge rep) = Ok (puf_challenge rep)
    /\ pbkdf2_hash (extracted_bytearray rep) = Ok (api_token rep)
    /\ length (api_token rep) = 32%nat.
Proof.
  unfold main. intros H.
  destruct (length (read_hex_codes f) <? 2)%nat eqn:Hlen; [discriminate |].
  apply Nat.ltb_ge in Hlen.
  destruct (find_stable_bits (read_hex_codes f)) as [mask | e];
    [| discriminate].
  rewrite bind_Ok in H.
  destruct (Z.of_nat (length mask) =? 0) eqn:Hz; [discriminate |].
  rewrite bind_Ok in H.
  destruct (hex_to_binary (get_first_measurement f)) as [ram | e];
    [| discriminate].
  rewrite bind_Ok in H.
  destruct (extract_bits_from_sram_to_bytearray (Py.slice_to mask n) ram)
    as [ex | e] eqn:Hex; [| discriminate].
  rewrite bind_Ok, pbkdf2_hash_ok, bind_Ok in H.
  destruct (challenge_hex (Py.slice_to mask n)) as [hex | e] eqn:Hhex;
    [| discriminate].
  rewrite bind_Ok in H. injection H as <-.
  exists mask, ram.
  cbn [warned binary_challenge extracted_bytearray puf_challenge api_token].
  split; [exact Hlen |]. split; [reflexivity |].
  split; [intros ->; discriminate Hz |].
  split; [reflexivity |]. split; [reflexivity |]. split; [reflexivity |].
  split; [exact Hex |]. split; [exact Hhex |].
  split; [apply pbkdf2_hash_ok | apply derived_length].
Qed.

(** The run of the end-to-end scenario, with the token left as the derived
    key of the one extracted byte. *)
Lemma scenario_run :
  main [Py.lit "F0"; Py.lit "F0"; Py.lit "D0"] 4
  = Ok (Exit0 (Report false (Py.lit "1101") [x07] (Py.lit "d") (derived [x07]))).
Proof.
  rewrite (main_run [Py.lit "F0"; Py.lit "F0"; Py.lit "D0"] 4
             (Py.lit "11011111") (Py.lit "11110000") [x07]).
  - replace (challenge_hex (Py.slice_to (Py.lit "11011111") 4))
      with (Ok (Py.lit "d")) by (vm_compute; reflexivity).
    rewrite bind_Ok. reflexivity.
  - vm_compute. lia.
  - vm_compute. reflexivity.
  - discriminate.
  - vm_compute. reflexivity.
  - vm_compute. reflexivity.
Qed.

(** ** Published test vectors for the key-derivation model *)

Example sha256_abc :
  bytes_hex (SHA256.digest (bytes_lit "abc"))
  = Py.lit "ba7816bf8f01cfea414140de5dae2223b00361a396177a9cb410ff61f20015ad".
Proof. vm_compute. reflexivity. Qed.

Example sha256_two_blocks :
  bytes_hex (SHA256.digest
               (bytes_lit "abcdbcdecdefdefgefghfghighijhijkijkljklmklmnlmnomnopnopq"))
  = Py.lit "248d6a61d20638b8e5c026930c3e6039a33ce45964ff2167f6ecedd419db06c1".
Proof. vm_compute. reflexivity. Qed.

Example hmac_sha256_fox :
  bytes_hex (hmac_sha256 (bytes_lit "key")
               (bytes_lit "The quick brown fox jumps over the lazy dog"))
  = Py.lit "f7bc83f430538424b13298e6aa6fb143ef4d59a14946175997479dbc2d1a3cd8".
Proof. vm_compute. reflexivity. Qed.

Example pbkdf2_two_iterations :
  pbkdf2_hmac_sha256 (bytes_lit "password") (bytes_lit "salt") 2 32
  = Ok (map byte_of_Z
          [0xae; 0x4d; 0x0c; 0x95; 0xaf; 0x6b; 0x46; 0xd3;
           0x2d; 0x0a; 0xdf; 0xf9; 0x28; 0xf0; 0x6d; 0xd0;
           0x2a; 0x30; 0x3f; 0x8e; 0xf3; 0xc2; 0x51; 0xdf;
           0xd6; 0xe2; 0xd8; 0x5a; 0x95; 0x47; 0x4c; 0x43]).
Proof. vm_compute. reflexivity. Qed.

(** ** The derived key *)

Lemma pbkdf2_iter_chain (P seed : bytes) (n : nat) :
  let U := prf_chain hmac_sha256 P seed in
  Nat.iter n (pbkdf2_step P) (U 1%nat, U 1%nat)
  = (U (S n), foldl xor_bytes (U 1%nat) (map U (seq 2 n))).
Proof.
  intros U. induction n as [| n IH]; [reflexivity |].
  rewrite Nat.iter_succ, IH. unfold pbkdf2_step. cbn [fst snd].
  rewrite seq_S, map_app, foldl_app. reflexivity.
Qed.

Lemma pbkdf2_block_rfc (password salt : bytes) (c i : nat) :
  (1 <= c)%nat ->
  pbkdf2_block password salt c i = rfc8018_T hmac_sha256 password salt c i.
Proof.
  intros Hc. unfold pbkdf2_block, rfc8018_T. cbv zeta.
  destruct c as [| c]; [lia |].
  replace (S c - 1)%nat with c by lia.
  change (hmac_sha256 password (salt ++ SHA256.be_bytes 4 (Z.of_nat i)))
    with (prf_chain hmac_sha256 password
            (salt ++ SHA256.be_bytes 4 (Z.of_nat i)) 1).
  rewrite (pbkdf2_iter_chain password (salt ++ SHA256.be_bytes 4 (Z.of_nat i)) c).
  cbn [snd]. rewrite <- cons_seq, map_cons. reflexivity.
Qed.

Lemma derived_rfc (material : bytes) :
  derived material
  = rfc8018_T hmac_sha256 material (bytes_lit "ESP32-SRAM-PUF-Auth-v1")
              (Z.to_nat 10000) 1.
Proof.
  unfold derived, PBKDF2_SALT, PBKDF2_ITERATIONS.
  apply pbkdf2_block_rfc. lia.
Qed.

(** C5: the API token of a run is the key derived from the extracted bytes
    of that run, and for every byte string of extracted material the key is
    defined, is exactly 32 bytes long and is the first block [T_1] of
    PBKDF2 as RFC 8018 words it: the xor of the 10000 chained values
    [U_1 = HMAC (material, salt || 00 00 00 01)],
    [U_j = HMAC (material, U_{j-1})], with the fixed salt
    [b"ESP32-SRAM-PUF-Auth-v1"].  The pseudorandom function is HMAC over
    SHA-256: the model gives the published digests of FIPS 180-4 and
    RFC 4231 (short and longer-than-block keys) and the PBKDF2 keys
    [hashlib.pbkdf2_hmac] gives for one, two and three iterations, the last
    with the salt of the program.  Being a function of the material alone,
    the key is the same on every run with the same material. *)
Theorem pbkdf2_hash_is_pbkdf2 :
  (forall material : bytes,
      pbkdf2_hash material
      = pbkdf2_hmac_sha256 material (bytes_lit "ESP32-SRAM-PUF-Auth-v1") 10000 32
      /\ pbkdf2_hash material
         = Ok (rfc8018_T hmac_sha256 material
                 (bytes_lit "ESP32-SRAM-PUF-Auth-v1") (Z.to_nat 10000) 1)
      /\ length (rfc8018_T hmac_sha256 material
                   (bytes_lit "ESP32-SRAM-PUF-Auth-v1") (Z.to_nat 10000) 1)
         = 32%nat)
  /\ (forall (f : file) (n : Z) (rep : report),
         main f n = Ok (Exit0 rep) ->
         api_token rep
         = rfc8018_T hmac_sha256 (extracted_bytearray rep)
             (bytes_lit "ESP32-SRAM-PUF-Auth-v1") (Z.to_nat 10000) 1)
  /\ (forall (password salt : bytes) (c : Z),
         1 <= c ->
         pbkdf2_hmac_sha256 password salt c 32
         = Ok (rfc8018_T hmac_sha256 password salt (Z.to_nat c) 1))
  /\ SHA256.be_bytes 4 (Z.of_nat 1) = [x00; x00; x00; x01]
  /\ bytes_hex (SHA256.digest (bytes_lit "abc"))
     = Py.lit "ba7816bf8f01cfea414140de5dae2223b00361a396177a9cb410ff61f20015ad"
  /\ bytes_hex (hmac_sha256 (bytes_lit "Jefe")
                  (bytes_lit "what do ya want for nothing?"))
     = Py.lit "5bdcc146bf60754e6a042426089575c75a003f089d2739839dec58b964ec3843"
  /\ bytes_hex (hmac_sha256 (replicate 131 xaa)
                  (bytes_lit "Test Using Larger Than Block-Size Key - Hash Key First"))
     = Py.lit "60e431591ee0b67f0d8a26aacbf5b77f8e0bc6213728c5140546040f0ee37f54"
  /\ bytes_hex (rfc8018_T hmac_sha256 (bytes_lit "password") (bytes_lit "salt") 1 1)
     = Py.lit "120fb6cffcf8b32c43e7225256c4f837a86548c92ccc35480805987cb70be17b"
  /\ bytes_hex (pbkdf2_block (bytes_lit "password") (bytes_lit "salt") 2 1)
     = Py.lit "ae4d0c95af6b46d32d0adff928f06dd02a303f8ef3c251dfd6e2d85a95474c43"
  /\ bytes_hex (pbkdf2_block [x07] PBKDF2_SALT 3 1)
     = Py.lit "4aee1ee8f7dc940ec591c224998da512cfac545ede311ae69c68691fe391cfe5".
Proof.
  split.
  { intros material. split; [reflexivity |].
    rewrite <- derived_rfc.
    split; [apply pbkdf2_hash_ok | apply derived_length]. }
  split.
  { intros f n rep H.
    destruct (main_inv f n rep H)
      as (mask & ram & _ & _ & _ & _ & _ & _ & _ & _ & Htok & _).
    rewrite pbkdf2_hash_ok in Htok.
    rewrite <- (Ok_inj _ _ Htok). apply derived_rfc. }
  split.
  { intros password salt c Hc. rewrite pbkdf2_single_block by exact Hc.
    f_equal. apply pbkdf2_block_rfc. lia. }
  do 6 (split; [vm_compute; reflexivity |]).
  vm_compute. reflexivity.
Qed.

Lemma pbkdf2_hash_is_pbkdf2_witness :
  api_token (Report false (Py.lit "1101") [x07] (Py.lit "d") (derived [x07]))
  = rfc8018_T hmac_sha256
      (extracted_bytearray
         (Report false (Py.lit "1101") [x07] (Py.lit "d") (derived [x07])))
      (bytes_lit "ESP32-SRAM-PUF-Auth-v1") (Z.to_nat 10000) 1.
Proof.
  apply (proj1 (proj2 pbkdf2_hash_is_pbkdf2)
           [Py.lit "F0"; Py.lit "F0"; Py.lit "D0"] 4).
  exact scenario_run.
Defined.

(** * Further properties of the code *)

(** ** Which exceptions can be raised *)

Lemma int_nil (b : Z) : Py.int [] b = Raise ValueError.
Proof. reflexivity. Qed.

Lemma hex_to_binary_raises (s : Py.str) (e : exn) :
  hex_to_binary s = Raise e -> e = ValueError.
Proof.
  unfold hex_to_binary. destruct (Py.int s 16) as [v | e'] eqn:Hi.
  - discriminate.
  - rewrite bind_Raise. intros H. injection H as <-.
    exact (int_raises _ _ _ Hi).
Qed.

Lemma zfill_length (s : Py.str) (w : Z) :
  length (Py.zfill s w) = Nat.max (length s) (Z.to_nat w).
Proof.
  unfold Py.zfill.
  destruct (w <=? Z.of_nat (length s)) eqn:Hw.
  - apply Z.leb_le in Hw. lia.
  - apply Z.leb_gt in Hw. destruct s as [| c r].
    + rewrite length_replicate. simpl. lia.
    + destruct (Py.chr_eqb c "+" || Py.chr_eqb c "-"); simpl;
        rewrite length_app, length_replicate; simpl in *; lia.
Qed.

Lemma hex_to_binary_length (s b : Py.str) :
  hex_to_binary s = Ok b ->
  s <> [] /\ (4 * length s <= length b)%nat.
Proof.
  unfold hex_to_binary. intros H. split.
  - intros ->. discriminate H.
  - destruct (Py.int s 16) as [v | e]; [| discriminate].
    rewrite bind_Ok in H. injection H as <-.
    rewrite zfill_length. lia.
Qed.

Lemma map_result_raise {A B : Type} (f : A -> result B) (l : list A) (e : exn) :
  map_result f l = Raise e -> exists x, In x l /\ f x = Raise e.
Proof.
  induction l as [| a l IH]; intros H; [discriminate |].
  simpl in H. destruct (f a) as [y | e'] eqn:Hfa.
  - rewrite bind_Ok in H.
    destruct (map_result f l) as [ys | e'']; [discriminate |].
    rewrite bind_Raise in H. injection H as <-.
    destruct (IH eq_refl) as (x & Hx & Hfx). exists x. split; [right |]; assumption.
  - rewrite bind_Raise in H. injection H as <-. exists a. split; [left |]; auto.
Qed.

Lemma map_result_all_ok {A B : Type} (f : A -> result B) (l : list A) :
  (forall x, In x l -> exists y, f x = Ok y) ->
  exists out, map_result f l = Ok out.
Proof.
  intros H. destruct (map_result f l) as [out | e] eqn:Hm; [eauto |].
  apply map_result_raise in Hm as (x & Hx & Hfx).
  destruct (H x Hx) as [y Hy]. congruence.
Qed.

(** What a returned mask went through. *)
Lemma find_stable_bits_inv (hex_codes : list Py.str) (mask : Py.str) :
  find_stable_bits hex_codes = Ok mask ->
  (2 <= length hex_codes)%nat
  /\ exists bins m,
       map_result hex_to_binary hex_codes = Ok bins
       /\ py_min (map (fun code => length code) bins) = Ok m
       /\ length mask = m
       /\ forall p, (p < m)%nat ->
            mask !! p
            = Some (if flipped (map (fun code => take m code) bins) p
                    then "0"%char else "1"%char).
Proof.
  intros H.
  assert (Hlen : (2 <= length hex_codes)%nat).
  { destruct (Nat.lt_ge_cases (length hex_codes) 2) as [Hlt | Hge]; [| exact Hge].
    rewrite find_stable_bits_too_few in H by exact Hlt. discriminate. }
  split; [exact Hlen |].
  destruct (map_result hex_to_binary hex_codes) as [bins | e] eqn:Hbins.
  - destruct (find_stable_bits_spec hex_codes bins Hlen Hbins)
      as (m & mask' & Hmin & Hrun & Hmlen & Hspec).
    assert (mask' = mask) by congruence. subst mask'.
    exists bins, m. auto.
  - unfold find_stable_bits in H.
    replace (length hex_codes <? 2)%nat with false in H
      by (symmetry; apply Nat.ltb_ge; lia).
    rewrite Hbins, bind_Raise in H. discriminate.
Qed.

Lemma bins_length_ge (hex_codes bins : list Py.str) :
  map_result hex_to_binary hex_codes = Ok bins ->
  Forall (fun b => (4 <= length b)%nat) bins.
Proof.
  revert bins. induction hex_codes as [| c l IH]; intros bins H; simpl in H.
  - injection H as <-. constructor.
  - destruct (hex_to_binary c) as [b | e] eqn:Hc; [| discriminate].
    rewrite bind_Ok in H.
    destruct (map_result hex_to_binary l) as [bs | e]; [| discriminate].
    rewrite bind_Ok in H. injection H as <-.
    constructor; [| apply IH; reflexivity].
    apply hex_to_binary_length in Hc as [Hne Hlen].
    destruct c; [congruence | simpl in Hlen; lia].
Qed.

Lemma mask_length_ge (hex_codes : list Py.str) (mask : Py.str) :
  find_stable_bits hex_codes = Ok mask -> (4 <= length mask)%nat.
Proof.
  intros H.
  destruct (find_stable_bits_inv _ _ H) as (Hlen & bins & m & Hbins & Hmin & Hm & _).
  pose proof (map_result_length _ _ _ Hbins) as Hbl.
  destruct (py_min_spec (map (fun code => length code) bins))
    as (m' & Hmin' & Hin & _).
  { intros Hnil. apply (f_equal length) in Hnil.
    rewrite length_map in Hnil. simpl in Hnil. lia. }
  assert (m' = m) by congruence. subst m'.
  apply in_map_iff in Hin as (b & Hb & Hin).
  pose proof (bins_length_ge _ _ Hbins) as Hall.
  rewrite Forall_forall in Hall.
  specialize (Hall b (proj2 (list_elem_of_In _ _) Hin)). lia.
Qed.

Lemma find_stable_bits_raises (hex_codes : list Py.str) (e : exn) :
  find_stable_bits hex_codes = Raise e -> e = ValueError.
Proof.
  intros H.
  destruct (Nat.lt_ge_cases (length hex_codes) 2) as [Hlt | Hge].
  - rewrite find_stable_bits_too_few in H by exact Hlt. congruence.
  - destruct (map_result hex_to_binary hex_codes) as [bins | e'] eqn:Hbins.
    + destruct (find_stable_bits_spec hex_codes bins Hge Hbins)
        as (m & mask & _ & Hrun & _). congruence.
    + unfold find_stable_bits in H.
      replace (length hex_codes <? 2)%nat with false in H
        by (symmetry; apply Nat.ltb_ge; lia).
      rewrite Hbins, bind_Raise in H. injection H as <-.
      apply map_result_raise in Hbins as (x & _ & Hx).
      exact (hex_to_binary_raises _ _ Hx).
Qed.

(** X1.  [find_stable_bits] returns a mask exactly when it is given at
    least two codes and [hex_to_binary] accepts every one of them; every
    failure is a [ValueError], the loops never leave the lists. *)
Theorem find_stable_bits_outcome (hex_codes : list Py.str) :
  ((exists mask, find_stable_bits hex_codes = Ok mask)
   <-> (2 <= length hex_codes)%nat
       /\ forall code, In code hex_codes -> exists b, hex_to_binary code = Ok b)
  /\ (forall e, find_stable_bits hex_codes = Raise e -> e = ValueError).
Proof.
  split; [split |].
  - intros [mask H].
    destruct (find_stable_bits_inv _ _ H) as (Hlen & bins & m & Hbins & _).
    split; [exact Hlen |]. intros code Hc.
    apply list_elem_of_In, list_elem_of_lookup in Hc as [i Hi].
    destruct (map_result_lookup _ _ _ _ _ Hbins Hi) as (y & Hy & _). eauto.
  - intros [Hlen Hall].
    destruct (map_result_all_ok hex_to_binary hex_codes Hall) as [bins Hbins].
    destruct (find_stable_bits_spec hex_codes bins Hlen Hbins)
      as (m & mask & _ & Hrun & _). eauto.
  - intros e H.
    destruct (Nat.lt_ge_cases (length hex_codes) 2) as [Hlt | Hge].
    + rewrite find_stable_bits_too_few in H by exact Hlt. congruence.
    + destruct (map_result hex_to_binary hex_codes) as [bins | e'] eqn:Hbins.
      * destruct (find_stable_bits_spec hex_codes bins Hge Hbins)
          as (m & mask & _ & Hrun & _). congruence.
      * unfold find_stable_bits in H.
        replace (length hex_codes <? 2)%nat with false in H
          by (symmetry; apply Nat.ltb_ge; lia).
        rewrite Hbins, bind_Raise in H. injection H as <-.
        apply map_result_raise in Hbins as (x & _ & Hx).
        exact (hex_to_binary_raises _ _ Hx).
Qed.

(** X2.  Every mask [find_stable_bits] returns is a string of the
    characters 0 and 1 and has at least four bits, whatever the codes. *)
Theorem mask_is_bit_string (hex_codes : list Py.str) (mask : Py.str) :
  find_stable_bits hex_codes = Ok mask ->
  Forall (fun c => c = "0"%char \/ c = "1"%char) mask
  /\ (4 <= length mask)%nat.
Proof.
  intros H. split; [| exact (mask_length_ge _ _ H)].
  destruct (find_stable_bits_inv _ _ H) as (_ & bins & m & _ & _ & Hm & Hspec).
  rewrite Forall_forall. intros c Hc.
  apply list_elem_of_lookup in Hc as [p Hp].
  pose proof (lookup_lt_Some _ _ _ Hp) as Hlt.
  rewrite Hspec in Hp by lia.
  destruct (flipped _ p); injection Hp as <-; auto.
Qed.

Lemma mask_is_bit_string_witness :
  Forall (fun c => c = "0"%char \/ c = "1"%char) (Py.lit "11011111")
  /\ (4 <= length (Py.lit "11011111"))%nat.
Proof.
  apply (mask_is_bit_string [Py.lit "F0"; Py.lit "F0"; Py.lit "D0"]).
  vm_compute. reflexivity.
Defined.

Lemma find_stable_bits_outcome_witness :
  exists mask, find_stable_bits [Py.lit "F0"; Py.lit "D0"] = Ok mask.
Proof.
  apply (proj1 (find_stable_bits_outcome [Py.lit "F0"; Py.lit "D0"])).
  split; [simpl; lia |].
  intros code [<- | [<- | []]]; eexists; vm_compute; reflexivity.
Defined.

(** ** The extractor on arbitrary strings *)

Lemma ones_in_range_dec (c r : Py.str) :
  (forall i, c !! i = Some "1"%char -> (i < length r)%nat)
  \/ (exists i, c !! i = Some "1"%char /\ (length r <= i)%nat).
Proof.
  destruct (existsb (fun x => Py.chr_eqb x "1") (drop (length r) c)) eqn:He.
  - right. apply existsb_exists in He as (x & Hx & Hx1).
    apply chr_eqb_true in Hx1. subst x.
    apply list_elem_of_In, list_elem_of_lookup in Hx as [j Hj].
    rewrite lookup_drop in Hj. exists (length r + j)%nat. split; [exact Hj | lia].
  - left. intros i Hi.
    destruct (Nat.lt_ge_cases i (length r)) as [Hlt | Hge]; [exact Hlt |].
    exfalso.
    assert (Hin : In "1"%char (drop (length r) c)).
    { apply list_elem_of_In, list_elem_of_lookup. exists (i - length r)%nat.
      rewrite lookup_drop. replace (length r + (i - length r))%nat with i by lia.
      exact Hi. }
    assert (existsb (fun x => Py.chr_eqb x "1") (drop (length r) c) = true).
    { apply existsb_exists. exists "1"%char. split; [exact Hin | reflexivity]. }
    congruence.
Qed.

Lemma popcount_no_ones (c : Py.str) :
  (forall i, c !! i <> Some "1"%char) -> popcount c = 0%nat.
Proof.
  induction c as [| x c IH]; intros H; [reflexivity |].
  unfold popcount. simpl.
  destruct (Py.chr_eqb x "1") eqn:Hx.
  - apply chr_eqb_true in Hx. subst x. exfalso. exact (H 0%nat eq_refl).
  - apply IH. intros i. exact (H (S i)).
Qed.

Lemma selected_length_ones (c : Py.str) :
  forall r,
    (forall i, c !! i = Some "1"%char -> (i < length r)%nat) ->
    length (selected c r) = popcount c.
Proof.
  induction c as [| x c IH]; intros r H; [reflexivity |].
  destruct r as [| y r].
  - rewrite selected_nil_r. symmetry. apply popcount_no_ones.
    intros i Hi. specialize (H i Hi). simpl in H. lia.
  - rewrite selected_cons. unfold popcount. simpl List.filter.
    assert (Hrec : length (selected c r) = popcount c).
    { apply IH. intros i Hi. specialize (H (S i) Hi). simpl in H. lia. }
    destruct (Py.chr_eqb x "1"); simpl; rewrite Hrec; reflexivity.
Qed.

Lemma extract_selected (c r : Py.str) :
  (forall i, c !! i = Some "1"%char -> (i < length r)%nat) ->
  extract_bits_from_sram_to_bytearray c r
  = map_result (pack_byte (selected c r)) (range_step (length (selected c r)) 8).
Proof.
  intros Hones. unfold extract_bits_from_sram_to_bytearray.
  rewrite (select_loop_ok c r (length c) 0 []) by (try reflexivity; auto).
  reflexivity.
Qed.

Lemma range_step_8_length (n : nat) :
  length (range_step n 8) = ((n + 7) / 8)%nat.
Proof.
  unfold range_step. rewrite length_map, length_seq. f_equal. lia.
Qed.

(** X3.  Whatever the two strings hold, a call of the extractor that
    returns gives exactly [ceil(popcount(challenge)/8)] bytes: the amount
    of key material depends on the challenge alone. *)
Theorem extract_length (binary_challenge ram_buffer_binary : Py.str) (out : bytes) :
  extract_bits_from_sram_to_bytearray binary_challenge ram_buffer_binary = Ok out ->
  length out = ((popcount binary_challenge + 7) / 8)%nat.
Proof.
  intros H.
  destruct (ones_in_range_dec binary_challenge ram_buffer_binary) as [Hin | Hout].
  - rewrite (extract_selected _ _ Hin) in H.
    apply map_result_length in H.
    rewrite H, range_step_8_length, (selected_length_ones _ _ Hin). reflexivity.
  - rewrite (extract_fail _ _ Hout) in H. discriminate.
Qed.

Lemma extract_length_witness :
  length [xb0; x01] = ((popcount (Py.lit "1111111110") + 7) / 8)%nat.
Proof.
  apply (extract_length (Py.lit "1111111110") (Py.lit "101100001")).
  vm_compute. reflexivity.
Defined.

Lemma to_byte_raises (v : Z) (e : exn) : to_byte v = Raise e -> e = ValueError.
Proof.
  unfold to_byte. destruct ((0 <=? v) && (v <? 256)); [| congruence].
  destruct (Byte.of_N (Z.to_N v)); congruence.
Qed.

Lemma pack_byte_raises (bits : Py.str) (i : nat) (e : exn) :
  pack_byte bits i = Raise e -> e = ValueError.
Proof.
  unfold pack_byte. destruct (Py.int _ 2) as [v | e'] eqn:Hi.
  - rewrite bind_Ok. apply to_byte_raises.
  - rewrite bind_Raise. intros H. injection H as <-. exact (int_raises _ _ _ Hi).
Qed.

Lemma challenge_hex_raises (c : Py.str) (e : exn) :
  challenge_hex c = Raise e -> e = ValueError.
Proof.
  unfold challenge_hex. destruct (Py.int c 2) as [v | e'] eqn:Hi.
  - discriminate.
  - rewrite bind_Raise. intros H. injection H as <-. exact (int_raises _ _ _ Hi).
Qed.

(** ** Outcomes of [main] *)

Lemma first_bin (line : Py.str) (rest : file) (mask ram : Py.str) :
  find_stable_bits (read_hex_codes (line :: rest)) = Ok mask ->
  hex_to_binary (Py.strip line) = Ok ram ->
  (length mask <= length ram)%nat.
Proof.
  intros Hmask Hram.
  destruct (hex_to_binary_length _ _ Hram) as [Hne _].
  assert (Hfirst : nonempty (Py.strip line) = true)
    by (destruct (Py.strip line); [congruence | reflexivity]).
  rewrite (read_hex_codes_first line rest Hfirst) in Hmask.
  destruct (find_stable_bits_inv _ _ Hmask)
    as (_ & bins & m & Hbins & Hmin & Hm & _).
  simpl in Hbins. rewrite Hram, bind_Ok in Hbins.
  destruct (map_result hex_to_binary (read_hex_codes rest)) as [bs | e];
    [| discriminate].
  rewrite bind_Ok in Hbins. injection Hbins as <-.
  simpl in Hmin. injection Hmin as <-.
  destruct (foldl_min_le (map (fun code => length code) bs) (length ram)) as [H _].
  lia.
Qed.

Lemma main_raises_aux (f : file) (n : Z) (e : exn) :
  main f n = Raise e -> e = ValueError.
Proof.
  unfold main. intros H.
  destruct (length (read_hex_codes f) <? 2)%nat eqn:Hlen; [discriminate |].
  destruct (find_stable_bits (read_hex_codes f)) as [mask | e1] eqn:Hmask.
  2:{ rewrite bind_Raise in H. injection H as <-.
      exact (find_stable_bits_raises _ _ Hmask). }
  rewrite bind_Ok in H.
  pose proof (mask_length_ge _ _ Hmask) as Hm4.
  replace (Z.of_nat (length mask) =? 0) with false in H
    by (symmetry; apply Z.eqb_neq; lia).
  rewrite bind_Ok in H.
  destruct f as [| line rest]; [discriminate Hlen |].
  change (get_first_measurement (line :: rest)) with (Py.strip line) in H.
  destruct (hex_to_binary (Py.strip line)) as [ram | e2] eqn:Hram.
  2:{ rewrite bind_Raise in H. injection H as <-.
      exact (hex_to_binary_raises _ _ Hram). }
  rewrite bind_Ok in H.
  pose proof (first_bin line rest mask ram Hmask Hram) as Hle.
  pose proof (slice_to_length mask n) as Hsl.
  rewrite extract_selected in H by (apply ones_in_range; lia).
  destruct (map_result _ _) as [ex | e3] eqn:Hex.
  2:{ rewrite bind_Raise in H. injection H as <-.
      apply map_result_raise in Hex as (i & _ & Hi).
      exact (pack_byte_raises _ _ _ Hi). }
  rewrite bind_Ok, pbkdf2_hash_ok, bind_Ok in H.
  destruct (challenge_hex (Py.slice_to mask n)) as [hex | e4] eqn:Hhex.
  - discriminate.
  - rewrite bind_Raise in H. injection H as <-.
    exact (challenge_hex_raises _ _ Hhex).
Qed.



Lemma main_exit1_aux (f : file) (n : Z) :
  main f n = Ok Exit1 <-> (length (read_hex_codes f) < 2)%nat.
Proof.
  unfold main. split.
  - intros H.
    destruct (length (read_hex_codes f) <? 2)%nat eqn:Hlen;
      [apply Nat.ltb_lt; exact Hlen |].
    exfalso.
    destruct (find_stable_bits _) as [mask | e]; [| discriminate].
    rewrite bind_Ok in H.
    destruct (Z.of_nat (length mask) =? 0); [discriminate |].
    rewrite bind_Ok in H.
    destruct (hex_to_binary _) as [ram | e]; [| discriminate].
    rewrite bind_Ok in H.
    destruct (extract_bits_from_sram_to_bytearray _ _) as [ex | e];
      [| discriminate].
    rewrite bind_Ok, pbkdf2_hash_ok, bind_Ok in H.
    destruct (challenge_hex _) as [hex | e]; discriminate.
  - intros Hlen. apply Nat.ltb_lt in Hlen. rewrite Hlen. reflexivity.
Qed.

(** X5.  [main] returns exit code 1 without raising exactly when the file
    has fewer than two non-blank lines. *)
Theorem main_exit1 (f : file) (n : Z) :
  main f n = Ok Exit1 <-> (length (read_hex_codes f) < 2)%nat.
Proof. apply main_exit1_aux. Qed.

Lemma main_exit1_witness : main [Py.lit "  "; Py.lit "F0"; Py.lit ""] 128 = Ok Exit1.
Proof.
  apply (proj2 (main_exit1 [Py.lit "  "; Py.lit "F0"; Py.lit ""] 128)).
  vm_compute. lia.
Defined.

(** X6.  A blank first line is fatal: [read_hex_codes] skips it, but the
    reference measurement is read from it, so a file that starts with a
    blank line and holds two or more measurements makes [main] raise
    [ValueError], however good the measurements are. *)
Theorem main_blank_first_line (line : Py.str) (rest : file) (n : Z) :
  Py.strip line = [] ->
  (2 <= length (read_hex_codes rest))%nat ->
  main (line :: rest) n = Raise ValueError.
Proof.
  intros Hblank Hlen.
  assert (Hcodes : read_hex_codes (line :: rest) = read_hex_codes rest).
  { unfold read_hex_codes. simpl map. simpl List.filter. rewrite Hblank.
    reflexivity. }
  destruct (main (line :: rest) n) as [[| rep] | e] eqn:Hmain.
  - apply main_exit1_aux in Hmain. rewrite Hcodes in Hmain. lia.
  - exfalso. revert Hmain. unfold main.
    destruct (length (read_hex_codes (line :: rest)) <? 2)%nat; [discriminate |].
    destruct (find_stable_bits _) as [mask | e]; [| discriminate].
    rewrite bind_Ok.
    destruct (Z.of_nat (length mask) =? 0); [discriminate |].
    rewrite bind_Ok.
    change (get_first_measurement (line :: rest)) with (Py.strip line).
    rewrite Hblank. discriminate.
  - f_equal. exact (main_raises_aux _ _ _ Hmain).
Qed.

Lemma main_blank_first_line_witness :
  main [Py.lit " "; Py.lit "F0"; Py.lit "D0"] 128 = Raise ValueError.
Proof.
  apply (main_blank_first_line (Py.lit " ") [Py.lit "F0"; Py.lit "D0"] 128).
  - reflexivity.
  - vm_compute. lia.
Defined.

(** X7.  A file whose first line is a measurement and whose measurements
    are non-empty strings of hex digits, at least two of them, never makes
    [main] fail for a challenge size of 1 or more: the run prints a
    challenge/token pair, the challenge being [stable_bits[:size]], and it
    warns exactly when the mask has fewer stable bits than the size. *)
Theorem well_formed_file_completes (line : Py.str) (rest : file) (n : Z) :
  nonempty (Py.strip line) = true ->
  Forall (fun code => Forall (fun c => is_hex_digit c = true) code)
         (read_hex_codes (line :: rest)) ->
  (2 <= length (read_hex_codes (line :: rest)))%nat ->
  1 <= n ->
  exists (mask : Py.str) (rep : report),
    find_stable_bits (read_hex_codes (line :: rest)) = Ok mask
    /\ main (line :: rest) n = Ok (Exit0 rep)
    /\ warned rep = (Py.count "1" mask <? n)
    /\ binary_challenge rep = Py.slice_to mask n
    /\ pbkdf2_hash (extracted_bytearray rep) = Ok (api_token rep)
    /\ length (api_token rep) = 32%nat.
Proof. apply main_completes. Qed.

Lemma well_formed_file_completes_witness :
  exists (mask : Py.str) (rep : report),
    find_stable_bits (read_hex_codes (Py.lit "F0" :: [Py.lit "F0"; Py.lit "D0"]))
    = Ok mask
    /\ main (Py.lit "F0" :: [Py.lit "F0"; Py.lit "D0"]) 4 = Ok (Exit0 rep)
    /\ warned rep = (Py.count "1" mask <? 4)
    /\ binary_challenge rep = Py.slice_to mask 4
    /\ pbkdf2_hash (extracted_bytearray rep) = Ok (api_token rep)
    /\ length (api_token rep) = 32%nat.
Proof.
  apply (well_formed_file_completes (Py.lit "F0") [Py.lit "F0"; Py.lit "D0"] 4).
  - reflexivity.
  - vm_compute. repeat constructor.
  - vm_compute. lia.
  - lia.
Defined.

(** X8.  What a completed run printed.  The file held at least two
    measurements and their mask is not empty; the challenge is the slice
    [stable_bits[:size]] of that mask, printed in hexadecimal; the warning
    was shown exactly when the mask has fewer stable bits than the size; the
    extracted bytes are what [extract_bits_from_sram_to_bytearray] returns
    for that challenge and the decoded first line of the file; the token is
    the 32-byte key derived from those bytes. *)
Theorem completed_run_shape (f : file) (n : Z) (rep : report) :
  main f n = Ok (Exit0 rep) ->
  exists mask ram : Py.str,
    (2 <= length (read_hex_codes f))%nat
    /\ find_stable_bits (read_hex_codes f) = Ok mask
    /\ mask <> []
    /\ hex_to_binary (get_first_measurement f) = Ok ram
    /\ warned rep = (Py.count "1" mask <? n)
    /\ binary_challenge rep = Py.slice_to mask n
    /\ extract_bits_from_sram_to_bytearray (binary_challenge rep) ram
       = Ok (extracted_bytearray rep)
    /\ challenge_hex (binary_challenge rep) = Ok (puf_challenge rep)
    /\ pbkdf2_hash (extracted_bytearray rep) = Ok (api_token rep)
    /\ length (api_token rep) = 32%nat.
Proof. apply main_inv. Qed.

Lemma completed_run_shape_witness :
  exists mask ram : Py.str,
    (2 <= length (read_hex_codes [Py.lit "F0"; Py.lit "F0"; Py.lit "D0"]))%nat
    /\ find_stable_bits (read_hex_codes [Py.lit "F0"; Py.lit "F0"; Py.lit "D0"])
       = Ok mask
    /\ mask <> []
    /\ hex_to_binary
         (get_first_measurement [Py.lit "F0"; Py.lit "F0"; Py.lit "D0"])
       = Ok ram
    /\ warned (Report false (Py.lit "1101") [x07] (Py.lit "d") (derived [x07]))
       = (Py.count "1" mask <? 4)
    /\ binary_challenge
         (Report false (Py.lit "1101") [x07] (Py.lit "d") (derived [x07]))
       = Py.slice_to mask 4
    /\ extract_bits_from_sram_to_bytearray
         (binary_challenge
            (Report false (Py.lit "1101") [x07] (Py.lit "d") (derived [x07])))
         ram
       = Ok (extracted_bytearray
               (Report false (Py.lit "1101") [x07] (Py.lit "d") (derived [x07])))
    /\ challenge_hex
         (binary_challenge
            (Report false (Py.lit "1101") [x07] (Py.lit "d") (derived [x07])))
       = Ok (puf_challenge
               (Report false (Py.lit "1101") [x07] (Py.lit "d") (derived [x07])))
    /\ pbkdf2_hash
         (extracted_bytearray
            (Report false (Py.lit "1101") [x07] (Py.lit "d") (derived [x07])))
       = Ok (api_token
               (Report false (Py.lit "1101") [x07] (Py.lit "d") (derived [x07])))
    /\ length
         (api_token
            (Report false (Py.lit "1101") [x07] (Py.lit "d") (derived [x07])))
       = 32%nat.
Proof.
  apply (completed_run_shape [Py.lit "F0"; Py.lit "F0"; Py.lit "D0"] 4).
  exact scenario_run.
Defined.

(** ** The challenge in hexadecimal, there and back *)

Lemma bits_digits (s : Py.str) :
  Forall (fun c => is_bit c = true) s -> Forall (digit_below 2) s.
Proof.
  intros H. eapply Forall_impl; [exact H |].
  intros c Hc. unfold is_bit in Hc. apply Z.ltb_lt in Hc. exact Hc.
Qed.

Lemma map_digit_char_bits (s : Py.str) :
  Forall (digit_below 2) s ->
  map (fun c => Py.digit_char (Py.digit_value c)) s = s.
Proof.
  induction 1 as [| c s Hc _ IH]; [reflexivity |].
  simpl. rewrite IH. f_equal. apply bit_digit_char.
  unfold is_bit. apply Z.ltb_lt. exact Hc.
Qed.

Lemma fixed_width_bits (s : Py.str) :
  Forall (digit_below 2) s -> fixed_width 2 (length s) (value 2 s) = s.
Proof.
  intros H. rewrite (fixed_width_value 2) by (assumption || lia).
  apply map_digit_char_bits. exact H.
Qed.

Lemma digits_rec_hex (fuel : nat) :
  forall v, 0 <= v -> Forall (digit_below 16) (Py.digits_rec 16 fuel v).
Proof.
  induction fuel as [| f IH]; intros v Hv; simpl; [constructor |].
  destruct (v <? 16) eqn:Hlt.
  - apply Z.ltb_lt in Hlt. repeat constructor.
    unfold digit_below. rewrite digit_char_value; lia.
  - apply Forall_app. split; [apply IH; apply Z.div_pos; lia |].
    repeat constructor. unfold digit_below.
    pose proof (Z.mod_pos_bound v 16). rewrite digit_char_value; lia.
Qed.

Lemma zfill_no_sign (s : Py.str) (w : Z) :
  Forall (fun c => Py.chr_eqb c "+" || Py.chr_eqb c "-" = false) s ->
  Py.zfill s w
  = replicate (Z.to_nat (w - Z.of_nat (length s))) "0"%char ++ s.
Proof.
  intros Hs. unfold Py.zfill.
  destruct (w <=? Z.of_nat (length s)) eqn:Hw.
  - apply Z.leb_le in Hw.
    replace (Z.to_nat (w - Z.of_nat (length s))) with 0%nat by lia. reflexivity.
  - destruct s as [| c r]; [rewrite app_nil_r; reflexivity |].
    inversion Hs as [| ? ? Hc _]; subst. rewrite Hc. reflexivity.
Qed.

Lemma challenge_hex_digits (bits : Py.str) :
  bits <> [] -> Forall (digit_below 2) bits ->
  exists hex,
    challenge_hex bits = Ok hex /\ hex <> [] /\ Forall (digit_below 16) hex.
Proof.
  intros Hne Hb. rewrite (challenge_hex_ok bits Hne Hb).
  pose proof (value_bounds 2 ltac:(lia) ltac:(lia) bits Hb) as Hv.
  unfold Py.hex. rewrite format_int_nonneg by lia.
  change (drop 2 (Py.lit "0x" ++ Py.digits 16 (value 2 bits)))
    with (Py.digits 16 (value 2 bits)).
  unfold Py.digits. rewrite zfill_no_sign by apply digits_rec_no_sign.
  eexists. split; [reflexivity |]. split.
  - intros Hnil. apply app_eq_nil in Hnil as [_ Hnil].
    revert Hnil. apply digits_rec_nonempty. lia.
  - apply Forall_app. split.
    + apply Forall_replicate. vm_compute. reflexivity.
    + apply digits_rec_hex. lia.
Qed.

(** X9.  A challenge whose length is a multiple of four survives the
    hexadecimal form it is printed in: the printed challenge has one
    character per four bits, and decoding it with [hex_to_binary] gives the
    challenge back bit for bit. *)
Theorem challenge_hex_round_trip (bits : Py.str) (k : nat) :
  (1 <= k)%nat -> length bits = (4 * k)%nat ->
  Forall (fun c => is_bit c = true) bits ->
  exists hex,
    challenge_hex bits = Ok hex
    /\ length hex = k
    /\ hex_to_binary hex = Ok bits.
Proof.
  intros Hk Hlen Hbits. apply bits_digits in Hbits.
  assert (Hne : bits <> []) by (destruct bits; simpl in Hlen; [lia | congruence]).
  pose proof (value_bounds 2 ltac:(lia) ltac:(lia) bits Hbits) as Hv.
  assert (Hp : 2 ^ Z.of_nat (4 * k) = 16 ^ Z.of_nat k).
  { rewrite Nat2Z.inj_mul, Z.pow_mul_r by lia. reflexivity. }
  rewrite Hlen in Hv.
  exists (fixed_width 16 k (value 2 bits)).
  split; [| split].
  - rewrite (challenge_hex_ok bits Hne Hbits).
    unfold Py.hex. rewrite format_int_nonneg by lia.
    change (drop 2 (Py.lit "0x" ++ Py.digits 16 (value 2 bits)))
      with (Py.digits 16 (value 2 bits)).
    replace (Z.of_nat (length bits) / 4) with (Z.of_nat k)
      by (rewrite Hlen, Nat2Z.inj_mul, Z.mul_comm, Z.div_mul; lia).
    rewrite (zfill_digits 16) by lia. reflexivity.
  - apply fixed_width_length.
  - rewrite hex_to_binary_hex.
    + rewrite <- fixed_width_nibbles by (apply (fixed_width_digit_below 16); lia).
      rewrite fixed_width_length, (value_fixed_width 16) by lia.
      rewrite <- Hlen. rewrite fixed_width_bits by exact Hbits. reflexivity.
    + intros Hnil. apply (f_equal length) in Hnil.
      rewrite fixed_width_length in Hnil. simpl in Hnil. lia.
    + apply (fixed_width_digit_below 16); lia.
Qed.

Lemma challenge_hex_round_trip_witness :
  exists hex,
    challenge_hex (Py.lit "00101101") = Ok hex
    /\ length hex = 2%nat
    /\ hex_to_binary hex = Ok (Py.lit "00101101").
Proof.
  apply (challenge_hex_round_trip (Py.lit "00101101") 2).
  - lia.
  - reflexivity.
  - repeat constructor.
Defined.

(** X10.  A challenge whose length is not a multiple of four does not
    survive: its printed form decodes to a bit string whose length is a
    multiple of four, so to a different mask. *)
Theorem challenge_hex_misaligned (bits : Py.str) :
  bits <> [] -> Forall (fun c => is_bit c = true) bits ->
  (length bits mod 4 <> 0)%nat ->
  exists hex decoded,
    challenge_hex bits = Ok hex
    /\ hex_to_binary hex = Ok decoded
    /\ (length decoded mod 4 = 0)%nat
    /\ decoded <> bits.
Proof.
  intros Hne Hbits Hmod. apply bits_digits in Hbits.
  destruct (challenge_hex_digits bits Hne Hbits) as (hex & Hhex & Hhne & Hdig).
  exists hex, (concat (map nibble hex)).
  split; [exact Hhex |]. split; [apply hex_to_binary_hex; assumption |].
  assert (Hl : (length (concat (map nibble hex)) mod 4 = 0)%nat).
  { rewrite nibbles_length, Nat.mul_comm. apply Nat.Div0.mod_mul. }
  split; [exact Hl |].
  intros Heq. rewrite Heq in Hl. contradiction.
Qed.

Lemma challenge_hex_misaligned_witness :
  exists hex decoded,
    challenge_hex (Py.lit "00001") = Ok hex
    /\ hex_to_binary hex = Ok decoded
    /\ (length decoded mod 4 = 0)%nat
    /\ decoded <> Py.lit "00001".
Proof.
  apply (challenge_hex_misaligned (Py.lit "00001")).
  - discriminate.
  - repeat constructor.
  - vm_compute. lia.
Defined.

(** X11.  A code that [int] reads as a negative number is not rejected:
    [hex_to_binary] returns a string that holds the letter "b" of the
    ["-0b"] prefix, so something that is no bit string. *)
Theorem hex_to_binary_negative (hex_str : Py.str) (v : Z) :
  Py.int hex_str 16 = Ok v -> v < 0 ->
  exists b,
    hex_to_binary hex_str = Ok b
    /\ In "b"%char b
    /\ ~ Forall (fun c => c = "0"%char \/ c = "1"%char) b.
Proof.
  intros Hint Hv. unfold hex_to_binary. rewrite Hint, bind_Ok.
  unfold Py.bin, Py.format_int.
  replace (v <? 0) with true by (symmetry; apply Z.ltb_lt; lia).
  change (drop 2 (Py.lit "-" ++ Py.lit "0b" ++ Py.digits 2 (- v)))
    with ("b"%char :: Py.digits 2 (- v)).
  rewrite zfill_no_sign.
  2:{ constructor; [reflexivity | apply digits_rec_no_sign]. }
  eexists. split; [reflexivity |].
  assert (Hin : In "b"%char
                  (replicate
                     (Z.to_nat (Z.of_nat (length hex_str) * 4
                                - Z.of_nat (length ("b"%char :: Py.digits 2 (- v)))))
                     "0"%char ++ "b"%char :: Py.digits 2 (- v))).
  { apply in_or_app. right. left. reflexivity. }
  split; [exact Hin |].
  intros Hall. rewrite Forall_forall in Hall.
  destruct (Hall _ (proj2 (list_elem_of_In _ _) Hin)); discriminate.
Qed.

Lemma hex_to_binary_negative_witness :
  exists b,
    hex_to_binary (Py.lit "-f") = Ok b
    /\ In "b"%char b
    /\ ~ Forall (fun c => c = "0"%char \/ c = "1"%char) b.
Proof.
  apply (hex_to_binary_negative (Py.lit "-f") (-15)).
  - vm_compute. reflexivity.
  - lia.
Defined.

(** ** What is printed *)

Lemma byte_val_range (b : byte) : 0 <= byte_val b < 256.
Proof.
  unfold byte_val. pose proof (Byte.to_N_bounded b). lia.
Qed.

Lemma byte_val_of_Z (v : Z) : 0 <= v < 256 -> byte_val (byte_of_Z v) = v.
Proof.
  intros Hv. unfold byte_val, byte_of_Z. rewrite Z.mod_small by lia.
  destruct (Byte.of_N (Z.to_N v)) as [b |] eqn:Hb.
  - apply Byte.to_of_N in Hb. rewrite Hb. lia.
  - apply Byte.of_N_None_iff in Hb. lia.
Qed.

Lemma digit_char_lower_hex (d : Z) :
  0 <= d < 16 ->
  is_hex_digit (Py.digit_char d) = true /\ lower (Py.digit_char d) = Py.digit_char d.
Proof.
  intros Hd.
  assert (H : d = 0 \/ d = 1 \/ d = 2 \/ d = 3 \/ d = 4 \/ d = 5 \/ d = 6
              \/ d = 7 \/ d = 8 \/ d = 9 \/ d = 10 \/ d = 11 \/ d = 12
              \/ d = 13 \/ d = 14 \/ d = 15) by lia.
  repeat (destruct H as [-> | H]; [split; reflexivity |]).
  subst d. split; reflexivity.
Qed.

Lemma bytes_hex_length (bs : bytes) : length (bytes_hex bs) = (2 * length bs)%nat.
Proof.
  unfold bytes_hex. induction bs as [| b bs IH]; [reflexivity |].
  simpl map. simpl concat. simpl length. rewrite IH. lia.
Qed.

Lemma bytes_hex_chars (bs : bytes) :
  Forall (fun c => is_hex_digit c = true /\ lower c = c) (bytes_hex bs).
Proof.
  unfold bytes_hex. induction bs as [| b bs IH]; [constructor |].
  simpl map. simpl concat.
  pose proof (byte_val_range b) as Hb.
  constructor; [| constructor; [| exact IH]].
  - apply digit_char_lower_hex. split; [apply Z.div_pos; lia |].
    apply Z.div_lt_upper_bound; lia.
  - apply digit_char_lower_hex. apply Z.mod_pos_bound. lia.
Qed.

(** X12.  On every completed run the API token is printed as exactly 64
    characters, all of them lower-case hex digits. *)
Theorem api_token_hex_shape (f : file) (n : Z) (rep : report) :
  main f n = Ok (Exit0 rep) ->
  length (api_token_hex rep) = 64%nat
  /\ Forall (fun c => is_hex_digit c = true /\ lower c = c) (api_token_hex rep).
Proof.
  intros H. destruct (main_report f n rep H) as (_ & _ & _ & _ & _ & _ & Hlen).
  unfold api_token_hex. split; [| apply bytes_hex_chars].
  rewrite bytes_hex_length, Hlen. reflexivity.
Qed.

Lemma api_token_hex_shape_witness :
  length (api_token_hex
            (Report false (Py.lit "1101") [x07] (Py.lit "d") (derived [x07])))
  = 64%nat
  /\ Forall (fun c => is_hex_digit c = true /\ lower c = c)
       (api_token_hex
          (Report false (Py.lit "1101") [x07] (Py.lit "d") (derived [x07]))).
Proof.
  apply (api_token_hex_shape [Py.lit "F0"; Py.lit "F0"; Py.lit "D0"] 4).
  exact scenario_run.
Defined.

Lemma range_step_8_succ (n : nat) :
  (1 <= n)%nat ->
  range_step n 8 = 0%nat :: map (fun i => (i + 8)%nat) (range_step (n - 8) 8).
Proof.
  intros Hn. unfold range_step.
  replace ((n + 8 - 1) / 8)%nat with (S ((n - 8 + 8 - 1) / 8)).
  2:{ destruct (Nat.le_gt_cases 8 n) as [Hge | Hlt].
      - replace (n + 8 - 1)%nat with ((n - 8 + 8 - 1) + 1 * 8)%nat by lia.
        rewrite Nat.div_add by lia. lia.
      - replace (n - 8 + 8 - 1)%nat with 7%nat by lia.
        rewrite (Nat.div_small 7 8) by lia.
        assert (H1 : ((n + 8 - 1) / 8 < 2)%nat)
          by (apply Nat.Div0.div_lt_upper_bound; lia).
        assert (H2 : (1 <= (n + 8 - 1) / 8)%nat)
          by (apply Nat.div_le_lower_bound; lia).
        lia. }
  rewrite <- cons_seq. simpl map. f_equal.
  rewrite <- seq_shift, !map_map. apply map_ext. intros k. lia.
Qed.

Lemma chunks_succ (s : Py.str) :
  s <> [] -> chunks 8 s = take 8 s :: chunks 8 (drop 8 s).
Proof.
  intros Hne. unfold chunks.
  rewrite range_step_8_succ by (destruct s; simpl; [congruence | lia]).
  simpl map. f_equal. rewrite length_drop, map_map.
  apply map_ext. intros i. rewrite drop_drop. f_equal. f_equal. lia.
Qed.

Lemma format_08b_pack (g : Py.str) :
  length g = 8%nat -> Forall (digit_below 2) g -> format_08b (pack g) = g.
Proof.
  intros Hlen Hg. unfold format_08b, pack.
  pose proof (value_bounds 2 ltac:(lia) ltac:(lia) g Hg) as Hv.
  rewrite Hlen in Hv. change (2 ^ Z.of_nat 8) with 256 in Hv.
  rewrite byte_val_of_Z by lia.
  change 8 with (Z.of_nat 8).
  rewrite (zfill_digits 2) by (simpl; lia).
  rewrite <- Hlen. apply fixed_width_bits. exact Hg.
Qed.

Lemma debug_chunks (k : nat) :
  forall s : Py.str,
    length s = (8 * k)%nat -> Forall (digit_below 2) s ->
    extracted_bits_debug (map pack (chunks 8 s)) = s.
Proof.
  unfold extracted_bits_debug.
  induction k as [| k IH]; intros s Hlen Hs.
  - destruct s; [reflexivity | simpl in Hlen; lia].
  - rewrite chunks_succ by (destruct s; simpl in Hlen; [lia | congruence]).
    simpl map. simpl concat.
    rewrite format_08b_pack
      by (try (apply Forall_take; exact Hs); rewrite length_take; lia).
    rewrite IH by (try (apply Forall_drop; exact Hs); rewrite length_drop; lia).
    apply take_drop.
Qed.

(** X13.  When the number of selected bits is a multiple of eight, the
    "Extracted bits" line of the verbose output shows exactly the bits that
    were selected from the reference: packing into bytes and printing each
    byte on eight binary digits is a round trip. *)
Theorem extracted_bits_debug_round_trip
    (binary_challenge ram_buffer_binary : Py.str) :
  (length binary_challenge <= length ram_buffer_binary)%nat ->
  Forall (fun c => is_bit c = true) ram_buffer_binary ->
  (popcount binary_challenge mod 8 = 0)%nat ->
  exists out,
    extract_bits_from_sram_to_bytearray binary_challenge ram_buffer_binary = Ok out
    /\ extracted_bits_debug out = selected binary_challenge ram_buffer_binary.
Proof.
  intros Hlen Hbits Hmod. apply bits_digits in Hbits.
  eexists. split; [apply extract_ok; [apply ones_in_range; exact Hlen | exact Hbits] |].
  apply (debug_chunks (popcount binary_challenge / 8)).
  - rewrite (selected_length _ _ Hlen).
    pose proof (Nat.div_mod_eq (popcount binary_challenge) 8). lia.
  - apply selected_bits. exact Hbits.
Qed.

Lemma extracted_bits_debug_round_trip_witness :
  exists out,
    extract_bits_from_sram_to_bytearray (Py.lit "1111011110") (Py.lit "1011000111")
    = Ok out
    /\ extracted_bits_debug out
       = selected (Py.lit "1111011110") (Py.lit "1011000111").
Proof.
  apply (extracted_bits_debug_round_trip
           (Py.lit "1111011110") (Py.lit "1011000111")).
  - simpl. lia.
  - repeat constructor.
  - reflexivity.
Defined.

(** ** The mask as measurements are added *)

Lemma map_result_app {A B : Type} (f : A -> result B) (l : list A) (x : A) :
  forall out,
    map_result f (l ++ [x]) = Ok out ->
    exists ys y, map_result f l = Ok ys /\ f x = Ok y /\ out = ys ++ [y].
Proof.
  induction l as [| a l IH]; intros out H; simpl in H.
  - destruct (f x) as [y | e] eqn:Hx; [| discriminate].
    rewrite bind_Ok in H. injection H as <-. exists [], y. auto.
  - destruct (f a) as [b | e] eqn:Ha; [| discriminate]. rewrite bind_Ok in H.
    destruct (map_result f (l ++ [x])) as [zs | e]; [| discriminate].
    rewrite bind_Ok in H. injection H as <-.
    destruct (IH zs eq_refl) as (ys & y & Hys & Hy & ->).
    exists (b :: ys), y. simpl. rewrite Ha, Hys. auto.
Qed.

Lemma existsb_same {A : Type} (f g : A -> bool) (l : list A) :
  (forall x, f x = g x) -> existsb f l = existsb g l.
Proof.
  intros H. induction l as [| a l IH]; [reflexivity |].
  simpl. rewrite H, IH. reflexivity.
Qed.

Lemma flipped_take (rows : list Py.str) (m p : nat) :
  (p < m)%nat ->
  flipped (map (fun code => take m code) rows) p = flipped rows p.
Proof.
  intros Hp. unfold flipped. rewrite length_map.
  apply existsb_same. intros i. unfold differs. rewrite !lookup_map.
  destruct (rows !! i) as [a |]; [| reflexivity].
  destruct (rows !! (i + 1)%nat) as [b |]; [| reflexivity].
  simpl. rewrite !lookup_take_lt by exact Hp. reflexivity.
Qed.

Lemma flipped_snoc (rows : list Py.str) (b : Py.str) (p : nat) :
  flipped rows p = true -> flipped (rows ++ [b]) p = true.
Proof.
  rewrite !flipped_true.
  intros (i & a & c & x & y & Ha & Hc & Hx & Hy & Hne).
  exists i, a, c, x, y.
  repeat split; try assumption; apply lookup_app_l_Some; assumption.
Qed.

(** X14.  Adding a measurement at the end never turns an unstable bit into
    a stable one: the new mask is not longer than the old one, and wherever
    it has a 1 the old mask has a 1 too. *)
Theorem mask_shrinks (hex_codes : list Py.str) (extra : Py.str)
    (mask mask' : Py.str) :
  find_stable_bits hex_codes = Ok mask ->
  find_stable_bits (hex_codes ++ [extra]) = Ok mask' ->
  (length mask' <= length mask)%nat
  /\ forall p, mask' !! p = Some "1"%char -> mask !! p = Some "1"%char.
Proof.
  intros H H'.
  destruct (find_stable_bits_inv _ _ H)
    as (Hlen & bins & m & Hbins & Hmin & Hm & Hspec).
  destruct (find_stable_bits_inv _ _ H')
    as (_ & bins' & m' & Hbins' & Hmin' & Hm' & Hspec').
  destruct (map_result_app _ _ _ _ Hbins') as (ys & b & Hys & _ & ->).
  assert (ys = bins) by congruence. subst ys.
  pose proof (map_result_length _ _ _ Hbins) as Hbl.
  assert (Hle : (m' <= m)%nat).
  { destruct (py_min_spec (map (fun code => length code) bins))
      as (k & Hk & Hin & _).
    { intros Hnil. apply (f_equal length) in Hnil.
      rewrite length_map in Hnil. simpl in Hnil. lia. }
    assert (k = m) by congruence. subst k.
    destruct (py_min_spec (map (fun code => length code) (bins ++ [b])))
      as (k' & Hk' & _ & Hall).
    { intros Hnil. apply (f_equal length) in Hnil.
      rewrite length_map, length_app in Hnil. simpl in Hnil. lia. }
    assert (k' = m') by congruence. subst k'.
    rewrite Forall_forall in Hall. apply Hall.
    apply list_elem_of_In. rewrite map_app. apply in_or_app. left. exact Hin. }
  split; [lia |].
  intros p Hp.
  pose proof (lookup_lt_Some _ _ _ Hp) as Hlt.
  rewrite Hspec' in Hp by lia. rewrite Hspec by lia.
  rewrite flipped_take in Hp by lia. rewrite flipped_take by lia.
  destruct (flipped bins p) eqn:Hf; [| reflexivity].
  rewrite (flipped_snoc bins b p Hf) in Hp. discriminate.
Qed.

Lemma mask_shrinks_witness :
  (length (Py.lit "1101") <= length (Py.lit "11111111"))%nat
  /\ forall p, Py.lit "1101" !! p = Some "1"%char ->
               Py.lit "11111111" !! p = Some "1"%char.
Proof.
  apply (mask_shrinks [Py.lit "F0"; Py.lit "F0"] (Py.lit "D")).
  - vm_compute. reflexivity.
  - vm_compute. reflexivity.
Defined.

Lemma agree_chain (bins : list Py.str) (p : nat) :
  (forall i a b, bins !! i = Some a -> bins !! (i + 1)%nat = Some b ->
                 a !! p = b !! p) ->
  forall i a first, bins !! 0%nat = Some first -> bins !! i = Some a ->
                   a !! p = first !! p.
Proof.
  intros Hadj i. induction i as [| i IH]; intros a first H0 Hi.
  - congruence.
  - destruct (lookup_lt_is_Some_2 bins i) as [c Hc].
    { apply lookup_lt_Some in Hi. lia. }
    rewrite <- (IH c first H0 Hc). symmetry.
    apply (Hadj i c a Hc). rewrite Nat.add_1_r. exact Hi.
Qed.

(** X15.  Comparing neighbours only loses nothing: for measurements that
    decode to bit strings of one length, the mask has a 1 at position [p]
    exactly when all measurements, neighbours or not, agree at [p]. *)
Theorem mask_one_iff_all_agree (hex_codes bins : list Py.str) (L : nat) :
  (2 <= length hex_codes)%nat ->
  map_result hex_to_binary hex_codes = Ok bins ->
  Forall (fun b => length b = L) bins ->
  exists mask : Py.str,
    find_stable_bits hex_codes = Ok mask
    /\ forall p, (p < L)%nat ->
         (mask !! p = Some "1"%char
          <-> forall i j a b, bins !! i = Some a -> bins !! j = Some b ->
                              a !! p = b !! p).
Proof.
  intros Hlen Hbins Hall.
  destruct (find_stable_bits_spec hex_codes bins Hlen Hbins)
    as (m & mask & Hmin & Hrun & Hmlen & Hspec).
  pose proof (map_result_length _ _ _ Hbins) as Hbl.
  assert (m = L).
  { rewrite (py_min_same L) in Hmin.
    - congruence.
    - intros Hnil. apply (f_equal length) in Hnil.
      rewrite length_map in Hnil. simpl in Hnil. lia.
    - rewrite Forall_forall in Hall. rewrite Forall_forall. intros y Hy.
      apply list_elem_of_In, in_map_iff in Hy as (b & <- & Hb).
      apply Hall. apply list_elem_of_In. exact Hb. }
  subst L. exists mask. split; [exact Hrun |].
  intros p Hp. rewrite (Hspec p Hp), (map_take_same m bins Hall).
  assert (Hcell : forall i a, bins !! i = Some a -> exists x, a !! p = Some x).
  { intros i a Ha. apply lookup_lt_is_Some_2.
    rewrite Forall_forall in Hall. rewrite (Hall a); [exact Hp |].
    eapply list_elem_of_lookup_2. exact Ha. }
  destruct (lookup_lt_is_Some_2 bins 0 ltac:(lia)) as [first Hfirst].
  destruct (flipped bins p) eqn:Hf.
  - apply flipped_true in Hf as (i & a & b & x & y & Ha & Hb & Hx & Hy & Hxy).
    split; [discriminate |].
    intros Hsame. specialize (Hsame i (i + 1)%nat a b Ha Hb). congruence.
  - split; [| reflexivity]. intros _.
    assert (Hadj : forall i a b, bins !! i = Some a ->
                     bins !! (i + 1)%nat = Some b -> a !! p = b !! p).
    { intros i a b Ha Hb.
      destruct (Hcell i a Ha) as [x Hx]. destruct (Hcell _ b Hb) as [y Hy].
      rewrite Hx, Hy. f_equal.
      destruct (ascii_dec x y) as [Heq | Hne]; [exact Heq |].
      assert (flipped bins p = true)
        by (apply flipped_true; exists i, a, b, x, y; auto).
      congruence. }
    intros i j a b Ha Hb.
    rewrite (agree_chain bins p Hadj i a first Hfirst Ha).
    rewrite (agree_chain bins p Hadj j b first Hfirst Hb). reflexivity.
Qed.

Lemma mask_one_iff_all_agree_witness :
  exists mask : Py.str,
    find_stable_bits [Py.lit "A"; Py.lit "B"; Py.lit "A"] = Ok mask
    /\ forall p, (p < 4)%nat ->
         (mask !! p = Some "1"%char
          <-> forall i j a b,
                [Py.lit "1010"; Py.lit "1011"; Py.lit "1010"] !! i = Some a ->
                [Py.lit "1010"; Py.lit "1011"; Py.lit "1010"] !! j = Some b ->
                a !! p = b !! p).
Proof.
  apply (mask_one_iff_all_agree [Py.lit "A"; Py.lit "B"; Py.lit "A"]).
  - simpl. lia.
  - vm_compute. reflexivity.
  - repeat constructor.
Defined.

(** ** Hamming distance and weight *)

Lemma py_sum_bool_acc (l : list bool) :
  forall acc,
    foldl (fun a (x : bool) => a + (if x then 1 else 0)) acc l
    = acc + py_sum_bool l.
Proof.
  unfold py_sum_bool. induction l as [| x l IH]; intros acc; simpl; [lia |].
  rewrite IH, (IH (0 + _)). lia.
Qed.

Lemma py_sum_bool_cons (x : bool) (l : list bool) :
  py_sum_bool (x :: l) = (if x then 1 else 0) + py_sum_bool l.
Proof.
  unfold py_sum_bool at 1. simpl. rewrite py_sum_bool_acc. lia.
Qed.

Lemma differing_cons (x y : ascii) (a b : Py.str) :
  differing (x :: a) (y :: b)
  = (if negb (Py.chr_eqb x y) then 1 else 0) + differing a b.
Proof. unfold differing. simpl. apply py_sum_bool_cons. Qed.

Lemma differing_nil_l (b : Py.str) : differing [] b = 0.
Proof. reflexivity. Qed.

Lemma differing_nil_r (a : Py.str) : differing a [] = 0.
Proof. destruct a; reflexivity. Qed.

Lemma chr_eqb_sym (x y : ascii) : Py.chr_eqb x y = Py.chr_eqb y x.
Proof. unfold Py.chr_eqb. apply Ascii.eqb_sym. Qed.

Lemma differing_sym (a : Py.str) : forall b, differing a b = differing b a.
Proof.
  induction a as [| x a IH]; intros [| y b];
    rewrite ?differing_nil_l, ?differing_nil_r; try reflexivity.
  rewrite !differing_cons, IH, (chr_eqb_sym x y). reflexivity.
Qed.

Lemma differing_bounds (a : Py.str) :
  forall b, 0 <= differing a b <= Z.of_nat (length a).
Proof.
  induction a as [| x a IH]; intros [| y b];
    rewrite ?differing_nil_l, ?differing_nil_r; simpl length; try lia.
  rewrite differing_cons. specialize (IH b).
  destruct (negb (Py.chr_eqb x y)); lia.
Qed.

Lemma differing_zero (a : Py.str) :
  forall b, length a = length b -> (differing a b = 0 <-> a = b).
Proof.
  induction a as [| x a IH]; intros [| y b] Hlen; simpl in Hlen; try lia.
  - split; reflexivity.
  - rewrite differing_cons.
    pose proof (differing_bounds a b) as Hb.
    specialize (IH b ltac:(lia)).
    unfold Py.chr_eqb. destruct (Ascii.eqb x y) eqn:Hxy; simpl.
    + apply Ascii.eqb_eq in Hxy. subst y. split.
      * intros H. f_equal. apply IH. lia.
      * intros H. injection H as H. apply IH in H. lia.
    + apply Ascii.eqb_neq in Hxy. split; [lia | congruence].
Qed.

Lemma differing_triangle (a : Py.str) :
  forall b c, length a = length b -> length b = length c ->
              differing a c <= differing a b + differing b c.
Proof.
  induction a as [| x a IH]; intros [| y b] [| z c] Hab Hbc;
    simpl in Hab, Hbc; try lia.
  - rewrite !differing_nil_l. lia.
  - rewrite !differing_cons. specialize (IH b c ltac:(lia) ltac:(lia)).
    unfold Py.chr_eqb.
    destruct (Ascii.eqb x z) eqn:Hxz, (Ascii.eqb x y) eqn:Hxy,
             (Ascii.eqb y z) eqn:Hyz; simpl; try lia.
    apply Ascii.eqb_eq in Hxy, Hyz. subst. rewrite Ascii.eqb_refl in Hxz.
    discriminate.
Qed.

Lemma hamming_distance_same_length (s1 s2 : Py.str) :
  length s1 = length s2 -> Hamming.hamming_distance s1 s2 = Ok (differing s1 s2).
Proof.
  intros H. unfold Hamming.hamming_distance.
  rewrite H, Nat.eqb_refl. reflexivity.
Qed.

Lemma hamming_distance_inv (s1 s2 : Py.str) (d : Z) :
  Hamming.hamming_distance s1 s2 = Ok d ->
  length s1 = length s2 /\ d = differing s1 s2.
Proof.
  unfold Hamming.hamming_distance.
  destruct (length s1 =? length s2)%nat eqn:H; [| discriminate].
  apply Nat.eqb_eq in H. intros Hd. injection Hd as <-. auto.
Qed.

(** X16.  [hamming_distance] fails, with [ValueError], exactly when the
    two strings differ in length; a distance it returns lies between 0 and
    the common length. *)
Theorem hamming_distance_range (s1 s2 : Py.str) :
  (Hamming.hamming_distance s1 s2 = Raise ValueError
   <-> length s1 <> length s2)
  /\ (forall d, Hamming.hamming_distance s1 s2 = Ok d ->
                length s1 = length s2 /\ 0 <= d <= Z.of_nat (length s1)).
Proof.
  split.
  - unfold Hamming.hamming_distance.
    destruct (length s1 =? length s2)%nat eqn:H; simpl.
    + apply Nat.eqb_eq in H. split; [discriminate | contradiction].
    + apply Nat.eqb_neq in H. split; auto.
  - intros d H. apply hamming_distance_inv in H as [Hlen ->].
    split; [exact Hlen | apply differing_bounds].
Qed.

Lemma hamming_distance_range_witness :
  length (Py.lit "1100") = length (Py.lit "1010")
  /\ 0 <= 2 <= Z.of_nat (length (Py.lit "1100")).
Proof.
  apply (proj2 (hamming_distance_range (Py.lit "1100") (Py.lit "1010")) 2).
  vm_compute. reflexivity.
Defined.

(** [compare_devices.py] carries its own copy of [hamming_distance]. *)
Lemma compare_hamming_distance (s1 s2 : Py.str) :
  Compare.hamming_distance s1 s2 = Hamming.hamming_distance s1 s2.
Proof. reflexivity. Qed.

(** X17.  [hamming_distance] is symmetric, failures included, in
    [hamming_analysis.py] and in the copy of [compare_devices.py]: filling
    both halves of a distance matrix from one call is sound. *)
Theorem hamming_distance_sym (s1 s2 : Py.str) :
  Hamming.hamming_distance s1 s2 = Hamming.hamming_distance s2 s1
  /\ Compare.hamming_distance s1 s2 = Compare.hamming_distance s2 s1.
Proof.
  assert (H : Hamming.hamming_distance s1 s2 = Hamming.hamming_distance s2 s1).
  { unfold Hamming.hamming_distance. rewrite (Nat.eqb_sym (length s1)).
    destruct (length s2 =? length s1)%nat; [| reflexivity].
    simpl. f_equal. apply differing_sym. }
  split; [exact H |]. rewrite !compare_hamming_distance. exact H.
Qed.

(** X18.  The distance between two strings is 0 exactly when they are
    the same string. *)
Theorem hamming_distance_zero (s1 s2 : Py.str) :
  Hamming.hamming_distance s1 s2 = Ok 0 <-> s1 = s2.
Proof.
  split.
  - intros H. apply hamming_distance_inv in H as [Hlen Hd].
    apply (differing_zero s1 s2 Hlen). congruence.
  - intros ->. rewrite hamming_distance_same_length by reflexivity.
    f_equal. apply differing_zero; reflexivity.
Qed.

Lemma hamming_distance_zero_witness :
  Hamming.hamming_distance (Py.lit "1011") (Py.lit "1011") = Ok 0.
Proof.
  apply (proj2 (hamming_distance_zero (Py.lit "1011") (Py.lit "1011"))).
  reflexivity.
Defined.

(** X19.  The triangle inequality: when the distances from [s1] to [s2]
    and from [s2] to [s3] are defined, so is the one from [s1] to [s3], and
    it is at most their sum. *)
Theorem hamming_distance_triangle (s1 s2 s3 : Py.str) (d12 d23 : Z) :
  Hamming.hamming_distance s1 s2 = Ok d12 ->
  Hamming.hamming_distance s2 s3 = Ok d23 ->
  exists d13, Hamming.hamming_distance s1 s3 = Ok d13 /\ d13 <= d12 + d23.
Proof.
  intros H12 H23.
  apply hamming_distance_inv in H12 as [L12 ->].
  apply hamming_distance_inv in H23 as [L23 ->].
  exists (differing s1 s3).
  split; [apply hamming_distance_same_length; congruence |].
  apply differing_triangle; assumption.
Qed.

Lemma hamming_distance_triangle_witness :
  exists d13,
    Hamming.hamming_distance (Py.lit "1100") (Py.lit "0110") = Ok d13
    /\ d13 <= 2 + 2.
Proof.
  apply (hamming_distance_triangle (Py.lit "1100") (Py.lit "1010") (Py.lit "0110")).
  - vm_compute. reflexivity.
  - vm_compute. reflexivity.
Defined.

Lemma count_cons (c x : ascii) (s : Py.str) :
  Py.count c (x :: s) = (if Py.chr_eqb x c then 1 else 0) + Py.count c s.
Proof.
  unfold Py.count. simpl. destruct (Py.chr_eqb x c); simpl length; lia.
Qed.

Lemma count_zero_differing (l : list (ascii * ascii)) :
  Py.count "0"
    (map (fun el => if negb (Py.chr_eqb (fst el) (snd el))
                    then "0"%char else "1"%char) l)
  = py_sum_bool (map (fun el => negb (Py.chr_eqb (fst el) (snd el))) l).
Proof.
  induction l as [| el l IH]; [reflexivity |].
  simpl map. rewrite count_cons, py_sum_bool_cons, IH.
  destruct (negb (Py.chr_eqb (fst el) (snd el))); reflexivity.
Qed.

Lemma count_one_differing (l : list (ascii * ascii)) :
  Py.count "1"
    (map (fun el => if negb (Py.chr_eqb (fst el) (snd el))
                    then "0"%char else "1"%char) l)
  = Z.of_nat (length l)
    - py_sum_bool (map (fun el => negb (Py.chr_eqb (fst el) (snd el))) l).
Proof.
  induction l as [| el l IH]; [reflexivity |].
  simpl map. rewrite count_cons, py_sum_bool_cons, IH. simpl length.
  destruct (negb (Py.chr_eqb (fst el) (snd el))); simpl; lia.
Qed.

(** X20.  For two measurements of one decoded length, the unstable bits of
    the mask are counted by the Hamming distance of the two decoded
    measurements: the mask has as many zeros as the distance, and the
    stable-bit count [main] prints is the length minus the distance. *)
Theorem mask_zeros_are_distance (c1 c2 b1 b2 mask : Py.str) :
  hex_to_binary c1 = Ok b1 -> hex_to_binary c2 = Ok b2 ->
  length b1 = length b2 ->
  find_stable_bits [c1; c2] = Ok mask ->
  Hamming.hamming_distance b1 b2 = Ok (Py.count "0" mask)
  /\ Py.count "1" mask = Z.of_nat (length b1) - Py.count "0" mask.
Proof.
  intros H1 H2 Hlen Hmask.
  assert (Hbins : map_result hex_to_binary [c1; c2] = Ok [b1; b2]).
  { simpl. rewrite H1, bind_Ok, H2. reflexivity. }
  destruct (find_stable_bits_spec [c1; c2] [b1; b2] ltac:(simpl; lia) Hbins)
    as (m & mask' & Hmin & Hrun & Hmlen & Hspec).
  assert (mask' = mask) by congruence. subst mask'.
  simpl in Hmin. injection Hmin as Hm. rewrite <- Hlen, Nat.min_id in Hm.
  subst m.
  assert (Hall : Forall (fun b => length b = length b1) [b1; b2])
    by (repeat constructor; congruence).
  assert (Heq : mask = map (fun el => if negb (Py.chr_eqb (fst el) (snd el))
                                      then "0"%char else "1"%char)
                           (zip b1 b2)).
  { apply list_eq. intros p.
    destruct (Nat.lt_ge_cases p (length b1)) as [Hp | Hp].
    - rewrite (Hspec p Hp), (map_take_same (length b1) [b1; b2] Hall).
      rewrite lookup_map, lookup_zip_with.
      destruct (lookup_lt_is_Some_2 b1 p Hp) as [x Hx].
      destruct (lookup_lt_is_Some_2 b2 p ltac:(lia)) as [y Hy].
      rewrite Hx, Hy. simpl.
      unfold flipped, differs. simpl. rewrite Hx, Hy, orb_false_r.
      reflexivity.
    - rewrite (lookup_ge_None_2 mask p) by lia.
      rewrite lookup_map, lookup_zip_with.
      rewrite (lookup_ge_None_2 b1 p) by lia. reflexivity. }
  rewrite hamming_distance_same_length by exact Hlen.
  rewrite Heq, count_zero_differing, count_one_differing.
  unfold differing. split; [reflexivity |].
  rewrite length_zip_with, <- Hlen, Nat.min_id. reflexivity.
Qed.

Lemma mask_zeros_are_distance_witness :
  Hamming.hamming_distance (Py.lit "11110000") (Py.lit "11010001")
  = Ok (Py.count "0" (Py.lit "11011110"))
  /\ Py.count "1" (Py.lit "11011110")
     = Z.of_nat (length (Py.lit "11110000")) - Py.count "0" (Py.lit "11011110").
Proof.
  apply (mask_zeros_are_distance (Py.lit "F0") (Py.lit "D1")).
  - vm_compute. reflexivity.
  - vm_compute. reflexivity.
  - reflexivity.
  - vm_compute. reflexivity.
Defined.

(** X21.  For a string of 0s and 1s, the Hamming weight returned by
    [hamming_weight] lies between 0 and the length of that string, the
    string's own length minus its weight is the number of its 0 characters,
    and the weight is the Hamming distance to the all-zero string of the
    same length.  (Nothing is said here of the weight table of [main],
    which subtracts from the length of the first measurement.) *)
Theorem hamming_weight_bits (s : Py.str) :
  Forall (fun c => c = "0"%char \/ c = "1"%char) s ->
  0 <= Hamming.hamming_weight s <= Z.of_nat (length s)
  /\ Py.count "0" s = Z.of_nat (length s) - Hamming.hamming_weight s
  /\ Hamming.hamming_distance s (replicate (length s) "0"%char)
     = Ok (Hamming.hamming_weight s).
Proof.
  intros Hs.
  rewrite hamming_distance_same_length by (rewrite length_replicate; reflexivity).
  unfold Hamming.hamming_weight.
  induction Hs as [| c s Hc _ (IH1 & IH2 & IH3)].
  - repeat split; reflexivity || (simpl; lia).
  - injection IH3 as IH3.
    simpl length. simpl replicate.
    rewrite differing_cons, !count_cons, IH2, IH3.
    destruct Hc as [-> | ->]; simpl; repeat split; try lia; f_equal; lia.
Qed.

Lemma hamming_weight_bits_witness :
  0 <= Hamming.hamming_weight (Py.lit "10110") <= Z.of_nat (length (Py.lit "10110"))
  /\ Py.count "0" (Py.lit "10110")
     = Z.of_nat (length (Py.lit "10110")) - Hamming.hamming_weight (Py.lit "10110")
  /\ Hamming.hamming_distance (Py.lit "10110")
       (replicate (length (Py.lit "10110")) "0"%char)
     = Ok (Hamming.hamming_weight (Py.lit "10110")).
Proof.
  apply (hamming_weight_bits (Py.lit "10110")).
  repeat (apply Forall_cons; split;
          [first [left; reflexivity | right; reflexivity] |]).
  apply Forall_nil_2.
Defined.

(** ** The readers of the three tools *)

Lemma hamming_hex_to_binary (s : Py.str) :
  Hamming.hex_to_binary s = hex_to_binary s.
Proof.
  unfold Hamming.hex_to_binary, hex_to_binary.
  destruct (Py.int s 16) as [v | e]; [| reflexivity].
  rewrite !bind_Ok, (Z.mul_comm 4). reflexivity.
Qed.

Lemma map_result_same {A B : Type} (f g : A -> result B) (l : list A) :
  (forall x, f x = g x) -> map_result f l = map_result g l.
Proof.
  intros H. induction l as [| a l IH]; [reflexivity |].
  simpl. rewrite H, IH. reflexivity.
Qed.

Lemma hamming_read (f : file) :
  Hamming.read_hex_and_convert f = map_result hex_to_binary (read_hex_codes f).
Proof.
  unfold Hamming.read_hex_and_convert, read_hex_codes.
  apply map_result_same, hamming_hex_to_binary.
Qed.

(** X22.  [find_stable_bits] accepts the measurements of a file exactly
    when the reader of [hamming_analysis.py] converts the file and finds at
    least two measurements in it: the two tools read a file alike. *)
Theorem mask_iff_analysis_reads (f : file) :
  (exists mask, find_stable_bits (read_hex_codes f) = Ok mask)
  <-> (exists bins, Hamming.read_hex_and_convert f = Ok bins
                    /\ (2 <= length bins)%nat).
Proof.
  rewrite hamming_read. split.
  - intros [mask H].
    destruct (find_stable_bits_inv _ _ H) as (Hlen & bins & m & Hbins & _).
    exists bins. split; [exact Hbins |].
    rewrite (map_result_length _ _ _ Hbins). exact Hlen.
  - intros (bins & Hbins & Hlen).
    rewrite (map_result_length _ _ _ Hbins) in Hlen.
    destruct (find_stable_bits_spec _ bins Hlen Hbins)
      as (m & mask & _ & Hrun & _). eauto.
Qed.

Lemma mask_iff_analysis_reads_witness :
  exists mask,
    find_stable_bits (read_hex_codes [Py.lit "F0"; Py.lit ""; Py.lit " D0 "])
    = Ok mask.
Proof.
  apply (proj2 (mask_iff_analysis_reads [Py.lit "F0"; Py.lit ""; Py.lit " D0 "])).
  exists [Py.lit "11110000"; Py.lit "11010000"].
  split; [vm_compute; reflexivity | simpl; lia].
Defined.

(** X23.  [compare_devices.py] takes the first non-blank line of a file as
    the device's measurement: a blank first line is skipped, a file
    without a non-blank line gives [None], and when the first line is not
    blank the result is what [pufchallenge.py] decodes as its reference
    measurement. *)
Theorem compare_reads_first_non_blank (line : Py.str) (rest : file) :
  Compare.read_hex_and_convert [] = Ok None
  /\ (Py.strip line = [] ->
      Compare.read_hex_and_convert (line :: rest)
      = Compare.read_hex_and_convert rest)
  /\ (Py.strip line <> [] ->
      Compare.read_hex_and_convert (line :: rest)
      = (let* b := hex_to_binary (get_first_measurement (line :: rest)) in
         Ok (Some b))).
Proof.
  split; [reflexivity |]. split.
  - intros Hblank. unfold Compare.read_hex_and_convert.
    simpl map. simpl List.filter. rewrite Hblank. reflexivity.
  - intros Hne. unfold Compare.read_hex_and_convert.
    simpl map. simpl List.filter.
    replace (nonempty (Py.strip line)) with true
      by (destruct (Py.strip line); [congruence | reflexivity]).
    change (get_first_measurement (line :: rest)) with (Py.strip line).
    unfold hex_to_binary.
    destruct (Py.int (Py.strip line) 16) as [v | e]; [| reflexivity].
    rewrite !bind_Ok, (Z.mul_comm 4). reflexivity.
Qed.

Lemma compare_reads_first_non_blank_witness :
  Compare.read_hex_and_convert (Py.lit "  " :: [Py.lit "F0"])
  = Compare.read_hex_and_convert [Py.lit "F0"]
  /\ Compare.read_hex_and_convert (Py.lit "F0 " :: [Py.lit "zz"])
     = (let* b := hex_to_binary
                    (get_first_measurement (Py.lit "F0 " :: [Py.lit "zz"])) in
        Ok (Some b)).
Proof.
  split.
  - apply (proj1 (proj2 (compare_reads_first_non_blank (Py.lit "  ") [Py.lit "F0"]))).
    reflexivity.
  - apply (proj2 (proj2 (compare_reads_first_non_blank (Py.lit "F0 ") [Py.lit "zz"]))).
    discriminate.
Defined.

(** ** White space and letter case in a measurement file *)

Lemma lstrip_spaces (w s : Py.str) :
  Forall (fun c => Py.isspace c = true) w -> Py.lstrip (w ++ s) = Py.lstrip s.
Proof.
  induction 1 as [| c w Hc _ IH]; [reflexivity |].
  simpl. rewrite Hc. exact IH.
Qed.

Lemma lstrip_app_keep (s w : Py.str) :
  Py.lstrip s <> [] -> Py.lstrip (s ++ w) = Py.lstrip s ++ w.
Proof.
  induction s as [| c s IH]; intros H; [simpl in H; congruence |].
  simpl in *. destruct (Py.isspace c); [apply IH; exact H | reflexivity].
Qed.

Lemma lstrip_all_spaces (s : Py.str) :
  Py.lstrip s = [] -> Forall (fun c => Py.isspace c = true) s.
Proof.
  induction s as [| c s IH]; intros H; [constructor |].
  simpl in H. destruct (Py.isspace c) eqn:Hc; [| discriminate].
  constructor; [exact Hc | apply IH; exact H].
Qed.

Lemma strip_padded (w1 s w2 : Py.str) :
  Forall (fun c => Py.isspace c = true) w1 ->
  Forall (fun c => Py.isspace c = true) w2 ->
  Py.strip (w1 ++ s ++ w2) = Py.strip s.
Proof.
  intros H1 H2. unfold Py.strip. rewrite lstrip_spaces by exact H1.
  destruct (Py.lstrip s) as [| c r] eqn:Hs.
  - apply lstrip_all_spaces in Hs.
    rewrite <- (app_nil_r (s ++ w2)), lstrip_spaces; [reflexivity |].
    apply Forall_app. split; assumption.
  - rewrite lstrip_app_keep by (rewrite Hs; discriminate).
    rewrite Hs, rev_app_distr, lstrip_spaces; [reflexivity |].
    apply Forall_rev. exact H2.
Qed.

Lemma strip_blank (w : Py.str) :
  Forall (fun c => Py.isspace c = true) w -> Py.strip w = [].
Proof.
  intros H. rewrite <- (app_nil_r w).
  change (w ++ []) with (w ++ [] ++ []).
  rewrite (strip_padded w [] []) by (assumption || constructor). reflexivity.
Qed.

Lemma read_hex_codes_app (f1 f2 : file) :
  read_hex_codes (f1 ++ f2) = read_hex_codes f1 ++ read_hex_codes f2.
Proof.
  unfold read_hex_codes. rewrite map_app. apply List.filter_app.
Qed.

(** X24.  White space is no part of a measurement: a blank line anywhere
    in the file, and white space before or after the hex string of a line,
    leave the list of codes [read_hex_codes] returns unchanged. *)
Theorem read_hex_codes_ignores_space (f1 f2 : file) (blank w1 s w2 : Py.str) :
  Forall (fun c => Py.isspace c = true) blank ->
  Forall (fun c => Py.isspace c = true) w1 ->
  Forall (fun c => Py.isspace c = true) w2 ->
  read_hex_codes (f1 ++ blank :: f2) = read_hex_codes (f1 ++ f2)
  /\ read_hex_codes (f1 ++ (w1 ++ s ++ w2) :: f2)
     = read_hex_codes (f1 ++ s :: f2).
Proof.
  intros Hb H1 H2. rewrite !read_hex_codes_app. split; f_equal.
  - unfold read_hex_codes. simpl map. simpl List.filter.
    rewrite (strip_blank blank Hb). reflexivity.
  - unfold read_hex_codes. simpl map. simpl List.filter.
    rewrite (strip_padded w1 s w2 H1 H2). reflexivity.
Qed.

Lemma read_hex_codes_ignores_space_witness :
  read_hex_codes ([Py.lit "F0"] ++ Py.lit "  " :: [Py.lit "D0"])
  = read_hex_codes ([Py.lit "F0"] ++ [Py.lit "D0"])
  /\ read_hex_codes ([Py.lit "F0"] ++ (Py.lit " " ++ Py.lit "E0" ++ Py.lit "  ")
                       :: [Py.lit "D0"])
     = read_hex_codes ([Py.lit "F0"] ++ Py.lit "E0" :: [Py.lit "D0"]).
Proof.
  apply (read_hex_codes_ignores_space [Py.lit "F0"]);
    repeat constructor.
Defined.

Lemma hex_lower (c : ascii) :
  is_hex_digit c = true ->
  is_hex_digit (lower c) = true /\ Py.digit_value (lower c) = Py.digit_value c.
Proof. unfold is_hex_digit. all_chars c. Qed.

(** X25.  Decoding does not depend on the letter case: a non-empty string
    of hex digits and its lower-case form decode to the same bits. *)
Theorem hex_to_binary_case (s : Py.str) :
  s <> [] -> Forall (fun c => is_hex_digit c = true) s ->
  hex_to_binary (map lower s) = hex_to_binary s.
Proof.
  intros Hne Hs.
  rewrite (hex_to_binary_hex s Hne (hex_string_digits s Hs)).
  rewrite hex_to_binary_hex.
  - f_equal. f_equal. rewrite map_map. apply map_ext_in. intros c Hc.
    rewrite Forall_forall in Hs.
    unfold nibble.
    rewrite (proj2 (hex_lower c (Hs c (proj2 (list_elem_of_In _ _) Hc)))).
    reflexivity.
  - destruct s; [congruence | discriminate].
  - apply hex_string_digits. rewrite Forall_forall in Hs.
    rewrite Forall_forall. intros c Hc.
    apply list_elem_of_In, in_map_iff in Hc as (x & <- & Hx).
    apply hex_lower, Hs, list_elem_of_In, Hx.
Qed.

Lemma hex_to_binary_case_witness :
  hex_to_binary (map lower (Py.lit "aF09")) = hex_to_binary (Py.lit "aF09").
Proof.
  apply (hex_to_binary_case (Py.lit "aF09")).
  - discriminate.
  - repeat constructor.
Defined.

(** ** Which measurement is the reference *)

Lemma selected_agree (c : Py.str) :
  forall r1 r2,
    (length c <= length r1)%nat -> (length c <= length r2)%nat ->
    (forall i, c !! i = Some "1"%char -> r1 !! i = r2 !! i) ->
    selected c r1 = selected c r2.
Proof.
  induction c as [| x c IH]; intros r1 r2 H1 H2 Hsame; [reflexivity |].
  destruct r1 as [| y1 r1]; [simpl in H1; lia |].
  destruct r2 as [| y2 r2]; [simpl in H2; lia |].
  rewrite !selected_cons.
  assert (Hrec : selected c r1 = selected c r2).
  { apply IH; simpl in H1, H2; try lia.
    intros i Hi. exact (Hsame (S i) Hi). }
  destruct (Py.chr_eqb x "1") eqn:Hx; [| exact Hrec].
  apply chr_eqb_true in Hx. subst x.
  specialize (Hsame 0%nat eq_refl). simpl in Hsame. injection Hsame as ->.
  rewrite Hrec. reflexivity.
Qed.

Lemma extract_reads_selected_positions_aux (c r1 r2 : Py.str) :
  (length c <= length r1)%nat -> (length c <= length r2)%nat ->
  (forall i, c !! i = Some "1"%char -> r1 !! i = r2 !! i) ->
  extract_bits_from_sram_to_bytearray c r1
  = extract_bits_from_sram_to_bytearray c r2.
Proof.
  intros H1 H2 Hsame.
  rewrite !extract_selected by (apply ones_in_range; assumption).
  rewrite (selected_agree c r1 r2 H1 H2 Hsame). reflexivity.
Qed.

(** X26.  The extractor reads the reference at the 1 positions of the
    challenge only: two references that agree at those positions give the
    same result, whatever they hold elsewhere. *)
Theorem extract_reads_selected_positions (c r1 r2 : Py.str) :
  (length c <= length r1)%nat -> (length c <= length r2)%nat ->
  (forall i, c !! i = Some "1"%char -> r1 !! i = r2 !! i) ->
  extract_bits_from_sram_to_bytearray c r1
  = extract_bits_from_sram_to_bytearray c r2.
Proof. apply extract_reads_selected_positions_aux. Qed.

Lemma extract_reads_selected_positions_witness :
  extract_bits_from_sram_to_bytearray (Py.lit "1010") (Py.lit "11000")
  = extract_bits_from_sram_to_bytearray (Py.lit "1010") (Py.lit "1001").
Proof.
  apply (extract_reads_selected_positions (Py.lit "1010")).
  - simpl. lia.
  - simpl. lia.
  - intros [| [| [| [| i]]]] Hi; try discriminate Hi; reflexivity.
Defined.

Lemma mask_one_agree (hex_codes bins : list Py.str) (L : nat) (mask : Py.str) :
  map_result hex_to_binary hex_codes = Ok bins ->
  Forall (fun b => length b = L) bins ->
  find_stable_bits hex_codes = Ok mask ->
  length mask = L
  /\ forall p i j a b,
       mask !! p = Some "1"%char ->
       bins !! i = Some a -> bins !! j = Some b -> a !! p = b !! p.
Proof.
  intros Hbins Hall Hmask.
  destruct (find_stable_bits_inv _ _ Hmask)
    as (Hlen & bins' & m & Hbins' & Hmin & Hm & Hspec).
  assert (bins' = bins) by congruence. subst bins'.
  pose proof (map_result_length _ _ _ Hbins) as Hbl.
  assert (m = L).
  { rewrite (py_min_same L) in Hmin.
    - congruence.
    - intros Hnil. apply (f_equal length) in Hnil.
      rewrite length_map in Hnil. simpl in Hnil. lia.
    - rewrite Forall_forall in Hall. rewrite Forall_forall. intros y Hy.
      apply list_elem_of_In, in_map_iff in Hy as (b & <- & Hb).
      apply Hall. apply list_elem_of_In. exact Hb. }
  subst L. split; [exact Hm |].
  intros p i j a b Hp Ha Hb.
  pose proof (lookup_lt_Some _ _ _ Hp) as Hlt.
  rewrite Hspec in Hp by lia. rewrite (map_take_same m bins Hall) in Hp.
  destruct (flipped bins p) eqn:Hf; [discriminate |].
  assert (Hcell : forall k c, bins !! k = Some c -> exists x, c !! p = Some x).
  { intros k c Hc. apply lookup_lt_is_Some_2.
    rewrite Forall_forall in Hall. rewrite (Hall c); [lia |].
    eapply list_elem_of_lookup_2. exact Hc. }
  assert (Hadj : forall k c d, bins !! k = Some c ->
                   bins !! (k + 1)%nat = Some d -> c !! p = d !! p).
  { intros k c d Hc Hd.
    destruct (Hcell k c Hc) as [x Hx]. destruct (Hcell _ d Hd) as [y Hy].
    rewrite Hx, Hy. f_equal.
    destruct (ascii_dec x y) as [Heq | Hne]; [exact Heq |].
    assert (flipped bins p = true)
      by (apply flipped_true; exists k, c, d, x, y; auto).
    congruence. }
  destruct (lookup_lt_is_Some_2 bins 0 ltac:(lia)) as [first Hfirst].
  rewrite (agree_chain bins p Hadj i a first Hfirst Ha).
  rewrite (agree_chain bins p Hadj j b first Hfirst Hb). reflexivity.
Qed.

(** X27.  Any of the measurements can serve as the reference: for
    measurements that decode to bit strings of one length, extracting with
    a challenge cut from their mask gives the same result from every one of
    them, so the same token. *)
Theorem reference_choice_is_free (hex_codes bins : list Py.str) (L : nat)
    (mask : Py.str) (n : Z) :
  map_result hex_to_binary hex_codes = Ok bins ->
  Forall (fun b => length b = L) bins ->
  find_stable_bits hex_codes = Ok mask ->
  forall i j a b,
    bins !! i = Some a -> bins !! j = Some b ->
    extract_bits_from_sram_to_bytearray (Py.slice_to mask n) a
    = extract_bits_from_sram_to_bytearray (Py.slice_to mask n) b.
Proof.
  intros Hbins Hall Hmask i j a b Ha Hb.
  destruct (mask_one_agree _ _ _ _ Hbins Hall Hmask) as [Hm Hagree].
  pose proof (slice_to_length mask n) as Hsl.
  assert (Hla : length a = L).
  { rewrite Forall_forall in Hall. apply Hall.
    eapply list_elem_of_lookup_2. exact Ha. }
  assert (Hlb : length b = L).
  { rewrite Forall_forall in Hall. apply Hall.
    eapply list_elem_of_lookup_2. exact Hb. }
  apply extract_reads_selected_positions_aux; try lia.
  intros p Hp. apply (Hagree p i j a b); try assumption.
  unfold Py.slice_to in Hp.
  destruct (n <? 0); apply lookup_take_Some in Hp as [Hp _]; exact Hp.
Qed.

Lemma reference_choice_is_free_witness :
  extract_bits_from_sram_to_bytearray (Py.slice_to (Py.lit "11011111") 4)
    (Py.lit "11110000")
  = extract_bits_from_sram_to_bytearray (Py.slice_to (Py.lit "11011111") 4)
      (Py.lit "11010000").
Proof.
  apply (reference_choice_is_free
           [Py.lit "F0"; Py.lit "F0"; Py.lit "D0"]
           [Py.lit "11110000"; Py.lit "11110000"; Py.lit "11010000"]
           8 (Py.lit "11011111") 4 ltac:(vm_compute; reflexivity)
           ltac:(repeat constructor) ltac:(vm_compute; reflexivity)
           0%nat 2%nat);
    reflexivity.
Defined.
